(** * tap-marketo: the incremental extraction engine ([tap_marketo/sync.py])

    A shallow embedding of [sync.py] and the properties of its replication
    bookmarks, export windows, pagination and value formatting.

    Conventions of the embedding:
    - Python values are the inductive [pyval]; dictionaries that are only
      looked up are [gmap string pyval].
    - A [pendulum] datetime is an instant in microseconds since the epoch
      together with its UTC offset; every comparison the engine makes is a
      comparison of instants.
    - The Python runtime and library functions the engine calls ([int],
      [float], [str], [str.lower], [>=], [json.loads], [pendulum.parse],
      [isoformat]) are the interface [Runtime]; the Marketo client and the
      wall clock are the interface [Env].
    - The engine mutates one state dictionary in place and prints messages;
      the embedding threads a [World] and collects the messages, in order,
      in a trace of [event]s.  A raised exception keeps the world and the
      trace reached so far.
    - [while] loops take fuel; running out of fuel is the outcome [Timeout],
      distinct from every Python exception. *)

From stdpp Require Import gmap strings list fin_maps.
From Stdlib Require Import ZArith Lia Ascii.

Local Open Scope string_scope.
Local Open Scope Z_scope.
Local Open Scope list_scope.

(** ** Python values *)

#[warnings="-register-all"]
Inductive pyval : Type :=
| VNone
| VBool (b : bool)
| VInt (n : Z)
| VFloat (bits : Z)                (* an IEEE-754 binary64, as its 64 bits *)
| VStr (s : string)
| VList (l : list pyval)
| VDict (d : gmap string pyval).

Abbreviation pydict := (gmap string pyval).

(** Exceptions the engine can raise or let through. *)
Inductive exn : Type :=
| KeyError (key : string)
| TypeError
| ValueError
| AttributeError
| StopIteration
| ExportFailed
| ClientError (msg : string)
| NotImplemented (tap_stream_id : string).

Abbreviation result A := (exn + A)%type.

Definition rbind {A B} (r : result A) (f : A → result B) : result B :=
  match r with
  | inl e => inl e
  | inr a => f a
  end.

(** [v == s] for a string literal [s]. *)
Definition py_eq_str (v : pyval) (s : string) : bool :=
  match v with
  | VStr s' => String.eqb s' s
  | _ => false
  end.

(** [s in l] for a string literal [s] and a list [l]. *)
Definition py_str_in (s : string) (l : list pyval) : bool :=
  existsb (λ v, py_eq_str v s) l.

(** Truth value of a Python object, as [if v:] tests it. *)
Definition truthy (v : pyval) : bool :=
  match v with
  | VNone => false
  | VBool b => b
  | VInt n => negb (n =? 0)
  | VFloat bits => negb ((bits =? 0) || (bits =? 2 ^ 63))
  | VStr s => negb (String.eqb s "")
  | VList l => match l with [] => false | _ => true end
  | VDict d => negb (bool_decide (d = ∅))
  end.

(** [d.get(k)]: [None] when the key is missing. *)
Definition py_get (d : pydict) (k : string) : pyval :=
  default VNone (d !! k).

(** [d[k]]: [KeyError] when the key is missing. *)
Definition py_item (d : pydict) (k : string) : result pyval :=
  match d !! k with
  | Some v => inr v
  | None => inl (KeyError k)
  end.

(** ** Datetimes *)

Record datetime : Type := mk_datetime {
  instant : Z;        (* microseconds since the epoch, UTC *)
  utcoffset : Z       (* offset of the rendering zone, in seconds *)
}.

Definition MICROS_PER_DAY : Z := 86400 * 1000000.

Definition dt_add_days (d : datetime) (days : Z) : datetime :=
  mk_datetime (instant d + days * MICROS_PER_DAY) (utcoffset d).

Definition dt_subtract_days (d : datetime) (days : Z) : datetime :=
  mk_datetime (instant d - days * MICROS_PER_DAY) (utcoffset d).

(** [d.replace(microsecond=0)]; offsets are whole seconds. *)
Definition dt_replace_microsecond_0 (d : datetime) : datetime :=
  mk_datetime (instant d - instant d mod 1000000) (utcoffset d).

Definition dt_lt (a b : datetime) : bool := instant a <? instant b.
Definition dt_ge (a b : datetime) : bool := instant b <=? instant a.

(** [max(a, b)] returns its first argument unless the second is greater. *)
Definition dt_max (a b : datetime) : datetime :=
  if instant a <? instant b then b else a.

(** ** The Python runtime and the libraries the engine calls *)

Class Runtime : Type := {
  pendulum_parse : pyval → result datetime;
  isoformat : datetime → string;
  py_int : pyval → result pyval;
  py_float : pyval → result pyval;
  py_str : pyval → pyval;
  str_lower : string → string;
  py_ge : pyval → pyval → result bool;
  json_loads : pyval → result (list (string * pyval));
  (* an ISO-8601 rendering is never the empty string *)
  isoformat_nonempty : ∀ d, isoformat d ≠ ""
}.

(** ** Constants of [sync.py] *)

Definition MAX_EXPORT_DAYS : Z := 30.
Definition ATTRIBUTION_WINDOW_DAYS : Z := 1.
Definition BASE_ACTIVITY_FIELDS : list string :=
  ["marketoGUID"; "leadId"; "activityDate"; "activityTypeId"].
Definition ACTIVITY_FIELDS : list string :=
  BASE_ACTIVITY_FIELDS ++
  ["primaryAttributeValue"; "primaryAttributeValueId"; "attributes"].
Definition NO_ASSET_MSG : string :=
  "No assets found for the given search criteria.".

(** ** Value formatter *)

Section Formatter.
Context `{RT : Runtime}.

(** [value in [None, "", 'null']] *)
Definition null_equivalent (value : pyval) : bool :=
  match value with
  | VNone => true
  | VStr s => String.eqb s "" || String.eqb s "null"
  | _ => false
  end.

Definition field_type_of (ty : pyval) : list pyval :=
  match ty with
  | VList l => l
  | _ => [ty]
  end.

Definition format_value (value : pyval) (schema : pydict) : result pyval :=
  rbind (py_item schema "type") (λ ty,
    let field_type := field_type_of ty in
    if null_equivalent value then inr VNone
    else if py_eq_str (py_get schema "format") "date-time" then
      rbind (pendulum_parse value) (λ d, inr (VStr (isoformat d)))
    else if py_str_in "integer" field_type then py_int value
    else if py_str_in "string" field_type then inr (py_str value)
    else if py_str_in "number" field_type then py_float value
    else if py_str_in "boolean" field_type then
      match value with
      | VBool _ => inr value
      | VStr s => inr (VBool (String.eqb (str_lower s) "true"))
      | _ => inl AttributeError
      end
    else inr value).

(** [schema.get("selected") or schema.get("inclusion") == "automatic"] *)
Definition field_wanted (schema : pydict) : bool :=
  truthy (py_get schema "selected")
  || py_eq_str (py_get schema "inclusion") "automatic".

(** The loop of [format_values] over [properties.items()], in order. *)
Fixpoint format_fields (properties : list (string * pydict)) (row rtn : pydict)
    : result pydict :=
  match properties with
  | [] => inr rtn
  | (field, schema) :: rest =>
      if negb (field_wanted schema) then format_fields rest row rtn
      else rbind (format_value (py_get row field) schema) (λ v,
             format_fields rest row (<[field := v]> rtn))
  end.
End Formatter.

(** ** The bookmark store ([singer.bookmarks]) *)

(** The state dictionary: [state["bookmarks"][tap_stream_id][key]] and
    [state["currently_syncing"]].  A missing dictionary reads like an empty
    one, and a missing marker like [None], as [dict.get] makes them. *)
Record State : Type := mk_State {
  bookmarks : gmap string pydict;
  currently_syncing : pyval
}.

Definition stream_bookmarks (st : State) (tap_stream_id : string) : pydict :=
  default ∅ (bookmarks st !! tap_stream_id).

Definition get_bookmark (st : State) (tap_stream_id key : string) : pyval :=
  py_get (stream_bookmarks st tap_stream_id) key.

Definition write_bookmark (st : State) (tap_stream_id key : string) (val : pyval)
    : State :=
  mk_State
    (<[tap_stream_id := <[key := val]> (stream_bookmarks st tap_stream_id)]>
       (bookmarks st))
    (currently_syncing st).

Definition set_currently_syncing (st : State) (tap_stream_id : pyval) : State :=
  mk_State (bookmarks st) tap_stream_id.

Definition get_currently_syncing (st : State) : pyval := currently_syncing st.

Definition is_none (v : pyval) : bool :=
  match v with
  | VNone => true
  | _ => false
  end.

(** ** Category descriptors *)

Record stream : Type := mk_stream {
  tap_stream_id : string;
  selected : pyval;                       (* stream["schema"].get("selected") *)
  properties : list (string * pydict);    (* stream["schema"]["properties"] *)
  key_properties : list string;
  replication_key : string;
  activity_id : pyval;                    (* metadata 'marketo.activity-id' *)
  primary_attribute_name : pyval          (* 'marketo.primary-attribute-name' *)
}.

(** A stream passed where a value is expected: a non-empty dictionary. *)
Definition stream_value (s : stream) : pyval :=
  VDict {[ "tap_stream_id" := VStr (tap_stream_id s);
           "replication_key" := VStr (replication_key s) ]}.

(** ** The Marketo client and the clock *)

Inductive client_call : Type :=
| CallExportAvailable (stream_type : string) (export_id : pyval)
| CallCreateExport (stream_type : string) (fields : list string) (query : pydict)
| CallWaitForExport (stream_type : string) (export_id : pyval)
| CallStreamExport (stream_type : string) (export_id : pyval)
| CallRequest (endpoint endpoint_name : string) (params : option pydict).

(** The remote system is a state machine the engine does not see into:
    every call may change it and may raise.  [create_export] returns a job
    id, never [None].  [stream_export] gives the downloaded file as
    [csv.reader] reads it: the header line and the data lines.  [clock n] is
    the [n]-th reading of [pendulum.utcnow()], in microseconds. *)
Class Env : Type := {
  remote : Type;
  clock : nat → Z;
  use_corona : bool;
  export_available : string → pyval → remote → result bool * remote;
  create_export : string → list string → pydict → remote → result string * remote;
  client_wait_for_export : string → pyval → remote → result () * remote;
  stream_export : string → pyval → remote
                  → result (list string * list (list string)) * remote;
  request : string → string → option pydict → remote → result pydict * remote
}.

(** ** Worlds, traces and the engine monad *)

Inductive event : Type :=
| WriteSchema (tap_stream_id : string) (props : list (string * pydict))
              (key_properties : list string)
| WriteRecord (tap_stream_id : string) (record : pyval)
| WriteState (st : State)
| RecordCount (tap_stream_id : string) (n : Z)
| LogWarning (msg : string)
| Called (c : client_call)
| Received (data : pydict)
(* not printed by the engine: the window an iteration works on *)
| Window (export_start export_end : datetime)
(* not printed by the engine: the reading of the clock [sync_paginated]
   takes as its run start time, recorded where it is taken *)
| JobStarted (job_started : datetime).

Inductive outcome (A : Type) : Type :=
| Ok (a : A)
| Raise (e : exn)
| Timeout.
Arguments Ok {A} a.
Arguments Raise {A} e.
Arguments Timeout {A}.

Section Engine.
Context `{RT : Runtime} `{EV : Env}.

Record World : Type := mk_World {
  state : State;
  remote_state : remote;
  ticks : nat
}.

Definition M (A : Type) : Type := World → outcome A * World * list event.

Definition ret {A} (a : A) : M A := λ w, (Ok a, w, []).

Definition bind {A B} (m : M A) (f : A → M B) : M B := λ w,
  match m w with
  | (Ok a, w1, t1) =>
      match f a w1 with
      | (o, w2, t2) => (o, w2, t1 ++ t2)
      end
  | (Raise e, w1, t1) => (Raise e, w1, t1)
  | (Timeout, w1, t1) => (Timeout, w1, t1)
  end.

#[global] Instance M_ret : MRet M := @ret.
#[global] Instance M_bind : MBind M := λ A B f m, bind m f.

Definition raise {A} (e : exn) : M A := λ w, (Raise e, w, []).
Definition timeout {A} : M A := λ w, (Timeout, w, []).

Definition lift {A} (r : result A) : M A :=
  match r with
  | inl e => raise e
  | inr a => ret a
  end.

Definition get_state : M State := λ w, (Ok (state w), w, []).

Definition modify_state (f : State → State) : M () := λ w,
  (Ok (), mk_World (f (state w)) (remote_state w) (ticks w), []).

Definition emit (ev : event) : M () := λ w, (Ok (), w, [ev]).

(** [singer.write_state(state)] *)
Definition write_state : M () := λ w, (Ok (), w, [WriteState (state w)]).

(** [pendulum.utcnow()] *)
Definition utcnow : M datetime := λ w,
  (Ok (mk_datetime (clock (ticks w)) 0),
   mk_World (state w) (remote_state w) (S (ticks w)), []).

(** A call of the client: recorded, then answered by the remote system. *)
Definition client {A} (c : client_call) (f : remote → result A * remote)
    : M A := λ w,
  let '(r, rs) := f (remote_state w) in
  let w' := mk_World (state w) rs (ticks w) in
  match r with
  | inl e => (Raise e, w', [Called c])
  | inr a => (Ok a, w', [Called c])
  end.

(** [try: m  except ExportFailed: handler; raise] *)
Definition on_export_failed {A} (m : M A) (handler : M ()) : M A := λ w,
  match m w with
  | (Raise ExportFailed, w1, t1) =>
      match handler w1 with
      | (Ok _, w2, t2) => (Raise ExportFailed, w2, t1 ++ t2)
      | (Raise e, w2, t2) => (Raise e, w2, t1 ++ t2)
      | (Timeout, w2, t2) => (Timeout, w2, t1 ++ t2)
      end
  | r => r
  end.

(** [format_values(stream, row)]; [row.get] needs a dictionary. *)
Definition format_values (s : stream) (row : pyval) : result pydict :=
  match row with
  | VDict d => format_fields (properties s) d ∅
  | _ =>
      if forallb (λ p, negb (field_wanted p.2)) (properties s) then inr ∅
      else inl AttributeError
  end.

(** Lines 73-76: the bookmarks [update_state_with_export_info] writes. *)
Definition with_export_info (s : stream) (bookmark export_id export_end : pyval)
    (st : State) : State :=
  let st := write_bookmark st (tap_stream_id s) "export_id" export_id in
  let st := write_bookmark st (tap_stream_id s) "export_end" export_end in
  if truthy bookmark
  then write_bookmark st (tap_stream_id s) (replication_key s) bookmark
  else st.

Definition update_state_with_export_info
    (s : stream) (bookmark export_id export_end : pyval) : M () :=
  modify_state (with_export_info s bookmark export_id export_end);;
  write_state.

Definition get_export_end (export_start : datetime) : M datetime :=
  let export_end := dt_add_days export_start MAX_EXPORT_DAYS in
  now ← utcnow;
  if dt_ge export_end now
  then (now' ← utcnow; mret (dt_replace_microsecond_0 now'))
  else mret (dt_replace_microsecond_0 export_end).

(** ["activities" if stream["tap_stream_id"] != "leads" else "leads"] *)
Definition export_stream_type (s : stream) : string :=
  if negb (String.eqb (tap_stream_id s) "leads") then "activities" else "leads".

Definition wait_for_export (s : stream) (export_id : pyval) : M () :=
  let stream_type := export_stream_type s in
  on_export_failed
    (client (CallWaitForExport stream_type export_id)
            (client_wait_for_export stream_type export_id))
    (update_state_with_export_info s VNone VNone VNone).

(** [dict(zip(headers, line))]: a repeated header keeps its last cell. *)
Definition dict_of_zip (headers line : list string) : pydict :=
  foldl (λ d kv, <[kv.1 := VStr kv.2]> d) ∅ (zip headers line).

Definition stream_rows (stream_type : string) (export_id : pyval)
    : M (list pydict) :=
  '(headers, lines) ← client (CallStreamExport stream_type export_id)
                             (stream_export stream_type export_id);
  mret (map (dict_of_zip headers) lines).

Definition wanted_fields (s : stream) : list string :=
  map fst (filter (λ p, Is_true (field_wanted p.2)) (properties s)).

Definition date_range (export_start export_end : datetime) : pyval :=
  VDict {[ "startAt" := VStr (isoformat export_start);
           "endAt" := VStr (isoformat export_end) ]}.

Definition get_or_create_export_for_leads (s : stream) (export_start : datetime)
    : M (pyval * datetime) :=
  st ← get_state;
  let export_id := get_bookmark st "leads" "export_id" in
  available ← client (CallExportAvailable "leads" export_id)
                     (export_available "leads" export_id);
  let export_id := if negb available then VNone else export_id in
  if is_none export_id then
    let query_field := if use_corona then "updatedAt" else "createdAt" in
    export_end ← get_export_end export_start;
    let query : pydict := {[ query_field := date_range export_start export_end ]} in
    let fields := wanted_fields s in
    export_id ← client (CallCreateExport "leads" fields query)
                       (create_export "leads" fields query);
    update_state_with_export_info s VNone (VStr export_id)
                                  (VStr (isoformat export_end));;
    mret (VStr export_id, export_end)
  else
    st ← get_state;
    export_end ← lift (pendulum_parse (get_bookmark st "leads" "export_end"));
    mret (export_id, export_end).

Definition get_or_create_export_for_activities
    (s : stream) (export_start : datetime) : M (pyval * datetime) :=
  st ← get_state;
  let export_id := get_bookmark st (tap_stream_id s) "export_id" in
  available ← client (CallExportAvailable "activities" export_id)
                     (export_available "activities" export_id);
  let export_id := if negb available then VNone else export_id in
  if is_none export_id then
    let activity_type_id := activity_id s in
    export_end ← get_export_end export_start;
    let query : pydict :=
      {[ "createdAt" := date_range export_start export_end;
         "activityTypeIds" := VList [activity_type_id] ]} in
    export_id ← client (CallCreateExport "activities" ACTIVITY_FIELDS query)
                       (create_export "activities" ACTIVITY_FIELDS query);
    update_state_with_export_info s VNone (VStr export_id)
                                  (VStr (isoformat export_end));;
    mret (VStr export_id, export_end)
  else
    st ← get_state;
    export_end ← lift (pendulum_parse
                         (get_bookmark st (tap_stream_id s) "export_end"));
    mret (export_id, export_end).

(** *** Leads: the windowed entity category *)

(** Lines 217-218: the record of a row and its [updatedAt] timestamp. *)
Definition leads_record (s : stream) (row : pydict)
    : result (pydict * datetime) :=
  rbind (format_values s (VDict row)) (λ record,
  rbind (py_item record "updatedAt") (λ v,
  rbind (pendulum_parse v) (λ record_bookmark,
  inr (record, record_bookmark)))).

(** The [for row in stream_rows(...)] loop of [sync_leads]. *)
Fixpoint sync_leads_rows (s : stream) (initial_bookmark export_end : datetime)
    (rows : list pydict) (max_bookmark : datetime) (record_count : Z)
    : M (datetime * Z) :=
  match rows with
  | [] => mret (max_bookmark, record_count)
  | row :: rest =>
      '(record, record_bookmark) ← lift (leads_record s row);
      if use_corona then
        emit (WriteRecord "leads" (VDict record));;
        sync_leads_rows s initial_bookmark export_end rest
                        export_end (record_count + 1)
      else if dt_ge record_bookmark initial_bookmark then
        emit (WriteRecord "leads" (VDict record));;
        sync_leads_rows s initial_bookmark export_end rest
                        (dt_max max_bookmark record_bookmark) (record_count + 1)
      else
        sync_leads_rows s initial_bookmark export_end rest
                        max_bookmark record_count
  end.

(** One iteration of the [while] loop of [sync_leads]; it gives the next
    [export_start] (this window's end), [max_bookmark] and the count. *)
Definition sync_leads_window (s : stream)
    (initial_bookmark export_start max_bookmark : datetime) (record_count : Z)
    : M (datetime * datetime * Z) :=
  '(export_id, export_end) ← get_or_create_export_for_leads s export_start;
  emit (Window export_start export_end);;
  wait_for_export s export_id;;
  rows ← stream_rows "leads" export_id;
  '(max_bookmark, record_count) ←
    sync_leads_rows s initial_bookmark export_end rows max_bookmark record_count;
  update_state_with_export_info s (VStr (isoformat max_bookmark)) VNone VNone;;
  mret (export_end, max_bookmark, record_count).

Fixpoint sync_leads_loop (fuel : nat) (s : stream)
    (initial_bookmark job_started export_start max_bookmark : datetime)
    (record_count : Z) : M Z :=
  if dt_lt export_start job_started then
    match fuel with
    | O => timeout
    | S fuel' =>
        '(export_end, max_bookmark, record_count) ←
          sync_leads_window s initial_bookmark export_start
                            max_bookmark record_count;
        sync_leads_loop fuel' s initial_bookmark job_started export_end
                        max_bookmark record_count
    end
  else mret record_count.

Definition sync_leads (fuel : nat) (s : stream) : M Z :=
  emit (WriteSchema "leads" (properties s) (key_properties s));;
  st ← get_state;
  initial_bookmark ←
    lift (pendulum_parse (get_bookmark st "leads" (replication_key s)));
  export_start ←
    lift (pendulum_parse (get_bookmark st "leads" (replication_key s)));
  let export_start :=
    if use_corona
    then dt_subtract_days export_start ATTRIBUTION_WINDOW_DAYS
    else export_start in
  job_started ← utcnow;
  sync_leads_loop fuel s initial_bookmark job_started export_start
                  initial_bookmark 0.

(** *** Activities: the windowed event category *)

Fixpoint copy_fields (fields : list string) (row rtn : pydict)
    : result pydict :=
  match fields with
  | [] => inr rtn
  | field :: rest =>
      rbind (py_item row field) (λ v, copy_fields rest row (<[field := v]> rtn))
  end.

(** [s.replace(" ", "_")] *)
Fixpoint replace_spaces (s : string) : string :=
  match s with
  | EmptyString => EmptyString
  | String c rest =>
      String (if Ascii.eqb c " "%char then "_"%char else c) (replace_spaces rest)
  end.

Definition flatten_activity (row : pydict) (s : stream) : result pydict :=
  rbind (copy_fields BASE_ACTIVITY_FIELDS row ∅) (λ rtn,
  let pan_field := primary_attribute_name s in
  rbind
    (if truthy pan_field then
       rbind (py_item row "primaryAttributeValue") (λ v,
       rbind (py_item row "primaryAttributeValueId") (λ vid,
       inr (<["primary_attribute_value_id" := vid]>
              (<["primary_attribute_value" := v]>
                 (<["primary_attribute_name" := pan_field]> rtn)))))
     else inr rtn) (λ rtn,
  match row !! "attributes" with
  | Some attributes =>
      rbind (json_loads attributes) (λ attrs,
      inr (foldl (λ r kv, <[replace_spaces (str_lower kv.1) := kv.2]> r)
                 rtn attrs))
  | None => inr rtn
  end)).

(** The row loop of [sync_activities]: line 247 calls [format_value] with
    the stream as the value and the flattened row as the schema. *)
Fixpoint sync_activities_rows (s : stream) (rows : list pydict)
    (record_count : Z) : M Z :=
  match rows with
  | [] => mret record_count
  | row :: rest =>
      row ← lift (flatten_activity row s);
      record ← lift (format_value (stream_value s) row);
      emit (WriteRecord (tap_stream_id s) record);;
      sync_activities_rows s rest (record_count + 1)
  end.

Definition sync_activities_window (s : stream) (export_start : datetime)
    (record_count : Z) : M (datetime * Z) :=
  '(export_id, export_end) ← get_or_create_export_for_activities s export_start;
  emit (Window export_start export_end);;
  wait_for_export s export_id;;
  rows ← stream_rows "activites" export_id;
  record_count ← sync_activities_rows s rows record_count;
  update_state_with_export_info s (VStr (isoformat export_start)) VNone VNone;;
  mret (export_end, record_count).

Fixpoint sync_activities_loop (fuel : nat) (s : stream)
    (job_started export_start : datetime) (record_count : Z) : M Z :=
  if dt_lt export_start job_started then
    match fuel with
    | O => timeout
    | S fuel' =>
        '(export_end, record_count) ←
          sync_activities_window s export_start record_count;
        sync_activities_loop fuel' s job_started export_end record_count
    end
  else mret record_count.

Definition sync_activities (fuel : nat) (s : stream) : M Z :=
  emit (WriteSchema (tap_stream_id s) (properties s) (key_properties s));;
  st ← get_state;
  export_start ←
    lift (pendulum_parse
            (get_bookmark st (tap_stream_id s) (replication_key s)));
  job_started ← utcnow;
  sync_activities_loop fuel s job_started export_start 0.

(** *** List categories *)

(** [client.request("GET", endpoint, endpoint_name=..., params=...)] *)
Definition client_request (endpoint endpoint_name : string)
    (params : option pydict) : M pydict :=
  data ← client (CallRequest endpoint endpoint_name params)
                (request endpoint endpoint_name params);
  emit (Received data);;
  mret data.

(** [for row in v]: a list gives its items, a string its characters and a
    dictionary its keys. *)
Definition py_iter (v : pyval) : result (list pyval) :=
  match v with
  | VList l => inr l
  | VStr s => inr (map (λ c, VStr (String c EmptyString)) (String.list_ascii_of_string s))
  | VDict d => inr (map (λ kv, VStr kv.1) (map_to_list d))
  | _ => inl TypeError
  end.

(** The row loop shared by [sync_programs] and [sync_paginated]: a record
    is written when its cursor field is [>=] the start bookmark. *)
Fixpoint emit_newer (s : stream) (name key : string) (start_date : pyval)
    (rows : list pyval) (record_count : Z) : M Z :=
  match rows with
  | [] => mret record_count
  | row :: rest =>
      record ← lift (format_values s row);
      v ← lift (py_item record key);
      newer ← lift (py_ge v start_date);
      if newer : bool then
        emit (WriteRecord name (VDict record));;
        emit_newer s name key start_date rest (record_count + 1)
      else emit_newer s name key start_date rest record_count
  end.

(** [NO_ASSET_MSG in warnings] *)
Definition no_asset_in (warnings : pyval) : result bool :=
  match warnings with
  | VList l => inr (py_str_in NO_ASSET_MSG l)
  | VStr s => inr (bool_decide (is_Some (String.index 0 NO_ASSET_MSG s)))
  | VDict d => inr (bool_decide (is_Some (d !! NO_ASSET_MSG)))
  | _ => inl TypeError
  end.

Fixpoint sync_programs_loop (fuel : nat) (s : stream) (start_date : pyval)
    (end_date : string) (offset : Z) (record_count : Z) : M Z :=
  match fuel with
  | O => timeout
  | S fuel' =>
      let params : pydict :=
        {[ "maxReturn" := VInt 200; "offset" := VInt offset;
           "earliestUpdatedAt" := start_date;
           "latestUpdatedAt" := VStr end_date ]} in
      data ← client_request "rest/asset/v1/programs.json" "programs" (Some params);
      warnings ← lift (py_item data "warnings");
      exhausted ← lift (no_asset_in warnings);
      if exhausted : bool then mret record_count
      else
        result ← lift (py_item data "result");
        rows ← lift (py_iter result);
        record_count ←
          emit_newer s "programs" "updatedAt" start_date rows record_count;
        sync_programs_loop fuel' s start_date end_date (offset + 200) record_count
  end.

Definition sync_programs (fuel : nat) (s : stream) : M Z :=
  emit (WriteSchema "programs" (properties s) (key_properties s));;
  st ← get_state;
  let start_date := get_bookmark st "programs" "updatedAt" in
  now ← utcnow;
  let end_date := isoformat now in
  record_count ← sync_programs_loop fuel s start_date end_date 0 0;
  modify_state (λ st, write_bookmark st "programs" "updatedAt" (VStr end_date));;
  write_state;;
  mret record_count.

Definition paginated_endpoint (s : stream) : string :=
  String.append "rest/v1/" (String.append (tap_stream_id s) ".json").

Fixpoint sync_paginated_loop (fuel : nat) (s : stream) (start_date : pyval)
    (params : pydict) (record_count : Z) : M Z :=
  match fuel with
  | O => timeout
  | S fuel' =>
      data ← client_request (paginated_endpoint s) (tap_stream_id s) (Some params);
      result ← lift (py_item data "result");
      rows ← lift (py_iter result);
      record_count ←
        emit_newer s (tap_stream_id s) (replication_key s) start_date
                   rows record_count;
      match data !! "nextPageToken" with
      | None => mret record_count
      | Some token =>
          modify_state (λ st,
            write_bookmark st (tap_stream_id s) "next_page_token" token);;
          write_state;;
          sync_paginated_loop fuel' s start_date
                              (<["nextPageToken" := token]> params) record_count
      end
  end.

(** The parameters of the first page request. *)
Definition first_page_params (next_page_token : pyval) : pydict :=
  if truthy next_page_token
  then <["nextPageToken" := next_page_token]> {[ "batchSize" := VInt 300 ]}
  else {[ "batchSize" := VInt 300 ]}.

Definition sync_paginated (fuel : nat) (s : stream) : M Z :=
  emit (WriteSchema (tap_stream_id s) (properties s) (key_properties s));;
  st ← get_state;
  let start_date := get_bookmark st (tap_stream_id s) (replication_key s) in
  let next_page_token := get_bookmark st (tap_stream_id s) "next_page_token" in
  let params := first_page_params next_page_token in
  now ← utcnow;
  emit (JobStarted now);;
  let job_started := isoformat now in
  record_count ← sync_paginated_loop fuel s start_date params 0;
  modify_state (λ st,
    let st := write_bookmark st (tap_stream_id s) "next_page_token" VNone in
    write_bookmark st (tap_stream_id s) (replication_key s) (VStr job_started));;
  write_state;;
  mret record_count.

Fixpoint write_all (s : stream) (name : string) (rows : list pyval)
    (record_count : Z) : M Z :=
  match rows with
  | [] => mret record_count
  | row :: rest =>
      record ← lift (format_values s row);
      emit (WriteRecord name (VDict record));;
      write_all s name rest (record_count + 1)
  end.

Definition sync_activity_types (s : stream) : M Z :=
  emit (WriteSchema "activity_types" (properties s) (key_properties s));;
  data ← client_request "rest/v1/activities/types.json" "activity_types" None;
  result ← lift (py_item data "result");
  rows ← lift (py_iter result);
  write_all s "activity_types" rows 0.

(** *** The orchestrator *)

Definition NO_CORONA_WARNING : string :=
  "Your account does not have Corona support enabled. Without Corona, each sync of the Leads table requires a full export which can lead to lower data freshness. Please contact Marketo to request Corona support be added to your account.".

(** The [if/elif] chain of [sync] that picks the driver. *)
Definition sync_stream_by_type (fuel : nat) (s : stream) : M Z :=
  let name := tap_stream_id s in
  if String.eqb name "activity_types" then sync_activity_types s
  else if String.eqb name "leads" then sync_leads fuel s
  else if String.prefix "activities_" name then sync_activities fuel s
  else if String.eqb name "campaigns" || String.eqb name "lists"
       then sync_paginated fuel s
  else if String.eqb name "programs" then sync_programs fuel s
  else raise (NotImplemented name).

(** The body of the [for] loop of [sync] for a stream that is neither
    unselected nor skipped, with [driver] for the [if/elif] chain. *)
Definition sync_one (driver : stream → M Z) (s : stream) : M () :=
  modify_state (λ st, set_currently_syncing st (VStr (tap_stream_id s)));;
  write_state;;
  record_count ← driver s;
  emit (RecordCount (tap_stream_id s) record_count);;
  modify_state (λ st, set_currently_syncing st VNone);;
  write_state.

(** [stream["tap_stream_id"] != starting_stream] *)
Definition differs_from (name : string) (starting_stream : pyval) : bool :=
  negb (py_eq_str starting_stream name).

Fixpoint sync_streams (driver : stream → M Z) (starting_stream : pyval)
    (streams : list stream) : M () :=
  match streams with
  | [] => mret ()
  | s :: rest =>
      if negb (truthy (selected s)) then sync_streams driver starting_stream rest
      else if truthy starting_stream
              && differs_from (tap_stream_id s) starting_stream
      then sync_streams driver starting_stream rest
      else sync_one driver s;; sync_streams driver VNone rest
  end.

Definition sync (fuel : nat) (catalog : list stream) : M () :=
  st ← get_state;
  let starting_stream := get_currently_syncing st in
  sync_streams (sync_stream_by_type fuel) starting_stream catalog;;
  if negb use_corona then emit (LogWarning NO_CORONA_WARNING) else mret ().
End Engine.

(** ** Observing a run *)

(** The windows a run worked on, in order. *)
Definition windows (t : list event) : list (datetime * datetime) :=
  omap (λ ev, match ev with
              | Window export_start export_end => Some (export_start, export_end)
              | _ => None
              end) t.

(** The value of one bookmark in every state the run wrote, in order. *)
Definition written (name key : string) (t : list event) : list pyval :=
  omap (λ ev, match ev with
              | WriteState st => Some (get_bookmark st name key)
              | _ => None
              end) t.

(** The records the run wrote, in order. *)
Definition records (t : list event) : list (string * pyval) :=
  omap (λ ev, match ev with
              | WriteRecord name record => Some (name, record)
              | _ => None
              end) t.

(** The export jobs whose files the run downloaded, in order. *)
Definition downloads (t : list event) : list pyval :=
  omap (λ ev, match ev with
              | Called (CallStreamExport _ export_id) => Some export_id
              | _ => None
              end) t.

(** The client calls of the run, in order. *)
Definition calls (t : list event) : list client_call :=
  omap (λ ev, match ev with
              | Called c => Some c
              | _ => None
              end) t.

Definition not_state_write (ev : event) : Prop :=
  match ev with
  | WriteState _ => False
  | _ => True
  end.

Definition not_window (ev : event) : Prop :=
  match ev with
  | Window _ _ => False
  | _ => True
  end.

(** Windows that follow one another without gap or overlap, from [start]. *)
Fixpoint contiguous_from (start : datetime) (ws : list (datetime * datetime))
    : Prop :=
  match ws with
  | [] => True
  | (a, b) :: rest => a = start ∧ contiguous_from b rest
  end.

(** The end of the last window, [start] when there is none. *)
Definition last_end (start : datetime) (ws : list (datetime * datetime))
    : datetime :=
  foldl (λ _ wd, wd.2) start ws.

(** [z] with its sub-second part dropped. *)
Definition whole_seconds (z : Z) : Z := z - z mod 1000000.

(** The end [get_export_end] computes from two successive clock readings. *)
Definition export_end_at (export_start : datetime) (now now' : Z) : datetime :=
  if instant export_start + MAX_EXPORT_DAYS * MICROS_PER_DAY <? now
  then mk_datetime
         (whole_seconds (instant export_start + MAX_EXPORT_DAYS * MICROS_PER_DAY))
         (utcoffset export_start)
  else mk_datetime (whole_seconds now') 0.

(** [f] on every item, stopping at the first exception. *)
Fixpoint collect {A B} (f : A → result B) (l : list A) : result (list B) :=
  match l with
  | [] => inr []
  | a :: rest =>
      rbind (f a) (λ b, rbind (collect f rest) (λ bs, inr (b :: bs)))
  end.

(** ** A reference runtime for closed examples

    ISO-8601 timestamps as [pendulum] prints them, decimal integers, ASCII
    lower-casing and string comparison.  It covers the values the examples
    below use; [float] is not used by them, and of JSON only the empty
    object is. *)

Module Reference.

Definition digit (z : Z) : ascii := ascii_of_nat (48 + Z.to_nat (z mod 10)).

(** The last [n] decimal digits of [z], zero-padded. *)
Fixpoint pad (n : nat) (z : Z) : string :=
  match n with
  | O => EmptyString
  | S n' => String.append (pad n' (z / 10)) (String (digit z) EmptyString)
  end.

Fixpoint digits_from (s : string) (acc : Z) : option Z :=
  match s with
  | EmptyString => Some acc
  | String c rest =>
      let n := Z.of_nat (nat_of_ascii c) in
      if (48 <=? n) && (n <=? 57) then digits_from rest (acc * 10 + (n - 48))
      else None
  end.

Definition number (s : string) : option Z :=
  match s with
  | EmptyString => None
  | _ => digits_from s 0
  end.

(** Days since 1970-01-01 of a proleptic Gregorian date, and back. *)
Definition days_from_civil (y m d : Z) : Z :=
  let y := if m <=? 2 then y - 1 else y in
  let era := y / 400 in
  let yoe := y - era * 400 in
  let doy := (153 * (if 2 <? m then m - 3 else m + 9) + 2) / 5 + d - 1 in
  let doe := yoe * 365 + yoe / 4 - yoe / 100 + doy in
  era * 146097 + doe - 719468.

Definition civil_from_days (z : Z) : Z * Z * Z :=
  let z := z + 719468 in
  let era := z / 146097 in
  let doe := z - era * 146097 in
  let yoe := (doe - doe / 1460 + doe / 36524 - doe / 146096) / 365 in
  let doy := doe - (365 * yoe + yoe / 4 - yoe / 100) in
  let mp := (5 * doy + 2) / 153 in
  let d := doy - (153 * mp + 2) / 5 + 1 in
  let m := if mp <? 10 then mp + 3 else mp - 9 in
  let y := yoe + era * 400 in
  (if m <=? 2 then y + 1 else y, m, d).

Definition ref_isoformat (d : datetime) : string :=
  let local := instant d + utcoffset d * 1000000 in
  let secs := local / 1000000 in
  let micros := local mod 1000000 in
  let '(y, m, dd) := civil_from_days (secs / 86400) in
  let sod := secs mod 86400 in
  let off := Z.abs (utcoffset d) in
  String.append (pad 4 y) (String "-" (
  String.append (pad 2 m) (String "-" (
  String.append (pad 2 dd) (String "T" (
  String.append (pad 2 (sod / 3600)) (String ":" (
  String.append (pad 2 (sod / 60 mod 60)) (String ":" (
  String.append (pad 2 (sod mod 60)) (
  String.append (if micros =? 0 then EmptyString
                 else String "." (pad 6 micros)) (
  String (if utcoffset d <? 0 then "-"%char else "+"%char) (
  String.append (pad 2 (off / 3600)) (String ":" (pad 2 (off / 60 mod 60)))
  ))))))))))))).

Definition parse_offset (s : string) : option Z :=
  match s with
  | EmptyString => Some 0
  | String "Z" EmptyString => Some 0
  | String sign rest =>
      if (String.length rest =? 5)%nat && String.eqb (String.substring 2 1 rest) ":"
      then
        hh ← number (String.substring 0 2 rest);
        mm ← number (String.substring 3 2 rest);
        if Ascii.eqb sign "+" then Some (hh * 3600 + mm * 60)
        else if Ascii.eqb sign "-" then Some (- (hh * 3600 + mm * 60))
        else None
      else None
  end.

Definition parse_iso (s : string) : option datetime :=
  let sub := λ i n, String.substring i n s in
  if String.eqb (sub 4 1)%nat "-" && String.eqb (sub 7 1)%nat "-"
     && String.eqb (sub 10 1)%nat "T" && String.eqb (sub 13 1)%nat ":"
     && String.eqb (sub 16 1)%nat ":"
  then
    y ← number (sub 0 4)%nat;
    m ← number (sub 5 2)%nat;
    d ← number (sub 8 2)%nat;
    hh ← number (sub 11 2)%nat;
    mi ← number (sub 14 2)%nat;
    ss ← number (sub 17 2)%nat;
    let rest := String.substring 19 (String.length s - 19) s in
    '(micros, rest) ←
      match rest with
      | String "." frac =>
          f ← number (String.substring 0 6 frac);
          Some (f, String.substring 6 (String.length frac - 6) frac)
      | _ => Some (0, rest)
      end;
    off ← parse_offset rest;
    Some (mk_datetime
            ((days_from_civil y m d * 86400 + hh * 3600 + mi * 60 + ss - off)
               * 1000000 + micros) off)
  else None.

(** Timestamps are read from strings.  What [pendulum.parse] makes of a
    value that is not a string is outside this reference: no example parses
    one, and the last case only makes the function total. *)
Definition ref_parse (v : pyval) : result datetime :=
  match v with
  | VStr s =>
      match parse_iso s with
      | Some d => inr d
      | None => inl ValueError
      end
  | _ => inl TypeError
  end.

Definition ref_int (v : pyval) : result pyval :=
  match v with
  | VInt n => inr (VInt n)
  | VBool b => inr (VInt (if b then 1 else 0))
  | VStr (String "-" s) =>
      match number s with
      | Some n => inr (VInt (- n))
      | None => inl ValueError
      end
  | VStr s =>
      match number s with
      | Some n => inr (VInt n)
      | None => inl ValueError
      end
  | _ => inl TypeError
  end.

Definition ref_float (v : pyval) : result pyval :=
  match v with
  | VFloat bits => inr (VFloat bits)
  | _ => inl ValueError
  end.

Definition ref_str (v : pyval) : pyval :=
  match v with
  | VStr s => VStr s
  | VNone => VStr "None"
  | VBool b => VStr (if b then "True" else "False")
  | _ => VStr "?"
  end.

Definition lower_ascii (c : ascii) : ascii :=
  let n := nat_of_ascii c in
  if (65 <=? n)%nat && (n <=? 90)%nat then ascii_of_nat (n + 32) else c.

Fixpoint ref_lower (s : string) : string :=
  match s with
  | EmptyString => EmptyString
  | String c rest => String (lower_ascii c) (ref_lower rest)
  end.

Definition ref_ge (a b : pyval) : result bool :=
  match a, b with
  | VStr x, VStr y => inr (String.leb y x)
  | VInt x, VInt y => inr (y <=? x)
  | _, _ => inl TypeError
  end.

(** Only the empty object is read. *)
Definition ref_json_loads (v : pyval) : result (list (string * pyval)) :=
  match v with
  | VStr "{}" => inr []
  | VStr _ => inl ValueError
  | _ => inl TypeError
  end.

Definition ref_isoformat_nonempty : ∀ d, ref_isoformat d ≠ "".
Proof.
  intros d. unfold ref_isoformat.
  destruct (civil_from_days _) as [[y m] dd].
  destruct (pad 4 y); discriminate.
Qed.

#[global] Instance runtime : Runtime := {|
  pendulum_parse := ref_parse;
  isoformat := ref_isoformat;
  py_int := ref_int;
  py_float := ref_float;
  py_str := ref_str;
  str_lower := ref_lower;
  py_ge := ref_ge;
  json_loads := ref_json_loads;
  isoformat_nonempty := ref_isoformat_nonempty
|}.

End Reference.

(** ** Scripted remote systems for closed examples

    A script fixes the account's Corona flag, the clock, the export jobs the
    server still holds, the jobs that fail, the file of each job and the
    response to each page request.  The remote state is the list of job ids
    the server hands out next. *)

Module Scenario.

Record script : Type := mk_script {
  corona : bool;
  readings : nat → Z;
  available : list string;
  failing : list string;
  unreachable : list string;
  files : list (string * (list string * list (list string)));
  new_ids : list string;
  responses : string → option pydict → result pydict
}.

Definition id_in (export_id : pyval) (ids : list string) : bool :=
  match export_id with
  | VStr i => existsb (String.eqb i) ids
  | _ => false
  end.

Fixpoint file_of (i : string)
    (fs : list (string * (list string * list (list string))))
    : result (list string * list (list string)) :=
  match fs with
  | [] => inl (ClientError "no such export")
  | (j, f) :: rest => if String.eqb i j then inr f else file_of i rest
  end.

Definition env (sc : script) : Env := {|
  remote := list string;
  clock := readings sc;
  use_corona := corona sc;
  export_available := λ _ export_id r,
    (inr (id_in export_id (available sc)), r);
  create_export := λ _ _ _ r,
    match r with
    | i :: r' => (inr i, r')
    | [] => (inl (ClientError "export quota exceeded"), [])
    end;
  client_wait_for_export := λ _ export_id r,
    (if id_in export_id (failing sc) then inl ExportFailed
     else if id_in export_id (unreachable sc)
          then inl (ClientError "connection lost")
     else inr (), r);
  stream_export := λ _ export_id r,
    (match export_id with
     | VStr i => file_of i (files sc)
     | _ => inl (ClientError "no such export")
     end, r);
  request := λ endpoint _ params r, (responses sc endpoint params, r)
|}.

(** A world of the script: the state, the job ids still to hand out and
    the number of clock readings made. *)
Definition world (sc : script) (st : State) (ids : list string) (n : nat)
    : @World (env sc) :=
  @mk_World (env sc) st ids n.

(** The world a run of the tap starts in. *)
Definition start (sc : script) (st : State) : @World (env sc) :=
  world sc st (new_ids sc) 0.

Definition no_responses : string → option pydict → result pydict :=
  λ _ _, inl (ClientError "not found").

(** Microseconds since the epoch of midnight UTC starting a day of 2020,
    counted from 1 January as day 0. *)
Definition day (n : Z) : Z := (1577836800 + n * 86400) * 1000000.

Definition midnight (n : Z) : datetime := mk_datetime (day n) 0.

Definition leads : stream := {|
  tap_stream_id := "leads";
  selected := VBool true;
  properties :=
    [("id", {[ "type" := VStr "integer"; "inclusion" := VStr "automatic" ]});
     ("updatedAt", {[ "type" := VList [VStr "null"; VStr "string"];
                      "format" := VStr "date-time";
                      "inclusion" := VStr "automatic" ]})];
  key_properties := ["id"];
  replication_key := "updatedAt";
  activity_id := VNone;
  primary_attribute_name := VNone
|}.

Definition leads_state (bookmark : string) (export : option (string * string))
    : State :=
  mk_State
    {[ "leads" :=
         match export with
         | Some (export_id, export_end) =>
             {[ "updatedAt" := VStr bookmark; "export_id" := VStr export_id;
                "export_end" := VStr export_end ]}
         | None => {[ "updatedAt" := VStr bookmark ]}
         end ]}
    VNone.

(** A job that fails: the state holds export "e1", which the server still
    knows and then reports as failed. *)
Definition failed_export : script := {|
  corona := true;
  readings := λ n, day 40 + Z.of_nat n;
  available := ["e1"];
  failing := ["e1"];
  unreachable := [];
  files := [];
  new_ids := [];
  responses := no_responses
|}.

(** A Corona account whose one export, of the ten days up to now, is empty. *)
Definition quiet_corona : script := {|
  corona := true;
  readings := λ n, day 10 + Z.of_nat n;
  available := [];
  failing := [];
  unreachable := [];
  files := [("e1", (["id"; "updatedAt"], []))];
  new_ids := ["e1"];
  responses := no_responses
|}.

(** An account without Corona, 45 days behind: the first export holds one
    lead updated after the bookmark and one updated before it, the second
    export is empty. *)
Definition two_windows : script := {|
  corona := false;
  readings := λ n, day 45 + Z.of_nat n;
  available := [];
  failing := [];
  unreachable := [];
  files :=
    [("e1", (["id"; "updatedAt"],
             [["7"; "2020-01-05T12:00:00Z"]; ["8"; "2019-12-25T12:00:00Z"]]));
     ("e2", (["id"; "updatedAt"], []))];
  new_ids := ["e1"; "e2"];
  responses := no_responses
|}.

(** What the two exports of that account hold, as the engine reads them:
    the end of each window and its records with their timestamps. *)
Definition two_windows_served : list (datetime * list (pydict * datetime)) :=
  [(midnight 30,
    [({[ "id" := VInt 7; "updatedAt" := VStr "2020-01-05T12:00:00+00:00" ]},
      mk_datetime (day 4 + 12 * 3600 * 1000000) 0);
     ({[ "id" := VInt 8; "updatedAt" := VStr "2019-12-25T12:00:00+00:00" ]},
      mk_datetime (day (-7) + 12 * 3600 * 1000000) 0)]);
   (midnight 45, [])].

(** The same account when the second export holds a lead whose [updatedAt]
    is 3 January: after the bookmark of 1 January, but before the start of
    the second window and before the lead of 5 January. *)
Definition late_row : script := {|
  corona := false;
  readings := λ n, day 45 + Z.of_nat n;
  available := [];
  failing := [];
  unreachable := [];
  files :=
    [("e1", (["id"; "updatedAt"],
             [["7"; "2020-01-05T12:00:00Z"]; ["8"; "2019-12-25T12:00:00Z"]]));
     ("e2", (["id"; "updatedAt"], [["9"; "2020-01-03T00:00:00Z"]]))];
  new_ids := ["e1"; "e2"];
  responses := no_responses
|}.

Definition late_row_served : list (datetime * list (pydict * datetime)) :=
  [(midnight 30,
    [({[ "id" := VInt 7; "updatedAt" := VStr "2020-01-05T12:00:00+00:00" ]},
      mk_datetime (day 4 + 12 * 3600 * 1000000) 0);
     ({[ "id" := VInt 8; "updatedAt" := VStr "2019-12-25T12:00:00+00:00" ]},
      mk_datetime (day (-7) + 12 * 3600 * 1000000) 0)]);
   (midnight 45,
    [({[ "id" := VInt 9; "updatedAt" := VStr "2020-01-03T00:00:00+00:00" ]},
      midnight 2)])].

(** A run that finds export "e2" of an interrupted run still available. *)
Definition resumed : script := {|
  corona := false;
  readings := λ n, day 51 + Z.of_nat n;
  available := ["e2"];
  failing := [];
  unreachable := [];
  files := [("e2", (["id"; "updatedAt"], [])); ("e3", (["id"; "updatedAt"], []))];
  new_ids := ["e3"];
  responses := no_responses
|}.

Definition visits : stream := {|
  tap_stream_id := "activities_visit_webpage";
  selected := VBool true;
  properties :=
    [("marketoGUID", {[ "type" := VStr "string"; "inclusion" := VStr "automatic" ]});
     ("leadId", {[ "type" := VStr "integer"; "inclusion" := VStr "automatic" ]});
     ("activityDate", {[ "type" := VStr "string"; "format" := VStr "date-time";
                         "inclusion" := VStr "automatic" ]});
     ("activityTypeId", {[ "type" := VStr "integer";
                           "inclusion" := VStr "automatic" ]})];
  key_properties := ["marketoGUID"];
  replication_key := "activityDate";
  activity_id := VInt 1;
  primary_attribute_name := VStr "Webpage ID"
|}.

Definition visits_state (bookmark : string) : State :=
  mk_State
    {[ "activities_visit_webpage" := {[ "activityDate" := VStr bookmark ]} ]}
    VNone.

Definition activity_header : list string :=
  ["marketoGUID"; "leadId"; "activityDate"; "activityTypeId";
   "primaryAttributeValueId"; "primaryAttributeValue"; "attributes"].

(** 45 days of activities to fetch, none recorded. *)
Definition quiet_activities : script := {|
  corona := false;
  readings := λ n, day 45 + Z.of_nat n;
  available := [];
  failing := [];
  unreachable := [];
  files := [("e1", (activity_header, [])); ("e2", (activity_header, []))];
  new_ids := ["e1"; "e2"];
  responses := no_responses
|}.

(** The same account with one page visit on 3 January. *)
Definition busy_activities : script := {|
  corona := false;
  readings := λ n, day 45 + Z.of_nat n;
  available := [];
  failing := [];
  unreachable := [];
  files :=
    [("e1", (activity_header,
             [["1"; "42"; "2020-01-03T00:00:00Z"; "1"; "9"; "home"; "{}"]]));
     ("e2", (activity_header, []))];
  new_ids := ["e1"; "e2"];
  responses := no_responses
|}.

(** A run on 20 February, 50 days behind, that loses the connection while
    it waits for its second export. *)
Definition interrupted : script := {|
  corona := false;
  readings := λ n, day 50 + Z.of_nat n;
  available := [];
  failing := [];
  unreachable := ["e2"];
  files := [("e1", (["id"; "updatedAt"], [["7"; "2020-01-06T00:00:00Z"]]))];
  new_ids := ["e1"; "e2"];
  responses := no_responses
|}.

Definition activity_types : stream := {|
  tap_stream_id := "activity_types";
  selected := VBool true;
  properties :=
    [("id", {[ "type" := VStr "integer"; "inclusion" := VStr "automatic" ]});
     ("name", {[ "type" := VStr "string"; "inclusion" := VStr "automatic" ]})];
  key_properties := ["id"];
  replication_key := "";
  activity_id := VNone;
  primary_attribute_name := VNone
|}.

Definition unselected (s : stream) : stream := {|
  tap_stream_id := tap_stream_id s;
  selected := VBool false;
  properties := properties s;
  key_properties := key_properties s;
  replication_key := replication_key s;
  activity_id := activity_id s;
  primary_attribute_name := primary_attribute_name s
|}.

Definition campaigns : stream := {|
  tap_stream_id := "campaigns";
  selected := VBool true;
  properties :=
    [("id", {[ "type" := VStr "integer"; "inclusion" := VStr "automatic" ]});
     ("updatedAt", {[ "type" := VStr "string"; "format" := VStr "date-time";
                      "inclusion" := VStr "automatic" ]})];
  key_properties := ["id"];
  replication_key := "updatedAt";
  activity_id := VNone;
  primary_attribute_name := VNone
|}.

Definition campaign (id : Z) (updated : string) : pyval :=
  VDict {[ "id" := VInt id; "updatedAt" := VStr updated ]}.

Definition first_page : pydict :=
  {[ "result" := VList [campaign 1 "2020-01-02T00:00:00Z";
                        campaign 2 "2019-12-30T00:00:00Z"];
     "nextPageToken" := VStr "t1" ]}.

Definition last_page : pydict :=
  {[ "result" := VList [campaign 3 "2020-01-03T00:00:00Z"] ]}.

(** Campaigns in two pages: the first page comes with token "t1", which
    gets the last. *)
Definition campaign_pages (endpoint : string) (params : option pydict)
    : result pydict :=
  match params with
  | Some p =>
      match py_get p "nextPageToken" with
      | VNone => inr first_page
      | VStr "t1" => inr last_page
      | _ => inl (ClientError "unknown paging token")
      end
  | None => inl (ClientError "not found")
  end.

Definition two_pages : script := {|
  corona := false;
  readings := λ n, day 10 + Z.of_nat n;
  available := [];
  failing := [];
  unreachable := [];
  files := [];
  new_ids := [];
  responses := campaign_pages
|}.

Definition campaigns_state (bookmark : string) (token : option string) : State :=
  mk_State
    {[ "campaigns" :=
         match token with
         | Some t => {[ "updatedAt" := VStr bookmark;
                        "next_page_token" := VStr t ]}
         | None => {[ "updatedAt" := VStr bookmark ]}
         end ]}
    VNone.

End Scenario.

(** A property of every state a run wrote. *)
Definition state_writes (P : State → Prop) (ev : event) : Prop :=
  match ev with
  | WriteState st => P st
  | _ => True
  end.



(** A cursor value that has not moved back: the value at run start, or the
    rendering of a timestamp at or after the initial bookmark. *)
Definition cursor_not_before `{RT : Runtime} (original : pyval)
    (initial_bookmark : datetime) (v : pyval) : Prop :=
  v = original
  ∨ ∃ t, instant initial_bookmark ≤ instant t ∧ v = VStr (isoformat t).

(** ** What a leads window writes *)

Section LeadsRule.
Context `{EV : Env}.

(** The records of a window that are written: all of them with Corona,
    those updated at or after the initial bookmark without. *)
Definition leads_emitted (initial_bookmark : datetime)
    (recs : list (pydict * datetime)) : list (pydict * datetime) :=
  if use_corona then recs
  else filter (λ r, Is_true (dt_ge r.2 initial_bookmark)) recs.

(** The high-water mark after a window. *)
Definition leads_mark (initial_bookmark export_end max_bookmark : datetime)
    (recs : list (pydict * datetime)) : datetime :=
  if use_corona then
    match recs with
    | [] => max_bookmark
    | _ => export_end
    end
  else foldl dt_max max_bookmark (leads_emitted initial_bookmark recs).*2.

End LeadsRule.

(** ** Vocabulary for statements about runs *)

Section Vocabulary.
Context `{EV : Env}.

(** Every event [m] records satisfies [E]. *)
Definition emits {A} (E : event → Prop) (m : M A) : Prop :=
  ∀ w, Forall E (m w).2.

(** When [m] returns, the value satisfies [Q]. *)
Definition returns {A} (m : M A) (Q : A → Prop) : Prop :=
  ∀ w a, (m w).1.1 = Ok a → Q a.

(** What one pass of a window loop adds to the windows of the run: nothing
    when no export could be had, else the window from [export_start]; when
    the pass returns, it returns that window's end as the next start. *)
Definition one_window {A} (next : A → datetime) (export_start : datetime)
    (r : outcome A * World * list event) : Prop :=
  (windows r.2 = [] ∧ ∀ x, r.1.1 ≠ Ok x)
  ∨ ∃ export_end, windows r.2 = [(export_start, export_end)]
                  ∧ ∀ x, r.1.1 = Ok x → next x = export_end.

(** The windows of a loop: contiguous from its first start, each starting
    strictly before the run start time; a loop that returns has reached it. *)
Definition window_chain (job_started export_start : datetime)
    {A} (r : outcome A * World * list event) : Prop :=
  contiguous_from export_start (windows r.2)
  ∧ Forall (λ wd, instant wd.1 < instant job_started) (windows r.2)
  ∧ ∀ a, r.1.1 = Ok a →
      instant job_started ≤ instant (last_end export_start (windows r.2)).

(** [preserves I E m Φ]: from a state satisfying [I], [m] records only
    events satisfying [E] and leaves a state satisfying [I], whatever its
    outcome, and returns only values satisfying [Φ]. *)
Definition preserves (I : State → Prop) (E : event → Prop) {A} (m : M A)
    (Φ : A → Prop) : Prop :=
  ∀ w, I (state w) →
    Forall E (m w).2 ∧ I (state (m w).1.2) ∧ ∀ a, (m w).1.1 = Ok a → Φ a.

(** The windows of a run in the order of their indices: the first starts at
    [first_start], each ends where the next starts, each starts strictly
    before the run start time, and when the run returns the last one ends
    at or after the run start time. *)
Definition windows_in_order (job_started first_start : datetime)
    {A} (r : outcome A * World * list event) : Prop :=
  let ws := windows r.2 in
  (∀ wd, ws !! 0%nat = Some wd → wd.1 = first_start)
  ∧ (∀ (i : nat) a b, ws !! i = Some a → ws !! S i = Some b → a.2 = b.1)
  ∧ (∀ wd, wd ∈ ws → instant wd.1 < instant job_started)
  ∧ (∀ x, r.1.1 = Ok x →
       instant job_started ≤ instant (last_end first_start ws)).

(** The selected streams of a list synced one after the other, none
    skipped: what [sync] does from the marked stream on. *)
Fixpoint sync_in_order (driver : stream → M Z) (streams : list stream) : M () :=
  match streams with
  | [] => mret ()
  | s :: rest =>
      if truthy (selected s)
      then sync_one driver s;; sync_in_order driver rest
      else sync_in_order driver rest
  end.

(** *** Pages *)

(** The parameters of the page requests of a run, in order. *)
Definition requested (t : list event) : list (option pydict) :=
  omap (λ ev, match ev with
              | Called (CallRequest _ _ params) => Some params
              | _ => None
              end) t.

(** Every token a response carries is in the [next_page_token] bookmark of
    the next state written, and that state is written before the next page
    is requested.  [pending] is the token received and not yet written. *)
Fixpoint token_persisted (name : string) (pending : option pyval)
    (t : list event) : Prop :=
  match t with
  | [] => True
  | Called (CallRequest _ _ _) :: t' =>
      pending = None ∧ token_persisted name None t'
  | Received data :: t' => token_persisted name (data !! "nextPageToken") t'
  | WriteState st :: t' =>
      match pending with
      | Some token => get_bookmark st name "next_page_token" = token
      | None => True
      end ∧ token_persisted name None t'
  | _ :: t' => token_persisted name pending t'
  end.

(** Events that are neither a page request, a response nor a state. *)
Definition beside_pages (ev : event) : Prop :=
  match ev with
  | Called (CallRequest _ _ _) | Received _ | WriteState _ => False
  | _ => True
  end.

(** Events other than the reading of the run start time. *)
Definition not_job_started (ev : event) : Prop :=
  match ev with
  | JobStarted _ => False
  | _ => True
  end.

(** The records [emit_newer] writes for the rows of a page, when every row
    can be formatted and compared. *)
Fixpoint newer_records `{RT : Runtime} (s : stream) (key : string)
    (start_date : pyval) (rows : list pyval) : result (list pydict) :=
  match rows with
  | [] => inr []
  | row :: rest =>
      rbind (format_values s row) (λ record,
      rbind (py_item record key) (λ v,
      rbind (py_ge v start_date) (λ newer,
      rbind (newer_records s key start_date rest) (λ recs,
      inr (if newer : bool then record :: recs else recs)))))
  end.

(** A response whose rows can all be processed. *)
Definition page_readable `{RT : Runtime} (s : stream) (start_date : pyval)
    (data : pydict) : Prop :=
  ∃ result rows recs,
    data !! "result" = Some result
    ∧ py_iter result = inr rows
    ∧ newer_records s (replication_key s) start_date rows = inr recs.

(** The remote system answers the page requests of a run for [s], from
    [params] on, with [pages]: each response but the last carries the token
    of the next request, the last carries none. *)
Inductive serves (s : stream) : remote → pydict → list pydict → Prop :=
| serves_last rs params data rs' :
    request (paginated_endpoint s) (tap_stream_id s) (Some params) rs
      = (inr data, rs') →
    data !! "nextPageToken" = None →
    serves s rs params [data]
| serves_more rs params data rs' token pages :
    request (paginated_endpoint s) (tap_stream_id s) (Some params) rs
      = (inr data, rs') →
    data !! "nextPageToken" = Some token →
    serves s rs' (<["nextPageToken" := token]> params) pages →
    serves s rs params (data :: pages).

(** The parameters of the requests that [pages] answer. *)
Fixpoint page_params (params : pydict) (pages : list pydict)
    : list (option pydict) :=
  match pages with
  | [] => []
  | data :: rest =>
      Some params
      :: match data !! "nextPageToken" with
         | Some token => page_params (<["nextPageToken" := token]> params) rest
         | None => []
         end
  end.

End Vocabulary.

(** ** Runs of the leads sync over the exports the server serves *)

Section LeadsRun.
Context `{RT : Runtime} `{EV : Env}.

(** What the server does for the windows of a run of [sync_leads], from the
    window that starts at [export_start], reached with the remote system in
    [rs] after [n] readings of the clock while the state holds the export id
    [persisted]: for each window left to do, the persisted export is missing
    or gone, a new one is created for the window, awaited and downloaded, and
    every row carries a readable [updatedAt].  The list holds the end and
    the records, with their timestamps, of each window. *)
Inductive exports_served (s : stream) (job_started : datetime) :
    pyval → remote → nat → datetime
    → list (datetime * list (pydict * datetime)) → Prop :=
| served_none persisted rs n export_start :
    instant job_started ≤ instant export_start →
    exports_served s job_started persisted rs n export_start []
| served_window persisted rs n export_start available rs1 new_id rs2 rs3 rs4
    headers lines recs rest :
    instant export_start < instant job_started →
    export_available "leads" persisted rs = (inr available, rs1) →
    available = false ∨ persisted = VNone →
    create_export "leads" (wanted_fields s)
      {[ (if use_corona then "updatedAt" else "createdAt")
         := date_range export_start
              (export_end_at export_start (clock n) (clock (S n))) ]} rs1
      = (inr new_id, rs2) →
    client_wait_for_export (export_stream_type s) (VStr new_id) rs2
      = (inr (), rs3) →
    stream_export "leads" (VStr new_id) rs3 = (inr (headers, lines), rs4) →
    collect (leads_record s) (map (dict_of_zip headers) lines) = inr recs →
    exports_served s job_started VNone rs4
      (if instant export_start + MAX_EXPORT_DAYS * MICROS_PER_DAY <? clock n
       then S n else S (S n))
      (export_end_at export_start (clock n) (clock (S n))) rest →
    exports_served s job_started persisted rs n export_start
      ((export_end_at export_start (clock n) (clock (S n)), recs) :: rest).

(** The high-water mark after each window of a run, from the mark before
    its first window. *)
Fixpoint leads_marks (initial_bookmark mark : datetime)
    (served : list (datetime * list (pydict * datetime))) : list datetime :=
  match served with
  | [] => []
  | (export_end, recs) :: rest =>
      let mark' := leads_mark initial_bookmark export_end mark recs in
      mark' :: leads_marks initial_bookmark mark' rest
  end.

(** The windows of a run, from the start of its first window. *)
Fixpoint served_windows (export_start : datetime)
    (served : list (datetime * list (pydict * datetime)))
    : list (datetime * datetime) :=
  match served with
  | [] => []
  | (export_end, _) :: rest =>
      (export_start, export_end) :: served_windows export_end rest
  end.

(** The records a run writes, window after window. *)
Definition served_records (initial_bookmark : datetime)
    (served : list (datetime * list (pydict * datetime)))
    : list (string * pyval) :=
  flat_map (λ d, map (λ r : pydict * datetime, ("leads", VDict r.1))
                     (leads_emitted initial_bookmark d.2)) served.

(** The replication bookmark in the states a run writes: for each window
    the state written when its export is created still holds the bookmark
    as it was, the state written when the window is done holds the mark. *)
Fixpoint cursors_written (previous : pyval) (marks : list datetime)
    : list pyval :=
  match marks with
  | [] => []
  | mark :: rest =>
      previous :: VStr (isoformat mark)
      :: cursors_written (VStr (isoformat mark)) rest
  end.

(** [v] is the cursor at time [t]: the value the run found, which reads as
    [initial_bookmark], or the rendering of a timestamp at or after it. *)
Definition cursor_at (original : pyval) (initial_bookmark : datetime)
    (v : pyval) (t : datetime) : Prop :=
  (v = original ∧ t = initial_bookmark)
  ∨ (v = VStr (isoformat t) ∧ instant initial_bookmark ≤ instant t).

(** Cursor values that never move back: each is the cursor at a time at
    or after the time of the one before it, the first at or after
    [previous]. *)
Fixpoint ascending (original : pyval) (initial_bookmark previous : datetime)
    (cursors : list pyval) : Prop :=
  match cursors with
  | [] => True
  | v :: rest =>
      ∃ t, cursor_at original initial_bookmark v t
           ∧ instant previous ≤ instant t
           ∧ ascending original initial_bookmark t rest
  end.

(** What one window does to the cursor [c0] it finds: every state it
    writes holds [c0], but for the last state of a window that returns,
    which holds the rendering of the mark the window returns; that mark is
    not before [max_bookmark]. *)
Definition window_cursors {A} (s : stream) (c0 : pyval)
    (max_bookmark : datetime) (mark : A → datetime)
    (r : outcome A * World * list event) : Prop :=
  let cursor := λ st, get_bookmark st (tap_stream_id s) (replication_key s) in
  ∃ k,
    (written (tap_stream_id s) (replication_key s) r.2 = replicate k c0
     ∧ cursor (state r.1.2) = c0
     ∧ ∀ x, r.1.1 ≠ Ok x)
    ∨ ∃ x, r.1.1 = Ok x
           ∧ instant max_bookmark ≤ instant (mark x)
           ∧ written (tap_stream_id s) (replication_key s) r.2
             = replicate k c0 ++ [VStr (isoformat (mark x))]
           ∧ cursor (state r.1.2) = VStr (isoformat (mark x)).

End LeadsRun.

(** ** Vocabulary of the further properties *)

(** [key.lower().replace(" ", "_")]: the key [flatten_activity] files an
    attribute under. *)
Definition attribute_key `{RT : Runtime} (key : string) : string :=
  replace_spaces (str_lower key).

(** The attributes of an activity row: the decoded [attributes] cell, none
    when the row has no such cell. *)
Definition attributes_of `{RT : Runtime} (row : pydict)
    : result (list (string * pyval)) :=
  match row !! "attributes" with
  | Some attributes => json_loads attributes
  | None => inr []
  end.

(** The keys [flatten_activity] adds for the primary attribute. *)
Definition PRIMARY_ATTRIBUTE_KEYS : list string :=
  ["primary_attribute_name"; "primary_attribute_value";
   "primary_attribute_value_id"].

(** ** A reader of flat JSON objects for closed examples

    The members of an object whose values are strings without escapes,
    integers, [true], [false] or [null], in the order of the text. *)

Module FlatJson.

Definition quote : ascii := ascii_of_nat 34.

Fixpoint skip_spaces (l : list ascii) : list ascii :=
  match l with
  | c :: rest => if Ascii.eqb c " " then skip_spaces rest else l
  | [] => []
  end.

(** The characters up to the closing quote, and what follows it. *)
Fixpoint quoted (l : list ascii) : option (string * list ascii) :=
  match l with
  | [] => None
  | c :: rest =>
      if Ascii.eqb c quote then Some (EmptyString, rest)
      else
        match quoted rest with
        | Some (s, rest') => Some (String c s, rest')
        | None => None
        end
  end.

(** The characters of a bare token, up to a comma, a brace or a space. *)
Fixpoint bare (l : list ascii) : string * list ascii :=
  match l with
  | [] => (EmptyString, [])
  | c :: rest =>
      if Ascii.eqb c "," || Ascii.eqb c "}" || Ascii.eqb c " "
      then (EmptyString, l)
      else let '(s, rest') := bare rest in (String c s, rest')
  end.

Definition value (l : list ascii) : option (pyval * list ascii) :=
  match l with
  | c :: rest =>
      if Ascii.eqb c quote then
        match quoted rest with
        | Some (s, rest') => Some (VStr s, rest')
        | None => None
        end
      else
        let '(token, rest') := bare l in
        if String.eqb token "null" then Some (VNone, rest')
        else if String.eqb token "true" then Some (VBool true, rest')
        else if String.eqb token "false" then Some (VBool false, rest')
        else
          match Reference.number token with
          | Some n => Some (VInt n, rest')
          | None => None
          end
  | [] => None
  end.

(** The members of an object, from after its opening brace or a comma. *)
Fixpoint members (fuel : nat) (l : list ascii)
    : option (list (string * pyval)) :=
  match fuel with
  | O => None
  | S fuel' =>
      match skip_spaces l with
      | c :: rest =>
          if Ascii.eqb c quote then
            match quoted rest with
            | Some (key, rest) =>
                match skip_spaces rest with
                | c :: rest =>
                    if Ascii.eqb c ":" then
                      match value (skip_spaces rest) with
                      | Some (v, rest) =>
                          match skip_spaces rest with
                          | c :: rest =>
                              if Ascii.eqb c "," then
                                match members fuel' rest with
                                | Some items => Some ((key, v) :: items)
                                | None => None
                                end
                              else if Ascii.eqb c "}" then
                                match skip_spaces rest with
                                | [] => Some [(key, v)]
                                | _ => None
                                end
                              else None
                          | [] => None
                          end
                      | None => None
                      end
                    else None
                | [] => None
                end
            | None => None
            end
          else None
      | [] => None
      end
  end.

Definition object (s : string) : option (list (string * pyval)) :=
  match skip_spaces (String.list_ascii_of_string s) with
  | c :: rest =>
      if Ascii.eqb c "{" then
        match skip_spaces rest with
        | c' :: rest' =>
            if Ascii.eqb c' "}" then
              match skip_spaces rest' with
              | [] => Some []
              | _ => None
              end
            else members (String.length s) rest
        | [] => None
        end
      else None
  | [] => None
  end.

Definition loads (v : pyval) : result (list (string * pyval)) :=
  match v with
  | VStr s =>
      match object s with
      | Some items => inr items
      | None => inl ValueError
      end
  | _ => inl TypeError
  end.

(** The reference runtime with this reader for [json.loads]. *)
Definition runtime : Runtime := {|
  pendulum_parse := Reference.ref_parse;
  isoformat := Reference.ref_isoformat;
  py_int := Reference.ref_int;
  py_float := Reference.ref_float;
  py_str := Reference.ref_str;
  str_lower := Reference.ref_lower;
  py_ge := Reference.ref_ge;
  json_loads := loads;
  isoformat_nonempty := Reference.ref_isoformat_nonempty
|}.

(** [s] between double quotes. *)
Definition in_quotes (s : string) : string :=
  String quote (String.append s (String quote EmptyString)).

(** The text of an object with two string members. *)
Definition two_members (k1 v1 k2 v2 : string) : string :=
  String.append "{" (String.append (in_quotes k1) (String.append ": " (
  String.append (in_quotes v1) (String.append ", " (
  String.append (in_quotes k2) (String.append ": " (
  String.append (in_quotes v2) "}"))))))).

End FlatJson.

(** ** Events of a run *)

Definition not_record (ev : event) : Prop :=
  match ev with
  | WriteRecord _ _ => False
  | _ => True
  end.

Definition not_called (ev : event) : Prop :=
  match ev with
  | Called _ => False
  | _ => True
  end.

(** A record of leads whose [updatedAt] reads as a timestamp at or after
    [initial_bookmark]; every event that is not a record. *)
Definition lead_not_older `{RT : Runtime} (initial_bookmark : datetime)
    (ev : event) : Prop :=
  match ev with
  | WriteRecord name record =>
      name = "leads"
      ∧ ∃ (d : pydict) v ts,
          record = VDict d ∧ d !! "updatedAt" = Some v
          ∧ pendulum_parse v = inr ts
          ∧ instant initial_bookmark ≤ instant ts
  | _ => True
  end.

Section Counting.
Context `{EV : Env}.

(** When [m] returns, the count it returns is [c] plus the number of
    records it wrote. *)
Definition counts {A} (count : A → Z) (c : Z) (m : M A) : Prop :=
  ∀ w a, (m w).1.1 = Ok a →
    count a = c + Z.of_nat (length (records (m w).2)).

End Counting.

(** The parameters of the request of [sync_programs] at [offset]. *)
Definition programs_page (start_date : pyval) (end_date : string) (offset : Z)
    : pydict :=
  {[ "maxReturn" := VInt 200; "offset" := VInt offset;
     "earliestUpdatedAt" := start_date;
     "latestUpdatedAt" := VStr end_date ]}.

(** ** Scripted accounts for the list categories *)

Module Assets.

Definition programs : stream := {|
  tap_stream_id := "programs";
  selected := VBool true;
  properties :=
    [("id", {[ "type" := VStr "integer"; "inclusion" := VStr "automatic" ]});
     ("updatedAt", {[ "type" := VStr "string"; "format" := VStr "date-time";
                      "inclusion" := VStr "automatic" ]})];
  key_properties := ["id"];
  replication_key := "updatedAt";
  activity_id := VNone;
  primary_attribute_name := VNone
|}.

Definition programs_state (bookmark : string) : State :=
  mk_State {[ "programs" := {[ "updatedAt" := VStr bookmark ]} ]} VNone.

Definition no_more_programs : pydict :=
  {[ "warnings" := VList [VStr NO_ASSET_MSG] ]}.

(** One page of two programs at offset 0, nothing beyond. *)
Definition program_pages (endpoint : string) (params : option pydict)
    : result pydict :=
  match params with
  | Some p =>
      match py_get p "offset" with
      | VInt 0 =>
          inr {[ "warnings" := VList [];
                 "result" := VList [Scenario.campaign 1 "2020-01-05T00:00:00Z";
                                    Scenario.campaign 2 "2019-12-30T00:00:00Z"] ]}
      | _ => inr no_more_programs
      end
  | None => inl (ClientError "not found")
  end.

Definition one_page : Scenario.script := {|
  Scenario.corona := false;
  Scenario.readings := λ n, Scenario.day 10 + Z.of_nat n;
  Scenario.available := [];
  Scenario.failing := [];
  Scenario.unreachable := [];
  Scenario.files := [];
  Scenario.new_ids := [];
  Scenario.responses := program_pages
|}.

(** An account with no program updated since the bookmark. *)
Definition no_programs : Scenario.script := {|
  Scenario.corona := false;
  Scenario.readings := λ n, Scenario.day 10 + Z.of_nat n;
  Scenario.available := [];
  Scenario.failing := [];
  Scenario.unreachable := [];
  Scenario.files := [];
  Scenario.new_ids := [];
  Scenario.responses := λ _ _, inr no_more_programs
|}.

(** The two activity types of an account. *)
Definition activity_type (id : Z) (name : string) : pyval :=
  VDict {[ "id" := VInt id; "name" := VStr name ]}.

Definition two_types : Scenario.script := {|
  Scenario.corona := true;
  Scenario.readings := λ n, Scenario.day 10 + Z.of_nat n;
  Scenario.available := [];
  Scenario.failing := [];
  Scenario.unreachable := [];
  Scenario.files := [];
  Scenario.new_ids := [];
  Scenario.responses := λ _ _,
    inr {[ "result" := VList [activity_type 1 "Visit Webpage";
                              activity_type 2 "Fill Out Form"] ]}
|}.

(** A stream the tap has no driver for. *)
Definition opportunities : stream := {|
  tap_stream_id := "opportunities";
  selected := VBool true;
  properties :=
    [("id", {[ "type" := VStr "integer"; "inclusion" := VStr "automatic" ]})];
  key_properties := ["id"];
  replication_key := "updatedAt";
  activity_id := VNone;
  primary_attribute_name := VNone
|}.

End Assets.

(** ** Streams synced one after the other *)

Section Sequences.
Context `{EV : Env}.

(** Every stream of the list synced, in order, stopping at the first
    that does not return. *)
Fixpoint sync_all (driver : stream → M Z) (streams : list stream) : M () :=
  match streams with
  | [] => mret ()
  | s :: rest => sync_one driver s;; sync_all driver rest
  end.

End Sequences.

(** The names the [if/elif] chain of [sync] has a driver for. *)
Definition has_driver (name : string) : bool :=
  String.eqb name "activity_types" || String.eqb name "leads"
  || String.prefix "activities_" name
  || String.eqb name "campaigns" || String.eqb name "lists"
  || String.eqb name "programs".

(** A record of the stream [name] whose field [key] compares [>=] to
    [start_date]; every event that is not a record. *)
Definition record_not_older `{RT : Runtime} (name key : string)
    (start_date : pyval) (ev : event) : Prop :=
  match ev with
  | WriteRecord name' record =>
      name' = name
      ∧ ∃ (d : pydict) v,
          record = VDict d ∧ d !! key = Some v
          ∧ py_ge v start_date = inr true
  | _ => True
  end.

(** * Properties *)

(** ** The value formatter *)

Section FormatterFacts.
Context `{RT : Runtime}.

Lemma null_equivalent_spec (value : pyval) :
  null_equivalent value = true ↔
  value = VNone ∨ value = VStr "" ∨ value = VStr "null".
Proof.
  split.
  - destruct value as [| | | |s| |]; simpl; try discriminate; auto.
    intros [H|H]%orb_true_iff; apply String.eqb_eq in H; subst; auto.
  - intros [->|[->| ->]]; reflexivity.
Qed.

Lemma format_value_typed (value ty : pyval) (schema : pydict) :
  schema !! "type" = Some ty →
  null_equivalent value = false →
  format_value value schema =
    if py_eq_str (py_get schema "format") "date-time" then
      rbind (pendulum_parse value) (λ d, inr (VStr (isoformat d)))
    else if py_str_in "integer" (field_type_of ty) then py_int value
    else if py_str_in "string" (field_type_of ty) then inr (py_str value)
    else if py_str_in "number" (field_type_of ty) then py_float value
    else if py_str_in "boolean" (field_type_of ty) then
      match value with
      | VBool _ => inr value
      | VStr s => inr (VBool (String.eqb (str_lower s) "true"))
      | _ => inl AttributeError
      end
    else inr value.
Proof.
  intros Hty Hnull. unfold format_value, py_item.
  rewrite Hty. simpl. rewrite Hnull. reflexivity.
Qed.

(** C7, amended.  A null-equivalent raw value ([None], the empty string or
    the string "null") is formatted to [None] by every field schema that has
    a type entry, whatever the declared type and format are.  A schema with
    no type entry raises [KeyError] for it, as for every other value: the
    type entry is read before the value is looked at. *)
Theorem format_value_null (value : pyval) (schema : pydict) :
  value = VNone ∨ value = VStr "" ∨ value = VStr "null" →
  (is_Some (schema !! "type") → format_value value schema = inr VNone)
  ∧ (schema !! "type" = None →
     format_value value schema = inl (KeyError "type")).
Proof.
  intros Hv. apply null_equivalent_spec in Hv. split.
  - intros [ty Hty]. unfold format_value, py_item. rewrite Hty. simpl.
    now rewrite Hv.
  - intros Hty. unfold format_value, py_item. now rewrite Hty.
Qed.

(** C8, amended.  For a raw value that is not null-equivalent and a schema
    with a type entry, [format_value] parses by the first matching declared
    type in the order timestamp (format date-time), integer, string, number,
    boolean; boolean parsing returns a boolean as it is and a string as
    whether its lower-cased form is "true"; a schema whose type names none
    of these, and whose format is not date-time, returns the value
    unchanged.  A schema with no type entry raises [KeyError]. *)
Theorem format_value_priority (value : pyval) (schema : pydict) :
  null_equivalent value = false →
  (∀ ty, schema !! "type" = Some ty →
     let declared := λ t, py_str_in t (field_type_of ty) in
     let timestamp := py_eq_str (py_get schema "format") "date-time" in
     (timestamp = true →
        format_value value schema =
          rbind (pendulum_parse value) (λ d, inr (VStr (isoformat d))))
     ∧ (timestamp = false → declared "integer" = true →
        format_value value schema = py_int value)
     ∧ (timestamp = false → declared "integer" = false →
        declared "string" = true →
        format_value value schema = inr (py_str value))
     ∧ (timestamp = false → declared "integer" = false →
        declared "string" = false → declared "number" = true →
        format_value value schema = py_float value)
     ∧ (timestamp = false → declared "integer" = false →
        declared "string" = false → declared "number" = false →
        declared "boolean" = true →
        (∀ b, value = VBool b → format_value value schema = inr (VBool b))
        ∧ (∀ s, value = VStr s →
             format_value value schema =
               inr (VBool (String.eqb (str_lower s) "true"))))
     ∧ (timestamp = false → declared "integer" = false →
        declared "string" = false → declared "number" = false →
        declared "boolean" = false →
        format_value value schema = inr value))
  ∧ (schema !! "type" = None →
     format_value value schema = inl (KeyError "type")).
Proof.
  intros Hnull. split.
  - intros ty Hty declared timestamp.
    rewrite (format_value_typed value ty schema Hty Hnull).
    fold timestamp. subst declared. cbv beta.
    split; [intros ->; reflexivity |].
    split; [intros -> ->; reflexivity |].
    split; [intros -> -> ->; reflexivity |].
    split; [intros -> -> -> ->; reflexivity |].
    split; [| intros -> -> -> -> ->; reflexivity].
    intros -> -> -> -> ->. split.
    + intros b ->. reflexivity.
    + intros s ->. reflexivity.
  - intros Hty. unfold format_value, py_item. rewrite Hty. reflexivity.
Qed.

End FormatterFacts.

(** C7, amended, at the string "null", for a date-time field of type
    integer. *)
Lemma format_value_null_witness :
  format_value (RT := Reference.runtime) (VStr "null")
    {[ "type" := VStr "integer"; "format" := VStr "date-time" ]} = inr VNone.
Proof.
  refine (proj1 (format_value_null (RT := Reference.runtime) (VStr "null")
                   {[ "type" := VStr "integer"; "format" := VStr "date-time" ]}
                   _) _).
  - right; right; reflexivity.
  - rewrite lookup_insert_eq. eexists; reflexivity.
Defined.

(** C7 as stated fails for a schema with no type entry: [None], the empty
    string and the string "null" are not formatted to [None], [KeyError] is
    raised. *)
Lemma format_value_null_without_type :
  format_value (RT := Reference.runtime) VNone ∅ = inl (KeyError "type")
  ∧ format_value (RT := Reference.runtime) (VStr "") ∅ = inl (KeyError "type")
  ∧ format_value (RT := Reference.runtime) (VStr "null") ∅
    = inl (KeyError "type")
  ∧ format_value (RT := Reference.runtime) VNone ∅ ≠ inr VNone.
Proof. repeat split; [reflexivity .. | discriminate]. Qed.

(** C8, amended, at the string "TRUE" and a schema of type
    [["null", "boolean"]]. *)
Lemma format_value_priority_witness :
  format_value (RT := Reference.runtime) (VStr "TRUE")
    {[ "type" := VList [VStr "null"; VStr "boolean"] ]} = inr (VBool true).
Proof.
  destruct (format_value_priority (RT := Reference.runtime) (VStr "TRUE")
              {[ "type" := VList [VStr "null"; VStr "boolean"] ]} eq_refl)
    as [Htyped _].
  destruct (Htyped _ (lookup_singleton_eq _ _)) as (_ & _ & _ & _ & Hbool & _).
  destruct (Hbool eq_refl eq_refl eq_refl eq_refl eq_refl) as [_ Hstr].
  exact (Hstr "TRUE" eq_refl).
Defined.

(** C8 as stated fails for a schema with no type entry: the value is not
    returned, [KeyError] is raised. *)
Lemma format_value_absent_type_raises :
  format_value (RT := Reference.runtime) (VStr "x") ∅ = inl (KeyError "type")
  ∧ format_value (RT := Reference.runtime) (VStr "x") ∅ ≠ inr (VStr "x").
Proof. split; [reflexivity | discriminate]. Qed.

(** ** Reasoning about runs *)

Section Runs.
Context `{RT : Runtime} `{EV : Env}.

Lemma run_bind {A B} (m : M A) (f : A → M B) (w : World) :
  (m ≫= f) w =
    match m w with
    | (Ok a, w1, t1) => let '(o, w2, t2) := f a w1 in (o, w2, t1 ++ t2)
    | (Raise e, w1, t1) => (Raise e, w1, t1)
    | (Timeout, w1, t1) => (Timeout, w1, t1)
    end.
Proof. reflexivity. Qed.

Lemma run_bind_ok {A B} (m : M A) (f : A → M B) (w w1 : World) a t1 :
  m w = (Ok a, w1, t1) →
  (m ≫= f) w = ((f a w1).1.1, (f a w1).1.2, t1 ++ (f a w1).2).
Proof.
  intros H. rewrite run_bind, H. now destruct (f a w1) as [[o w2] t2].
Qed.

Lemma run_bind_raise {A B} (m : M A) (f : A → M B) (w w1 : World) e t1 :
  m w = (Raise e, w1, t1) → (m ≫= f) w = (Raise e, w1, t1).
Proof. intros H. now rewrite run_bind, H. Qed.

End Runs.

(** ** The bookmark store *)

Lemma get_write_bookmark_eq (st : State) name key v :
  get_bookmark (write_bookmark st name key v) name key = v.
Proof.
  unfold get_bookmark, write_bookmark, stream_bookmarks, py_get. simpl.
  rewrite lookup_insert_eq. simpl. now rewrite lookup_insert_eq.
Qed.

Lemma get_write_bookmark_ne (st : State) name key v name' key' :
  name ≠ name' ∨ key ≠ key' →
  get_bookmark (write_bookmark st name key v) name' key' = get_bookmark st name' key'.
Proof.
  intros H. unfold get_bookmark, write_bookmark, stream_bookmarks, py_get. simpl.
  destruct (decide (name = name')) as [<-|Hn].
  - rewrite lookup_insert_eq. simpl.
    destruct H as [H|H]; [congruence |]. now rewrite lookup_insert_ne.
  - now rewrite lookup_insert_ne.
Qed.

Lemma currently_syncing_write_bookmark (st : State) name key v :
  currently_syncing (write_bookmark st name key v) = currently_syncing st.
Proof. reflexivity. Qed.

Section EngineFacts.
Context `{RT : Runtime} `{EV : Env}.

Lemma update_state_run (s : stream) (bookmark export_id export_end : pyval)
    (w : World) :
  update_state_with_export_info s bookmark export_id export_end w =
    let st := with_export_info s bookmark export_id export_end (state w) in
    (Ok (), mk_World st (remote_state w) (ticks w), [WriteState st]).
Proof. reflexivity. Qed.

(** C4.  When the client reports the export job failed, [wait_for_export]
    writes one state in which [export_id] and [export_end] of the stream are
    [None] and nothing else is changed (no bookmark is passed to the state
    writer), and raises [ExportFailed] again; the client was asked once. *)
Theorem wait_for_export_failure (s : stream) (export_id : pyval) (w : World)
    (rs : remote) :
  client_wait_for_export (export_stream_type s) export_id (remote_state w)
    = (inl ExportFailed, rs) →
  let st' := with_export_info s VNone VNone VNone (state w) in
  wait_for_export s export_id w =
    (Raise ExportFailed, mk_World st' rs (ticks w),
     [Called (CallWaitForExport (export_stream_type s) export_id); WriteState st'])
  ∧ get_bookmark st' (tap_stream_id s) "export_id" = VNone
  ∧ get_bookmark st' (tap_stream_id s) "export_end" = VNone
  ∧ (∀ name key,
       name ≠ tap_stream_id s ∨ (key ≠ "export_id" ∧ key ≠ "export_end") →
       get_bookmark st' name key = get_bookmark (state w) name key)
  ∧ currently_syncing st' = currently_syncing (state w).
Proof.
  intros Hfail st'. repeat split.
  - unfold wait_for_export, on_export_failed, client. rewrite Hfail. reflexivity.
  - subst st'. unfold with_export_info. simpl.
    rewrite get_write_bookmark_ne by (right; discriminate).
    apply get_write_bookmark_eq.
  - subst st'. unfold with_export_info. simpl. apply get_write_bookmark_eq.
  - intros name key H. subst st'. unfold with_export_info. simpl.
    rewrite !get_write_bookmark_ne; [reflexivity | |];
      destruct H as [H|[H1 H2]]; auto.
Qed.

End EngineFacts.

(** C4 at a leads export the server reports as failed. *)
Lemma wait_for_export_failure_witness :
  let w := Scenario.start Scenario.failed_export
             (Scenario.leads_state "2020-01-01T00:00:00+00:00"
                (Some ("e1", "2020-01-31T00:00:00+00:00"))) in
  let st' := with_export_info Scenario.leads VNone VNone VNone (state w) in
  wait_for_export Scenario.leads (VStr "e1") w =
    (Raise ExportFailed, Scenario.world Scenario.failed_export st' [] 0,
     [Called (CallWaitForExport "leads" (VStr "e1")); WriteState st'])
  ∧ get_bookmark st' "leads" "export_id" = VNone
  ∧ get_bookmark st' "leads" "export_end" = VNone
  ∧ get_bookmark st' "leads" "updatedAt" = VStr "2020-01-01T00:00:00+00:00".
Proof.
  intros w st'.
  destruct (wait_for_export_failure
              (EV := Scenario.env Scenario.failed_export)
              Scenario.leads (VStr "e1") w ([] : list string) eq_refl)
    as (Hrun & Hid & Hend & Hframe & _).
  split; [exact Hrun |]. split; [exact Hid |]. split; [exact Hend |].
  fold st'. rewrite Hframe by (right; split; discriminate). reflexivity.
Defined.

(** ** Leads: one window *)

Section LeadsWindow.
Context `{RT : Runtime} `{EV : Env}.

Lemma sync_leads_rows_run (s : stream) (initial_bookmark export_end : datetime)
    (rows : list pydict) (recs : list (pydict * datetime)) :
  collect (leads_record s) rows = inr recs →
  ∀ (max_bookmark : datetime) (record_count : Z) (w : World),
    sync_leads_rows s initial_bookmark export_end rows max_bookmark record_count w =
      (Ok (leads_mark initial_bookmark export_end max_bookmark recs,
           record_count + Z.of_nat (length (leads_emitted initial_bookmark recs))),
       w,
       map (λ r, WriteRecord "leads" (VDict r.1))
           (leads_emitted initial_bookmark recs)).
Proof.
  revert recs. induction rows as [|row rows IH]; intros recs Hrecs mb c w.
  - injection Hrecs as <-. unfold leads_mark, leads_emitted.
    destruct use_corona; simpl; rewrite Z.add_0_r; reflexivity.
  - simpl in Hrecs.
    destruct (leads_record s row) as [e|[record ts]] eqn:Hrow; [discriminate |].
    simpl in Hrecs.
    destruct (collect (leads_record s) rows) as [e|recs'] eqn:Hrest;
      [discriminate |].
    injection Hrecs as <-. specialize (IH recs' eq_refl).
    cbn [sync_leads_rows]. rewrite run_bind, Hrow. cbn [lift ret].
    unfold leads_mark, leads_emitted in *.
    destruct use_corona eqn:Hc.
    + rewrite run_bind. cbn [emit]. rewrite IH. cbn.
      rewrite Nat2Z.inj_succ.
      replace (c + 1 + Z.of_nat (length recs'))
        with (c + Z.succ (Z.of_nat (length recs'))) by lia.
      destruct recs'; reflexivity.
    + rewrite filter_cons. cbn [snd].
      destruct (dt_ge ts initial_bookmark) eqn:Hge.
      * rewrite decide_True by exact I.
        rewrite run_bind. cbn [emit]. rewrite IH. cbn.
        rewrite Nat2Z.inj_succ.
        match goal with
        | |- context [c + 1 + ?n] =>
            replace (c + 1 + n) with (c + Z.succ n) by lia
        end.
        reflexivity.
      * rewrite decide_False by (intros []).
        rewrite IH. reflexivity.
Qed.

End LeadsWindow.

(** ** Events of a run, whatever its outcome *)

Section Emits.
Context `{RT : Runtime} `{EV : Env}.

Lemma emits_bind {A B} E (m : M A) (f : A → M B) :
  emits E m → (∀ a, emits E (f a)) → emits E (m ≫= f).
Proof.
  intros Hm Hf w. rewrite run_bind. specialize (Hm w).
  destruct (m w) as [[[a|e|] w1] t1]; simpl in *; try exact Hm.
  specialize (Hf a w1). destruct (f a w1) as [[o w2] t2]; simpl in *.
  now apply Forall_app.
Qed.

Lemma emits_ret {A} E (a : A) : emits E (mret a).
Proof. intros w. constructor. Qed.

Lemma emits_raise {A} E (e : exn) : emits E (@raise _ A e).
Proof. intros w. constructor. Qed.

Lemma emits_timeout {A} E : emits E (@timeout _ A).
Proof. intros w. constructor. Qed.

Lemma emits_lift {A} E (r : result A) : emits E (lift r).
Proof. destruct r; intros w; constructor. Qed.

Lemma emits_get_state E : emits E get_state.
Proof. intros w. constructor. Qed.

Lemma emits_modify_state E f : emits E (modify_state f).
Proof. intros w. constructor. Qed.

Lemma emits_utcnow E : emits E utcnow.
Proof. intros w. constructor. Qed.

Lemma emits_emit (E : event → Prop) ev : E ev → emits E (emit ev).
Proof. intros H w. repeat constructor. exact H. Qed.

Lemma emits_write_state (E : event → Prop) :
  (∀ st, E (WriteState st)) → emits E write_state.
Proof. intros H w. repeat constructor. apply H. Qed.

Lemma emits_client {A} (E : event → Prop) c (f : remote → result A * remote) :
  E (Called c) → emits E (client c f).
Proof.
  intros H w. unfold client.
  destruct (f (remote_state w)) as [[e|a] rs]; repeat constructor; exact H.
Qed.

Lemma emits_on_export_failed {A} E (m : M A) handler :
  emits E m → emits E handler → emits E (on_export_failed m handler).
Proof.
  intros Hm Hh w. unfold on_export_failed. specialize (Hm w).
  destruct (m w) as [[[a|e|] w1] t1]; simpl in *; try exact Hm.
  destruct e; try exact Hm.
  specialize (Hh w1).
  destruct (handler w1) as [[[[]|e|] w2] t2]; simpl in *; now apply Forall_app.
Qed.

Lemma emits_if {A} E (b : bool) (m1 m2 : M A) :
  emits E m1 → emits E m2 → emits E (if b then m1 else m2).
Proof. now destruct b. Qed.

Lemma returns_bind {A B} (m : M A) (f : A → M B) Q :
  (∀ a, returns (f a) Q) → returns (m ≫= f) Q.
Proof.
  intros Hf w b. rewrite run_bind.
  destruct (m w) as [[[a|e|] w1] t1]; simpl; try discriminate.
  specialize (Hf a w1 b). destruct (f a w1) as [[o w2] t2]; simpl in *.
  exact Hf.
Qed.

Lemma returns_ret {A} (a : A) (Q : A → Prop) : Q a → returns (mret a) Q.
Proof. intros H w b Hb. simpl in Hb. now injection Hb as <-. Qed.

End Emits.

(** Splits [emits] goals along the structure of the engine code. *)
Ltac emits_step :=
  lazymatch goal with
  | |- emits _ (_ ≫= _) => apply emits_bind; [| intros ?]
  | |- emits _ (mret _) => apply emits_ret
  | |- emits _ (ret _) => apply emits_ret
  | |- emits _ (raise _) => apply emits_raise
  | |- emits _ timeout => apply emits_timeout
  | |- emits _ (lift _) => apply emits_lift
  | |- emits _ get_state => apply emits_get_state
  | |- emits _ (modify_state _) => apply emits_modify_state
  | |- emits _ utcnow => apply emits_utcnow
  | |- emits _ (emit _) => apply emits_emit
  | |- emits _ write_state => apply emits_write_state
  | |- emits _ (client _ _) => apply emits_client
  | |- emits _ (client_request _ _ _) => unfold client_request
  | |- emits _ (on_export_failed _ _) => apply emits_on_export_failed
  | |- emits _ (if _ then _ else _) => apply emits_if
  | |- emits _ (match ?x with _ => _ end) => destruct x
  | |- emits _ (let '(_, _) := ?x in _) => destruct x
  | |- emits _ (let _ := _ in _) => cbv zeta
  end.

Ltac emits_auto := repeat emits_step.

Ltac returns_step :=
  lazymatch goal with
  | |- returns (_ ≫= _) _ => apply returns_bind; intros ?
  | |- returns (mret _) _ => apply returns_ret
  | |- returns (let '(_, _) := ?x in _) _ => destruct x
  end.

Ltac returns_auto := repeat returns_step.

(** ** Windows of a run *)

Section Windows.
Context `{RT : Runtime} `{EV : Env}.

Lemma windows_app (t1 t2 : list event) :
  windows (t1 ++ t2) = windows t1 ++ windows t2.
Proof. apply omap_app. Qed.

Lemma windows_cons (a e : datetime) (t : list event) :
  windows (Window a e :: t) = (a, e) :: windows t.
Proof. reflexivity. Qed.

Lemma windows_none (t : list event) : Forall not_window t → windows t = [].
Proof.
  induction 1 as [|ev t Hev _ IH]; [reflexivity |].
  destruct ev; simpl in *; try exact IH. destruct Hev.
Qed.

Lemma get_export_end_run (export_start : datetime) (w : World) :
  get_export_end export_start w =
    (Ok (export_end_at export_start (clock (ticks w)) (clock (S (ticks w)))),
     mk_World (state w) (remote_state w)
       (if instant export_start + MAX_EXPORT_DAYS * MICROS_PER_DAY
           <? clock (ticks w)
        then S (ticks w) else S (S (ticks w))),
     []).
Proof.
  unfold get_export_end, export_end_at. rewrite run_bind. cbn [utcnow].
  unfold dt_ge, dt_add_days. cbn [instant utcoffset].
  rewrite Z.leb_antisym.
  destruct (_ <? clock (ticks w)); reflexivity.
Qed.

Lemma no_window_update_state s bookmark export_id export_end :
  emits not_window (update_state_with_export_info s bookmark export_id export_end).
Proof. unfold update_state_with_export_info. emits_auto. intros; exact I. Qed.

Lemma no_window_get_export_end export_start :
  emits not_window (get_export_end export_start).
Proof. unfold get_export_end. emits_auto. Qed.

Lemma no_window_get_or_create_leads s export_start :
  emits not_window (get_or_create_export_for_leads s export_start).
Proof.
  unfold get_or_create_export_for_leads. emits_auto;
    try exact I; try apply no_window_get_export_end;
    try apply no_window_update_state.
Qed.

Lemma no_window_get_or_create_activities s export_start :
  emits not_window (get_or_create_export_for_activities s export_start).
Proof.
  unfold get_or_create_export_for_activities. emits_auto;
    try exact I; try apply no_window_get_export_end;
    try apply no_window_update_state.
Qed.

Lemma no_window_wait_for_export s export_id :
  emits not_window (wait_for_export s export_id).
Proof.
  unfold wait_for_export. emits_auto;
    try exact I; apply no_window_update_state.
Qed.

Lemma no_window_stream_rows stream_type export_id :
  emits not_window (stream_rows stream_type export_id).
Proof. unfold stream_rows. emits_auto; exact I. Qed.

Lemma no_window_sync_leads_rows s initial_bookmark export_end rows :
  ∀ max_bookmark record_count,
    emits not_window
      (sync_leads_rows s initial_bookmark export_end rows max_bookmark record_count).
Proof.
  induction rows as [|row rows IH]; intros mb c; cbn [sync_leads_rows].
  - emits_auto.
  - emits_auto; try exact I; apply IH.
Qed.

Lemma no_window_sync_activities_rows s rows :
  ∀ record_count, emits not_window (sync_activities_rows s rows record_count).
Proof.
  induction rows as [|row rows IH]; intros c; cbn [sync_activities_rows].
  - emits_auto.
  - emits_auto; try exact I; apply IH.
Qed.

End Windows.

Ltac no_window :=
  emits_auto;
  first [ exact I
        | apply no_window_update_state
        | apply no_window_get_export_end
        | apply no_window_get_or_create_leads
        | apply no_window_get_or_create_activities
        | apply no_window_wait_for_export
        | apply no_window_stream_rows
        | apply no_window_sync_leads_rows
        | apply no_window_sync_activities_rows
        | idtac ].

Section WindowChains.
Context `{RT : Runtime} `{EV : Env}.

Lemma one_window_intro {A B} (next : B → datetime) (export_start : datetime)
    (m : M (A * datetime)) (rest : A → datetime → M B) (w : World) :
  emits not_window m →
  (∀ a e, emits not_window (rest a e)) →
  (∀ a e, returns (rest a e) (λ x, next x = e)) →
  one_window next export_start
    ((m ≫= λ '(a, e), emit (Window export_start e);; rest a e) w).
Proof.
  intros Hm Hrest Hret. rewrite run_bind.
  pose proof (windows_none _ (Hm w)) as Hw1.
  destruct (m w) as [[[[a e]|ex|] w1] t1]; simpl in Hw1.
  - right. exists e. rewrite run_bind. cbn [emit].
    pose proof (windows_none _ (Hrest a e w1)) as Hw2.
    pose proof (Hret a e w1) as Hr.
    destruct (rest a e w1) as [[o w2] t2]; simpl in *.
    rewrite windows_app, Hw1, windows_cons, Hw2.
    split; [reflexivity | exact Hr].
  - left. split; [exact Hw1 | discriminate].
  - left. split; [exact Hw1 | discriminate].
Qed.

Lemma sync_leads_window_one s initial_bookmark export_start max_bookmark
    record_count w :
  one_window (λ x : datetime * datetime * Z, x.1.1) export_start
    (sync_leads_window s initial_bookmark export_start max_bookmark record_count w).
Proof.
  unfold sync_leads_window.
  apply (one_window_intro (λ x : datetime * datetime * Z, x.1.1) export_start
           (get_or_create_export_for_leads s export_start)
           (λ export_id export_end,
              wait_for_export s export_id;;
              rows ← stream_rows "leads" export_id;
              '(max_bookmark, record_count) ←
                sync_leads_rows s initial_bookmark export_end rows
                                max_bookmark record_count;
              update_state_with_export_info s (VStr (isoformat max_bookmark))
                                            VNone VNone;;
              mret (export_end, max_bookmark, record_count))).
  - apply no_window_get_or_create_leads.
  - intros a e. no_window.
  - intros a e. returns_auto. reflexivity.
Qed.

Lemma sync_activities_window_one s export_start record_count w :
  one_window (λ x : datetime * Z, x.1) export_start
    (sync_activities_window s export_start record_count w).
Proof.
  unfold sync_activities_window.
  apply (one_window_intro (λ x : datetime * Z, x.1) export_start
           (get_or_create_export_for_activities s export_start)
           (λ export_id export_end,
              wait_for_export s export_id;;
              rows ← stream_rows "activites" export_id;
              record_count ← sync_activities_rows s rows record_count;
              update_state_with_export_info s (VStr (isoformat export_start))
                                            VNone VNone;;
              mret (export_end, record_count))).
  - apply no_window_get_or_create_activities.
  - intros a e. no_window.
  - intros a e. returns_auto. reflexivity.
Qed.

Lemma window_chain_step {A B} (next : A → datetime)
    (job_started export_start : datetime) (m : M A) (loop : A → M B) (w : World) :
  instant export_start < instant job_started →
  one_window next export_start (m w) →
  (∀ a w1, window_chain job_started (next a) (loop a w1)) →
  window_chain job_started export_start ((m ≫= loop) w).
Proof.
  intros Hlt Hone Hloop. rewrite run_bind. unfold window_chain.
  destruct Hone as [[Hnil Hno]|(e & Hw & Hnext)].
  - destruct (m w) as [[[a|ex|] w1] t1]; cbn [fst snd] in *.
    + now destruct (Hno a).
    + rewrite Hnil. repeat split; [constructor | discriminate].
    + rewrite Hnil. repeat split; [constructor | discriminate].
  - destruct (m w) as [[[a|ex|] w1] t1]; cbn [fst snd] in *.
    + specialize (Hnext a eq_refl). subst e.
      destruct (Hloop a w1) as (Hc & Hall & Hok).
      destruct (loop a w1) as [[o w2] t2]; cbn [fst snd] in *.
      rewrite windows_app, Hw. cbn [app contiguous_from].
      split; [auto |]. split; [constructor; auto |]. exact Hok.
    + rewrite Hw. cbn [contiguous_from].
      split; [auto |]. split; [repeat constructor; auto | discriminate].
    + rewrite Hw. cbn [contiguous_from].
      split; [auto |]. split; [repeat constructor; auto | discriminate].
Qed.

Lemma sync_leads_loop_chain fuel s initial_bookmark job_started :
  ∀ export_start max_bookmark record_count w,
    window_chain job_started export_start
      (sync_leads_loop fuel s initial_bookmark job_started export_start
                       max_bookmark record_count w).
Proof.
  induction fuel as [|fuel IH]; intros export_start mb c w;
    cbn [sync_leads_loop]; unfold dt_lt;
    destruct (instant export_start <? instant job_started) eqn:Hlt.
  - repeat split; [constructor | discriminate].
  - apply Z.ltb_ge in Hlt. repeat split; [constructor |]. intros; exact Hlt.
  - apply Z.ltb_lt in Hlt.
    apply (window_chain_step (λ x : datetime * datetime * Z, x.1.1)); auto.
    + apply sync_leads_window_one.
    + intros [[e mb'] c'] w1. apply IH.
  - apply Z.ltb_ge in Hlt. repeat split; [constructor |]. intros; exact Hlt.
Qed.

Lemma sync_activities_loop_chain fuel s job_started :
  ∀ export_start record_count w,
    window_chain job_started export_start
      (sync_activities_loop fuel s job_started export_start record_count w).
Proof.
  induction fuel as [|fuel IH]; intros export_start c w;
    cbn [sync_activities_loop]; unfold dt_lt;
    destruct (instant export_start <? instant job_started) eqn:Hlt.
  - repeat split; [constructor | discriminate].
  - apply Z.ltb_ge in Hlt. repeat split; [constructor |]. intros; exact Hlt.
  - apply Z.ltb_lt in Hlt.
    apply (window_chain_step (λ x : datetime * Z, x.1)); auto.
    + apply sync_activities_window_one.
    + intros [e c'] w1. apply IH.
  - apply Z.ltb_ge in Hlt. repeat split; [constructor |]. intros; exact Hlt.
Qed.

End WindowChains.

(** ** Leads: the rule of a window *)

Section LeadsRuleFacts.
Context `{RT : Runtime} `{EV : Env}.

Lemma wait_for_export_ok (s : stream) (export_id : pyval) (w : World) rs :
  client_wait_for_export (export_stream_type s) export_id (remote_state w)
    = (inr (), rs) →
  wait_for_export s export_id w =
    (Ok (), mk_World (state w) rs (ticks w),
     [Called (CallWaitForExport (export_stream_type s) export_id)]).
Proof.
  intros H. unfold wait_for_export, on_export_failed, client. now rewrite H.
Qed.

Lemma stream_rows_ok (stream_type : string) (export_id : pyval) (w : World)
    headers lines rs :
  stream_export stream_type export_id (remote_state w)
    = (inr (headers, lines), rs) →
  stream_rows stream_type export_id w =
    (Ok (map (dict_of_zip headers) lines), mk_World (state w) rs (ticks w),
     [Called (CallStreamExport stream_type export_id)]).
Proof.
  intros H. unfold stream_rows. rewrite run_bind. unfold client. now rewrite H.
Qed.

Lemma get_bookmark_with_export_info (s : stream) (bookmark : string) (st : State) :
  bookmark ≠ "" →
  get_bookmark (with_export_info s (VStr bookmark) VNone VNone st)
    (tap_stream_id s) (replication_key s) = VStr bookmark.
Proof.
  intros Hne. unfold with_export_info. cbn [truthy].
  apply String.eqb_neq in Hne. rewrite Hne. cbn [negb].
  apply get_write_bookmark_eq.
Qed.

Lemma sync_leads_window_run (s : stream)
    (initial_bookmark export_start max_bookmark : datetime) (record_count : Z)
    (w w1 : World) (t1 : list event) (export_id : pyval) (export_end : datetime)
    (r2 r3 : remote) headers lines (recs : list (pydict * datetime)) :
  get_or_create_export_for_leads s export_start w
    = (Ok (export_id, export_end), w1, t1) →
  client_wait_for_export (export_stream_type s) export_id (remote_state w1)
    = (inr (), r2) →
  stream_export "leads" export_id r2 = (inr (headers, lines), r3) →
  collect (leads_record s) (map (dict_of_zip headers) lines) = inr recs →
  let emitted := leads_emitted initial_bookmark recs in
  let mark := leads_mark initial_bookmark export_end max_bookmark recs in
  let st' := with_export_info s (VStr (isoformat mark)) VNone VNone (state w1) in
  sync_leads_window s initial_bookmark export_start max_bookmark record_count w =
    (Ok (export_end, mark, record_count + Z.of_nat (length emitted)),
     mk_World st' r3 (ticks w1),
     t1 ++ Window export_start export_end
        :: Called (CallWaitForExport (export_stream_type s) export_id)
        :: Called (CallStreamExport "leads" export_id)
        :: map (λ r, WriteRecord "leads" (VDict r.1)) emitted
        ++ [WriteState st']).
Proof.
  intros Hget Hwait Hfile Hrecs emitted mark st'.
  unfold sync_leads_window.
  rewrite run_bind, Hget. rewrite run_bind. cbn [emit].
  rewrite run_bind, (wait_for_export_ok _ _ _ _ Hwait).
  rewrite run_bind.
  rewrite (stream_rows_ok "leads" export_id
             (mk_World (state w1) r2 (ticks w1)) headers lines r3 Hfile).
  rewrite run_bind.
  rewrite (sync_leads_rows_run s initial_bookmark export_end _ recs Hrecs).
  rewrite run_bind, update_state_run. reflexivity.
Qed.

Lemma sync_leads_run (fuel : nat) (s : stream) (w : World) (b : datetime) :
  pendulum_parse (get_bookmark (state w) "leads" (replication_key s)) = inr b →
  sync_leads fuel s w =
    let r := sync_leads_loop fuel s b (mk_datetime (clock (ticks w)) 0)
               (if use_corona then dt_subtract_days b ATTRIBUTION_WINDOW_DAYS
                else b)
               b 0 (mk_World (state w) (remote_state w) (S (ticks w))) in
    (r.1.1, r.1.2, WriteSchema "leads" (properties s) (key_properties s) :: r.2).
Proof.
  intros Hb. unfold sync_leads.
  rewrite run_bind. cbn [emit]. rewrite run_bind. cbn [get_state].
  rewrite run_bind, Hb. cbn [lift ret]. rewrite run_bind. cbn [lift ret].
  rewrite run_bind. cbn [utcnow].
  match goal with
  | |- context [sync_leads_loop fuel s b ?j ?st b 0 ?w'] =>
      destruct (sync_leads_loop fuel s b j st b 0 w') as [[o w2] t2]
  end.
  reflexivity.
Qed.

Lemma sync_leads_chain (fuel : nat) (s : stream) (w : World) (b : datetime) :
  pendulum_parse (get_bookmark (state w) "leads" (replication_key s)) = inr b →
  window_chain (mk_datetime (clock (ticks w)) 0)
    (if use_corona then dt_subtract_days b ATTRIBUTION_WINDOW_DAYS else b)
    (sync_leads fuel s w).
Proof.
  intros Hb. rewrite (sync_leads_run fuel s w b Hb). cbv zeta.
  apply sync_leads_loop_chain.
Qed.

End LeadsRuleFacts.

Section LeadsClaims.
Context `{RT : Runtime} `{EV : Env}.

Lemma dt_max_instant (a b : datetime) :
  instant (dt_max a b) = Z.max (instant a) (instant b).
Proof.
  unfold dt_max. destruct (instant a <? instant b) eqn:H.
  - apply Z.ltb_lt in H. lia.
  - apply Z.ltb_ge in H. lia.
Qed.

Lemma foldl_dt_max_instant (l : list datetime) :
  ∀ a, instant (foldl dt_max a l) = foldl Z.max (instant a) (instant <$> l).
Proof.
  induction l as [|d l IH]; intros a; [reflexivity |].
  cbn [foldl fmap list_fmap]. now rewrite IH, dt_max_instant.
Qed.

End LeadsClaims.

(** Proves a closed equation by evaluating its left-hand side. *)
Ltac run_eq :=
  lazymatch goal with
  | |- ?l = _ =>
      let l' := eval vm_compute in l in
      vm_cast_no_check (@eq_refl _ l')
  end.

(** ** Activities *)

Section ActivitiesFacts.
Context `{RT : Runtime} `{EV : Env}.

(** After a window of activities the bookmark written is the start of the
    window, whatever its end and its rows are. *)
Lemma sync_activities_window_run (s : stream) (export_start : datetime)
    (record_count record_count' : Z) (w w1 w3 : World) (t1 t3 : list event)
    (export_id : pyval) (export_end : datetime) (r2 r3 : remote) headers lines :
  get_or_create_export_for_activities s export_start w
    = (Ok (export_id, export_end), w1, t1) →
  client_wait_for_export (export_stream_type s) export_id (remote_state w1)
    = (inr (), r2) →
  stream_export "activites" export_id r2 = (inr (headers, lines), r3) →
  sync_activities_rows s (map (dict_of_zip headers) lines) record_count
                       (mk_World (state w1) r3 (ticks w1))
    = (Ok record_count', w3, t3) →
  let st' := with_export_info s (VStr (isoformat export_start)) VNone VNone
                              (state w3) in
  sync_activities_window s export_start record_count w =
    (Ok (export_end, record_count'),
     mk_World st' (remote_state w3) (ticks w3),
     t1 ++ Window export_start export_end
        :: Called (CallWaitForExport (export_stream_type s) export_id)
        :: Called (CallStreamExport "activites" export_id)
        :: t3 ++ [WriteState st'])
  ∧ get_bookmark st' (tap_stream_id s) (replication_key s)
    = VStr (isoformat export_start).
Proof.
  intros Hget Hwait Hfile Hrows st'. split.
  - unfold sync_activities_window.
    rewrite run_bind, Hget. rewrite run_bind. cbn [emit].
    rewrite run_bind, (wait_for_export_ok _ _ _ _ Hwait).
    rewrite run_bind.
    rewrite (stream_rows_ok "activites" export_id
               (mk_World (state w1) r2 (ticks w1)) headers lines r3 Hfile).
    cbn [state ticks]. rewrite run_bind, Hrows.
    rewrite run_bind, update_state_run. reflexivity.
  - apply get_bookmark_with_export_info, isoformat_nonempty.
Qed.

End ActivitiesFacts.

(** C2 on the code.  With 45 days of activities to fetch the run works on
    the windows 1 to 31 January and 31 January to 15 February; the bookmark
    written after each is the start of the window, so the run ends with the
    bookmark at 31 January, not at the end of its last window.  With one
    activity in the first export the run stops at that row with [KeyError],
    before any record or bookmark is written. *)
Lemma sync_activities_bookmark_is_window_start :
  let quiet := sync_activities (RT := Reference.runtime)
                 (EV := Scenario.env Scenario.quiet_activities) 5 Scenario.visits
                 (Scenario.start Scenario.quiet_activities
                    (Scenario.visits_state "2020-01-01T00:00:00+00:00")) in
  let busy := sync_activities (RT := Reference.runtime)
                (EV := Scenario.env Scenario.busy_activities) 5 Scenario.visits
                (Scenario.start Scenario.busy_activities
                   (Scenario.visits_state "2020-01-01T00:00:00+00:00")) in
  quiet.1.1 = Ok 0
  ∧ windows quiet.2 = [(Scenario.midnight 0, Scenario.midnight 30);
                       (Scenario.midnight 30, Scenario.midnight 45)]
  ∧ written "activities_visit_webpage" "activityDate" quiet.2
    = [VStr "2020-01-01T00:00:00+00:00"; VStr "2020-01-01T00:00:00+00:00";
       VStr "2020-01-01T00:00:00+00:00"; VStr "2020-01-31T00:00:00+00:00"]
  ∧ get_bookmark (state quiet.1.2) "activities_visit_webpage" "activityDate"
    = VStr "2020-01-31T00:00:00+00:00"
  ∧ Reference.ref_isoformat (Scenario.midnight 45) = "2020-02-15T00:00:00+00:00"
  ∧ busy.1.1 = Raise (KeyError "type")
  ∧ records busy.2 = []
  ∧ written "activities_visit_webpage" "activityDate" busy.2
    = [VStr "2020-01-01T00:00:00+00:00"].
Proof. vm_compute. repeat split. Qed.

(** ** Invariants of the bookmark store along a run *)

Section Preserves.
Context `{RT : Runtime} `{EV : Env}.
Variables (I : State → Prop) (E : event → Prop).

Lemma preserves_bind {A B} (m : M A) (f : A → M B) Φ Ψ :
  preserves I E m Φ → (∀ a, Φ a → preserves I E (f a) Ψ) →
  preserves I E (m ≫= f) Ψ.
Proof.
  intros Hm Hf w Hw. rewrite run_bind.
  destruct (Hm w Hw) as (Ht & HI & Hq).
  destruct (m w) as [[[a|e|] w1] t1]; cbn [fst snd] in *.
  - destruct (Hf a (Hq a eq_refl) w1 HI) as (Ht2 & HI2 & Hq2).
    destruct (f a w1) as [[o w2] t2]; cbn [fst snd] in *.
    split; [now apply Forall_app | auto].
  - split; [exact Ht |]. split; [exact HI | discriminate].
  - split; [exact Ht |]. split; [exact HI | discriminate].
Qed.

Lemma preserves_weaken {A} (m : M A) (Φ Ψ : A → Prop) :
  preserves I E m Φ → (∀ a, Φ a → Ψ a) → preserves I E m Ψ.
Proof.
  intros Hm H w Hw. destruct (Hm w Hw) as (Ht & HI & Hq).
  split; [exact Ht |]. split; [exact HI |]. intros a Ha. apply H, Hq, Ha.
Qed.

Lemma preserves_ret {A} (a : A) : preserves I E (mret a) (λ b, b = a).
Proof.
  intros w Hw. split; [constructor |]. split; [exact Hw |].
  intros b Hb. simpl in Hb. now injection Hb as <-.
Qed.

Lemma preserves_raise {A} (e : exn) (Φ : A → Prop) : preserves I E (raise e) Φ.
Proof. intros w Hw. split; [constructor |]. split; [exact Hw | discriminate]. Qed.

Lemma preserves_timeout {A} (Φ : A → Prop) : preserves I E timeout Φ.
Proof. intros w Hw. split; [constructor |]. split; [exact Hw | discriminate]. Qed.

Lemma preserves_lift {A} (r : result A) : preserves I E (lift r) (λ a, r = inr a).
Proof.
  destruct r as [e|a]; [apply preserves_raise |].
  intros w Hw. split; [constructor |]. split; [exact Hw |].
  intros b Hb. simpl in Hb. now injection Hb as <-.
Qed.

Lemma preserves_get_state : preserves I E get_state I.
Proof.
  intros w Hw. split; [constructor |]. split; [exact Hw |].
  intros st Hst. simpl in Hst. now injection Hst as <-.
Qed.

Lemma preserves_utcnow : preserves I E utcnow (λ _, True).
Proof. intros w Hw. split; [constructor |]. split; [exact Hw | auto]. Qed.

Lemma preserves_emit (ev : event) : E ev → preserves I E (emit ev) (λ _, True).
Proof.
  intros Hev w Hw. split; [repeat constructor; exact Hev |].
  split; [exact Hw | auto].
Qed.

Lemma preserves_client {A} c (f : remote → result A * remote) :
  E (Called c) → preserves I E (client c f) (λ _, True).
Proof.
  intros Hev w Hw. unfold client.
  destruct (f (remote_state w)) as [[e|a] rs]; cbn [fst snd state].
  - split; [repeat constructor; exact Hev |]. split; [exact Hw | discriminate].
  - split; [repeat constructor; exact Hev |]. split; [exact Hw | auto].
Qed.

Lemma preserves_update_state s bookmark export_id export_end :
  (∀ st, I st →
     let st' := with_export_info s bookmark export_id export_end st in
     I st' ∧ E (WriteState st')) →
  preserves I E (update_state_with_export_info s bookmark export_id export_end)
            (λ _, True).
Proof.
  intros H w Hw. destruct (H _ Hw) as [HI HE]. rewrite update_state_run.
  cbn [fst snd state].
  split; [repeat constructor; exact HE |]. split; [exact HI | auto].
Qed.

Lemma preserves_on_export_failed {A} (m : M A) handler Φ Ψ :
  preserves I E m Φ → preserves I E handler Ψ →
  preserves I E (on_export_failed m handler) Φ.
Proof.
  intros Hm Hh w Hw. unfold on_export_failed.
  destruct (Hm w Hw) as (Ht & HI & Hq).
  destruct (m w) as [[[a|e|] w1] t1]; cbn [fst snd] in *; auto.
  destruct e; auto.
  destruct (Hh w1 HI) as (Ht2 & HI2 & _).
  destruct (handler w1) as [[[[]|e|] w2] t2]; cbn [fst snd] in *;
    (split; [now apply Forall_app |]; split; [exact HI2 | discriminate]).
Qed.

Lemma preserves_modify_state (f : State → State) :
  (∀ st, I st → I (f st)) → preserves I E (modify_state f) (λ _, True).
Proof.
  intros H w Hw. split; [constructor |]. split; [now apply H | auto].
Qed.

Lemma preserves_write_state :
  (∀ st, I st → E (WriteState st)) → preserves I E write_state (λ _, True).
Proof.
  intros H w Hw. split; [repeat constructor; now apply H |].
  split; [exact Hw | auto].
Qed.

Lemma preserves_if {A} (b : bool) (m1 m2 : M A) Φ :
  preserves I E m1 Φ → preserves I E m2 Φ →
  preserves I E (if b then m1 else m2) Φ.
Proof. now destruct b. Qed.

End Preserves.

(** Steps through a [preserves] goal; a step that meets a bind leaves the
    first computation to be dealt with first. *)
Ltac preserves_step :=
  lazymatch goal with
  | |- preserves _ _ (_ ≫= _) _ => eapply preserves_bind; [| intros ? ?]
  | |- preserves _ _ (mret _) _ =>
      eapply preserves_weaken; [apply preserves_ret | intros ? ->]
  | |- preserves _ _ (raise _) _ => apply preserves_raise
  | |- preserves _ _ timeout _ => apply preserves_timeout
  | |- preserves _ _ (lift _) _ => apply preserves_lift
  | |- preserves _ _ get_state _ => apply preserves_get_state
  | |- preserves _ _ utcnow _ => apply preserves_utcnow
  | |- preserves _ _ (emit _) _ => apply preserves_emit
  | |- preserves _ _ (client _ _) _ => apply preserves_client
  | |- preserves _ _ (modify_state _) _ => apply preserves_modify_state
  | |- preserves _ _ write_state _ => apply preserves_write_state
  | |- preserves _ _ (if _ then _ else _) _ => apply preserves_if
  | |- preserves _ _ (let '(_, _) := ?x in _) _ => destruct x
  | |- preserves _ _ (let _ := _ in _) _ => cbv zeta
  end.

Ltac preserves_auto := repeat (cbv zeta; preserves_step).

Section EngineInvariant.
Context `{RT : Runtime} `{EV : Env}.
Variables (s : stream) (I : State → Prop) (E : event → Prop).
Variables (initial_bookmark : datetime) (Good : datetime → Prop).

Hypothesis E_other : ∀ ev, not_state_write ev → E ev.
Hypothesis H_create : ∀ st export_id export_end, I st →
  let st' := with_export_info s VNone (VStr export_id) (VStr export_end) st in
  I st' ∧ E (WriteState st').
Hypothesis H_clear : ∀ st, I st →
  let st' := with_export_info s VNone VNone VNone st in
  I st' ∧ E (WriteState st').
Hypothesis H_done : ∀ st b, I st → Good b →
  let st' := with_export_info s (VStr (isoformat b)) VNone VNone st in
  I st' ∧ E (WriteState st').
Hypothesis H_rows : ∀ export_end rows max_bookmark record_count,
  Good max_bookmark →
  returns (sync_leads_rows s initial_bookmark export_end rows
                           max_bookmark record_count) (λ x, Good x.1).

Ltac side := first [exact Logic.I | apply E_other; exact Logic.I | assumption | idtac].

Lemma preserves_returns {A} (m : M A) (Φ Ψ : A → Prop) :
  preserves I E m Φ → returns m Ψ → preserves I E m Ψ.
Proof.
  intros Hm Hr w Hw. destruct (Hm w Hw) as (Ht & HI & _).
  split; [exact Ht |]. split; [exact HI |]. intros a Ha. exact (Hr w a Ha).
Qed.

Lemma preserves_get_export_end export_start :
  preserves I E (get_export_end export_start) (λ _, True).
Proof. unfold get_export_end. preserves_auto; side. Qed.

Lemma preserves_update_create export_id export_end :
  preserves I E
    (update_state_with_export_info s VNone (VStr export_id) (VStr export_end))
    (λ _, True).
Proof.
  apply preserves_update_state. intros st Hst. now apply H_create.
Qed.

Lemma preserves_update_clear :
  preserves I E (update_state_with_export_info s VNone VNone VNone) (λ _, True).
Proof.
  apply preserves_update_state. intros st Hst. now apply H_clear.
Qed.

Lemma preserves_update_done b :
  Good b →
  preserves I E
    (update_state_with_export_info s (VStr (isoformat b)) VNone VNone)
    (λ _, True).
Proof.
  intros Hb. apply preserves_update_state. intros st Hst. now apply H_done.
Qed.

Lemma preserves_get_or_create_leads export_start :
  preserves I E (get_or_create_export_for_leads s export_start) (λ _, True).
Proof.
  unfold get_or_create_export_for_leads. preserves_auto; side.
  - apply preserves_get_export_end.
  - apply preserves_update_create.
Qed.

Lemma preserves_get_or_create_activities export_start :
  preserves I E (get_or_create_export_for_activities s export_start) (λ _, True).
Proof.
  unfold get_or_create_export_for_activities. preserves_auto; side.
  - apply preserves_get_export_end.
  - apply preserves_update_create.
Qed.

Lemma preserves_wait_for_export export_id :
  preserves I E (wait_for_export s export_id) (λ _, True).
Proof.
  unfold wait_for_export. cbv zeta.
  eapply preserves_on_export_failed.
  - preserves_step. side.
  - apply preserves_update_clear.
Qed.

Lemma preserves_stream_rows stream_type export_id :
  preserves I E (stream_rows stream_type export_id) (λ _, True).
Proof. unfold stream_rows. preserves_auto; side. Qed.

Lemma preserves_sync_leads_rows export_end rows :
  ∀ max_bookmark record_count,
    Good max_bookmark →
    preserves I E
      (sync_leads_rows s initial_bookmark export_end rows max_bookmark record_count)
      (λ x, Good x.1).
Proof.
  intros mb c Hmb.
  apply (preserves_returns _ (λ _, True)); [| now apply H_rows].
  clear Hmb. revert mb c.
  induction rows as [|row rows' IH]; intros mb c; cbn [sync_leads_rows].
  - preserves_auto; side.
  - preserves_auto; side; apply IH.
Qed.

Lemma preserves_sync_leads_window export_start max_bookmark record_count :
  Good max_bookmark →
  preserves I E
    (sync_leads_window s initial_bookmark export_start max_bookmark record_count)
    (λ x, Good x.1.2).
Proof.
  intros Hmb. unfold sync_leads_window. preserves_auto; side.
  - apply preserves_get_or_create_leads.
  - apply preserves_wait_for_export.
  - apply preserves_stream_rows.
  - now apply preserves_sync_leads_rows.
  - apply preserves_update_done. assumption.
  - assumption.
Qed.

Lemma preserves_sync_leads_loop fuel job_started :
  ∀ export_start max_bookmark record_count,
    Good max_bookmark →
    preserves I E
      (sync_leads_loop fuel s initial_bookmark job_started export_start
                       max_bookmark record_count)
      (λ _, True).
Proof.
  induction fuel as [|fuel IH]; intros export_start mb c Hmb;
    cbn [sync_leads_loop]; preserves_auto; side.
  - now apply preserves_sync_leads_window.
  - now apply IH.
Qed.

Lemma sync_leads_invariant fuel (w : World) :
  I (state w) →
  pendulum_parse (get_bookmark (state w) "leads" (replication_key s))
    = inr initial_bookmark →
  Good initial_bookmark →
  Forall E (sync_leads fuel s w).2 ∧ I (state (sync_leads fuel s w).1.2).
Proof.
  intros Hw Hb Hgood. rewrite (sync_leads_run fuel s w _ Hb). cbv zeta.
  cbn [fst snd].
  match goal with
  | |- context [sync_leads_loop fuel s _ ?j ?st _ 0 ?w'] =>
      destruct (preserves_sync_leads_loop fuel j st initial_bookmark 0 Hgood w' Hw)
        as (Ht & HI & _)
  end.
  split; [| exact HI]. constructor; [apply E_other; exact Logic.I | exact Ht].
Qed.

Lemma preserves_sync_activities_rows rows :
  ∀ record_count,
    preserves I E (sync_activities_rows s rows record_count) (λ _, True).
Proof.
  induction rows as [|row rows' IH]; intros c; cbn [sync_activities_rows].
  - preserves_auto; side.
  - preserves_auto; side; apply IH.
Qed.

Lemma preserves_sync_activities_window export_start record_count :
  Good export_start →
  preserves I E (sync_activities_window s export_start record_count) (λ _, True).
Proof.
  intros Hgood. unfold sync_activities_window. preserves_auto; side.
  - apply preserves_get_or_create_activities.
  - apply preserves_wait_for_export.
  - apply preserves_stream_rows.
  - apply preserves_sync_activities_rows.
  - now apply preserves_update_done.
Qed.

Lemma preserves_sync_activities_loop fuel job_started :
  (∀ b, Good b) →
  ∀ export_start record_count,
    preserves I E
      (sync_activities_loop fuel s job_started export_start record_count)
      (λ _, True).
Proof.
  intros Hgood. induction fuel as [|fuel IH]; intros export_start c;
    cbn [sync_activities_loop]; preserves_auto; side.
  - now apply preserves_sync_activities_window.
  - apply IH.
Qed.

Lemma preserves_sync_activities fuel :
  (∀ b, Good b) →
  preserves I E (sync_activities fuel s) (λ _, True).
Proof.
  intros Hgood. unfold sync_activities. preserves_auto; side.
  now apply preserves_sync_activities_loop.
Qed.

End EngineInvariant.


(** ** Leads without Corona: the cursor *)

Section LeadsCursor.
Context `{RT : Runtime} `{EV : Env}.

Lemma written_Forall (name key : string) (P : pyval → Prop) (t : list event) :
  Forall (λ ev, match ev with
                | WriteState st => P (get_bookmark st name key)
                | _ => True
                end) t →
  Forall P (written name key t).
Proof.
  induction 1 as [|ev t Hev _ IH]; [constructor |].
  destruct ev; cbn; try exact IH. now constructor.
Qed.

Lemma sync_leads_rows_mark_ge (s : stream) (initial_bookmark export_end : datetime)
    (rows : list pydict) :
  use_corona = false →
  ∀ max_bookmark record_count,
    instant initial_bookmark ≤ instant max_bookmark →
    returns (sync_leads_rows s initial_bookmark export_end rows
                             max_bookmark record_count)
            (λ x, instant initial_bookmark ≤ instant x.1).
Proof.
  intros Hc. induction rows as [|row rows IH]; intros mb c Hmb;
    cbn [sync_leads_rows].
  - now apply returns_ret.
  - apply returns_bind. intros [record ts]. rewrite Hc.
    destruct (dt_ge ts initial_bookmark).
    + apply returns_bind. intros _. apply IH. rewrite dt_max_instant. lia.
    + now apply IH.
Qed.

Lemma get_bookmark_export_info_frame (s : stream) (export_id export_end : pyval)
    (st : State) :
  replication_key s ≠ "export_id" → replication_key s ≠ "export_end" →
  get_bookmark (with_export_info s VNone export_id export_end st)
    (tap_stream_id s) (replication_key s)
  = get_bookmark st (tap_stream_id s) (replication_key s).
Proof.
  intros H1 H2. unfold with_export_info. cbn [truthy].
  rewrite !get_write_bookmark_ne; auto.
Qed.

Lemma leads_nothing_emitted (initial_bookmark export_end max_bookmark : datetime)
    (recs : list (pydict * datetime)) :
  use_corona = false →
  Forall (λ r, instant r.2 < instant initial_bookmark) recs →
  leads_emitted initial_bookmark recs = []
  ∧ leads_mark initial_bookmark export_end max_bookmark recs = max_bookmark.
Proof.
  intros Hc Hall. unfold leads_mark, leads_emitted. rewrite Hc.
  assert (Hnil : filter (λ r : pydict * datetime,
                           Is_true (dt_ge r.2 initial_bookmark)) recs = []).
  { induction Hall as [|r recs Hr _ IH]; [reflexivity |].
    rewrite filter_cons, decide_False; [exact IH |].
    unfold dt_ge. intros H%Is_true_true%Z.leb_le. lia. }
  rewrite Hnil. split; reflexivity.
Qed.

End LeadsCursor.

(** ** Leads: runs over the exports the server serves *)

Section LeadsServed.
Context `{RT : Runtime} `{EV : Env}.

Lemma records_of_leads (l : list (pydict * datetime)) :
  records (map (λ r : pydict * datetime, WriteRecord "leads" (VDict r.1)) l)
  = map (λ r : pydict * datetime, ("leads", VDict r.1)) l.
Proof. induction l as [|r l IH]; [reflexivity |]. cbn. now f_equal. Qed.

Lemma written_of_leads (name key : string) (l : list (pydict * datetime)) :
  written name key
    (map (λ r : pydict * datetime, WriteRecord "leads" (VDict r.1)) l) = [].
Proof. induction l as [|r l IH]; [reflexivity | exact IH]. Qed.

Lemma windows_of_leads (l : list (pydict * datetime)) :
  windows (map (λ r : pydict * datetime, WriteRecord "leads" (VDict r.1)) l)
  = [].
Proof. induction l as [|r l IH]; [reflexivity | exact IH]. Qed.

Lemma records_concat (t1 t2 : list event) :
  records (t1 ++ t2) = records t1 ++ records t2.
Proof. apply omap_app. Qed.

Lemma written_concat (name key : string) (t1 t2 : list event) :
  written name key (t1 ++ t2) = written name key t1 ++ written name key t2.
Proof. apply omap_app. Qed.

Lemma get_or_create_leads_new_run (s : stream) (export_start : datetime)
    (w : World) (available : bool) (rs rs' : remote) (new_id : string) :
  let persisted := get_bookmark (state w) "leads" "export_id" in
  let export_end :=
    export_end_at export_start (clock (ticks w)) (clock (S (ticks w))) in
  let query : pydict :=
    {[ (if use_corona then "updatedAt" else "createdAt")
       := date_range export_start export_end ]} in
  let st' := with_export_info s VNone (VStr new_id)
               (VStr (isoformat export_end)) (state w) in
  export_available "leads" persisted (remote_state w) = (inr available, rs) →
  available = false ∨ persisted = VNone →
  create_export "leads" (wanted_fields s) query rs = (inr new_id, rs') →
  get_or_create_export_for_leads s export_start w =
    (Ok (VStr new_id, export_end),
     mk_World st' rs'
       (if instant export_start + MAX_EXPORT_DAYS * MICROS_PER_DAY
           <? clock (ticks w)
        then S (ticks w) else S (S (ticks w))),
     [Called (CallExportAvailable "leads" persisted);
      Called (CallCreateExport "leads" (wanted_fields s) query);
      WriteState st']).
Proof.
  intros persisted export_end query st' Havail Hnew Hcreate.
  unfold get_or_create_export_for_leads.
  rewrite run_bind. cbn [get_state]. rewrite run_bind.
  fold persisted. unfold client at 1. rewrite Havail. cbn [remote_state].
  assert (Hnone : is_none (if negb available then VNone else persisted) = true).
  { destruct Hnew as [-> | ->]; [reflexivity | now destruct available]. }
  rewrite Hnone. rewrite run_bind, get_export_end_run.
  cbn [state remote_state ticks]. fold export_end. rewrite run_bind. fold query.
  unfold client. cbn [state remote_state ticks]. rewrite Hcreate.
  rewrite run_bind, update_state_run. reflexivity.
Qed.

Lemma sync_leads_loop_served (s : stream) (b job_started : datetime) :
  tap_stream_id s = "leads" →
  replication_key s ≠ "export_id" →
  replication_key s ≠ "export_end" →
  ∀ served persisted rs n export_start,
    exports_served s job_started persisted rs n export_start served →
    ∀ fuel st mark c,
      (length served ≤ fuel)%nat →
      get_bookmark st "leads" "export_id" = persisted →
      let r := sync_leads_loop fuel s b job_started export_start mark c
                 (mk_World st rs n) in
      let cursor := get_bookmark st "leads" (replication_key s) in
      r.1.1 = Ok (c + Z.of_nat (length (served_records b served)))
      ∧ windows r.2 = served_windows export_start served
      ∧ records r.2 = served_records b served
      ∧ written "leads" (replication_key s) r.2
        = cursors_written cursor (leads_marks b mark served)
      ∧ get_bookmark (state r.1.2) "leads" (replication_key s)
        = default cursor (last (cursors_written cursor
                                  (leads_marks b mark served))).
Proof.
  intros Htap Hk1 Hk2 served persisted rs n export_start Hserved.
  induction Hserved as [persisted rs n export_start Hdone
                       |persisted rs n export_start available rs1 new_id rs2
                          rs3 rs4 headers lines recs rest Hlt Havail Hnew
                          Hcreate Hwait Hfile Hrecs Hrest IH];
    intros fuel st mark c Hfuel Hpers.
  - assert (Hge : dt_lt export_start job_started = false)
      by (unfold dt_lt; now apply Z.ltb_ge).
    destruct fuel; cbn [sync_leads_loop]; rewrite Hge; cbn;
      rewrite Z.add_0_r; repeat split; reflexivity.
  - destruct fuel as [|fuel]; [cbn in Hfuel; lia |].
    cbn [length] in Hfuel.
    assert (Hlt' : dt_lt export_start job_started = true)
      by (unfold dt_lt; now apply Z.ltb_lt).
    cbn [sync_leads_loop]. rewrite Hlt'. cbv zeta.
    set (export_end := export_end_at export_start (clock n) (clock (S n))) in *.
    set (n' := if instant export_start + MAX_EXPORT_DAYS * MICROS_PER_DAY
                  <? clock n then S n else S (S n)) in *.
    set (st1 := with_export_info s VNone (VStr new_id)
                  (VStr (isoformat export_end)) st).
    assert (Hget : get_or_create_export_for_leads s export_start
                     (mk_World st rs n)
                   = (Ok (VStr new_id, export_end), mk_World st1 rs2 n',
                      [Called (CallExportAvailable "leads" persisted);
                       Called (CallCreateExport "leads" (wanted_fields s)
                                 {[ (if use_corona then "updatedAt"
                                     else "createdAt")
                                    := date_range export_start export_end ]});
                       WriteState st1])).
    { rewrite <- Hpers in *.
      apply (get_or_create_leads_new_run s export_start (mk_World st rs n)
               available rs1 rs2 new_id Havail Hnew Hcreate). }
    rewrite run_bind.
    rewrite (sync_leads_window_run s b export_start mark c _ _ _ _ _ rs3 rs4
               headers lines recs Hget Hwait Hfile Hrecs).
    cbv zeta. cbn [state ticks].
    set (mark' := leads_mark b export_end mark recs).
    set (st' := with_export_info s (VStr (isoformat mark')) VNone VNone st1).
    assert (Hcur1 : get_bookmark st1 "leads" (replication_key s)
                    = get_bookmark st "leads" (replication_key s)).
    { subst st1. unfold with_export_info. cbn [truthy]. rewrite Htap.
      rewrite !get_write_bookmark_ne; auto. }
    assert (Hcur' : get_bookmark st' "leads" (replication_key s)
                    = VStr (isoformat mark')).
    { subst st'. rewrite <- Htap at 1.
      apply get_bookmark_with_export_info, isoformat_nonempty. }
    assert (Hid' : get_bookmark st' "leads" "export_id" = VNone).
    { subst st'. unfold with_export_info. cbn [truthy].
      destruct (negb _); rewrite Htap.
      - rewrite !get_write_bookmark_ne by (right; congruence).
        apply get_write_bookmark_eq.
      - rewrite !get_write_bookmark_ne by (right; congruence).
        apply get_write_bookmark_eq. }
    specialize (IH fuel st' mark'
                  (c + Z.of_nat (length (leads_emitted b recs)))
                  ltac:(lia) Hid').
    cbv zeta in IH. rewrite Hcur' in IH.
    destruct IH as (IHok & IHwin & IHrec & IHwr & IHlast).
    destruct (sync_leads_loop fuel s b job_started export_end mark' _ _)
      as [[o w2] t2]. cbn [fst snd] in *.
    cbn [served_windows leads_marks cursors_written]. fold mark'.
    unfold served_records in *. cbn [flat_map snd].
    split; [| split; [| split; [| split]]].
    + rewrite IHok, length_app, length_map. f_equal. lia.
    + rewrite !windows_app.
      change (windows [Called ?x; Called ?y; WriteState ?z])
        with (@nil (datetime * datetime)).
      cbn [app]. rewrite windows_cons.
      change (windows (Called ?x :: Called ?y :: ?t)) with (windows t).
      rewrite windows_app, windows_of_leads.
      change (windows [WriteState ?z]) with (@nil (datetime * datetime)).
      cbn [app]. now f_equal.
    + rewrite !records_concat.
      change (records [Called ?x; Called ?y; WriteState ?z])
        with (@nil (string * pyval)).
      change (records (Window ?u ?v :: Called ?x :: Called ?y :: ?t))
        with (records t).
      rewrite records_concat, records_of_leads.
      change (records [WriteState ?z]) with (@nil (string * pyval)).
      cbn [app]. rewrite app_nil_r. now f_equal.
    + rewrite !written_concat.
      change (written ?n ?k [Called ?x; Called ?y; WriteState ?z])
        with [get_bookmark z n k].
      change (written ?n ?k (Window ?u ?v :: Called ?x :: Called ?y :: ?t))
        with (written n k t).
      rewrite written_concat, written_of_leads.
      change (written ?n ?k [WriteState ?z]) with [get_bookmark z n k].
      cbn [app]. rewrite Hcur1, Hcur'. now do 2 f_equal.
    + rewrite IHlast.
      destruct (cursors_written (VStr (isoformat mark'))
                  (leads_marks b mark' rest)) as [|v l]; [reflexivity |].
      change (last (?x :: ?y :: v :: l)) with (last (v :: l)).
      destruct (proj2 (last_is_Some (v :: l)) ltac:(discriminate)) as [z ->].
      reflexivity.
Qed.

End LeadsServed.

(** ** Leads without Corona: the cursor along a run *)

Section LeadsAscending.
Context `{RT : Runtime} `{EV : Env}.
Variables (s : stream) (c0 : pyval).
Hypothesis Hc : use_corona = false.
Hypothesis Hk1 : replication_key s ≠ "export_id".
Hypothesis Hk2 : replication_key s ≠ "export_end".

Lemma written_constant (t : list event) :
  Forall (state_writes
            (λ st, get_bookmark st (tap_stream_id s) (replication_key s) = c0))
         t →
  written (tap_stream_id s) (replication_key s) t
  = replicate (length (written (tap_stream_id s) (replication_key s) t)) c0.
Proof.
  induction 1 as [|ev t Hev _ IH]; [reflexivity |].
  destruct ev; cbn in *; try exact IH. now f_equal.
Qed.

Lemma sync_leads_rows_mark_grows (initial_bookmark export_end : datetime)
    (rows : list pydict) (lower : datetime) :
  ∀ max_bookmark record_count,
    instant lower ≤ instant max_bookmark →
    returns (sync_leads_rows s initial_bookmark export_end rows
                             max_bookmark record_count)
            (λ x, instant lower ≤ instant x.1).
Proof.
  induction rows as [|row rows IH]; intros mb c Hmb; cbn [sync_leads_rows].
  - now apply returns_ret.
  - apply returns_bind. intros [record ts]. rewrite Hc.
    destruct (dt_ge ts initial_bookmark).
    + apply returns_bind. intros _. apply IH. rewrite dt_max_instant. lia.
    + now apply IH.
Qed.

Lemma window_cursors_bind {A B} (max_bookmark : datetime) (mark : B → datetime)
    (m : M A) (f : A → M B) (Φ : A → Prop) (w : World) :
  preserves
    (λ st, get_bookmark st (tap_stream_id s) (replication_key s) = c0)
    (state_writes
       (λ st, get_bookmark st (tap_stream_id s) (replication_key s) = c0))
    m Φ →
  get_bookmark (state w) (tap_stream_id s) (replication_key s) = c0 →
  (∀ a w1, Φ a →
     get_bookmark (state w1) (tap_stream_id s) (replication_key s) = c0 →
     window_cursors s c0 max_bookmark mark (f a w1)) →
  window_cursors s c0 max_bookmark mark ((m ≫= f) w).
Proof.
  intros Hm Hw Hf. destruct (Hm w Hw) as (Ht & HI & HΦ). rewrite run_bind.
  pose proof (written_constant _ Ht) as Hconst.
  destruct (m w) as [[[a|e|] w1] t1]; cbn [fst snd] in *.
  - specialize (Hf a w1 (HΦ a eq_refl) HI).
    destruct (f a w1) as [[o w2] t2].
    destruct Hf as [k [(Hw2 & Hs2 & Hno)|(x & Hok & Hge & Hw2 & Hs2)]];
      cbn [fst snd] in *;
      exists (length (written (tap_stream_id s) (replication_key s) t1) + k)%nat;
      [left | right; exists x]; cbn [fst snd];
      rewrite written_concat, Hconst, Hw2, length_replicate, replicate_add.
    + now split.
    + rewrite <- app_assoc. now repeat split.
  - eexists. left. cbn [fst snd]. split; [exact Hconst |].
    split; [exact HI | discriminate].
  - eexists. left. cbn [fst snd]. split; [exact Hconst |].
    split; [exact HI | discriminate].
Qed.

Lemma cursor_frame (export_id export_end : pyval) (st : State) :
  get_bookmark st (tap_stream_id s) (replication_key s) = c0 →
  let st' := with_export_info s VNone export_id export_end st in
  get_bookmark st' (tap_stream_id s) (replication_key s) = c0
  ∧ state_writes
      (λ st, get_bookmark st (tap_stream_id s) (replication_key s) = c0)
      (WriteState st').
Proof.
  intros Hst. cbv zeta. cbn [state_writes].
  rewrite get_bookmark_export_info_frame by assumption. now split.
Qed.

Lemma sync_leads_window_cursors
    (initial_bookmark export_start max_bookmark : datetime) (record_count : Z)
    (w : World) :
  get_bookmark (state w) (tap_stream_id s) (replication_key s) = c0 →
  window_cursors s c0 max_bookmark (λ x : datetime * datetime * Z, x.1.2)
    (sync_leads_window s initial_bookmark export_start max_bookmark
                       record_count w).
Proof.
  intros Hw. unfold sync_leads_window.
  assert (E_other : ∀ ev, not_state_write ev →
            state_writes
              (λ st, get_bookmark st (tap_stream_id s) (replication_key s) = c0)
              ev)
    by (intros []; cbn; auto; intros []).
  eapply window_cursors_bind;
    [ apply preserves_get_or_create_leads;
        [exact E_other | intros st i e Hst; now apply cursor_frame]
    | exact Hw | intros [export_id export_end] w1 _ H1 ].
  eapply window_cursors_bind;
    [apply preserves_emit; exact Logic.I | exact H1 | intros _ w2 _ H2].
  eapply window_cursors_bind;
    [ apply preserves_wait_for_export;
        [exact E_other | intros st Hst; now apply cursor_frame]
    | exact H2 | intros _ w3 _ H3 ].
  eapply window_cursors_bind;
    [apply preserves_stream_rows; exact E_other | exact H3
    | intros rows w4 _ H4].
  eapply window_cursors_bind;
    [ apply (preserves_sync_leads_rows s _ _ initial_bookmark
               (λ m, instant max_bookmark ≤ instant m));
        [ exact E_other
        | intros e rs mb c Hmb; now apply sync_leads_rows_mark_grows
        | cbn; lia ]
    | exact H4 | intros [mark' c'] w5 Hmark H5 ].
  cbn [fst] in Hmark.
  rewrite run_bind, update_state_run. cbv zeta.
  exists 0%nat. right. exists (export_end, mark', c').
  unfold mret, M_ret, ret.
  cbn [fst snd replicate app state].
  split; [reflexivity |]. split; [exact Hmark |].
  unfold written. cbn [omap list_omap app state].
  rewrite get_bookmark_with_export_info by apply isoformat_nonempty.
  split; reflexivity.
Qed.

End LeadsAscending.

Section LeadsAscendingRun.
Context `{RT : Runtime} `{EV : Env}.

Lemma ascending_constant (original : pyval) (b tc : datetime) (c0 : pyval)
    (k : nat) (rest : list pyval) :
  cursor_at original b c0 tc →
  ascending original b tc rest →
  ascending original b tc (replicate k c0 ++ rest).
Proof.
  intros Hat Hrest. induction k as [|k IH]; [exact Hrest |].
  cbn [replicate app ascending]. exists tc. split; [exact Hat |].
  split; [lia | exact IH].
Qed.

Lemma sync_leads_loop_ascending (s : stream) (original : pyval)
    (b job_started : datetime) :
  use_corona = false →
  replication_key s ≠ "export_id" →
  replication_key s ≠ "export_end" →
  ∀ fuel export_start max_bookmark record_count w tc,
    cursor_at original b
      (get_bookmark (state w) (tap_stream_id s) (replication_key s)) tc →
    instant tc ≤ instant max_bookmark →
    instant b ≤ instant max_bookmark →
    ascending original b tc
      (written (tap_stream_id s) (replication_key s)
         (sync_leads_loop fuel s b job_started export_start max_bookmark
            record_count w).2).
Proof.
  intros Hc Hk1 Hk2.
  induction fuel as [|fuel IH]; intros export_start mb c w tc Hat Htc Hb;
    cbn [sync_leads_loop]; destruct (dt_lt export_start job_started);
    try exact Logic.I.
  rewrite run_bind.
  pose proof (sync_leads_window_cursors s _ Hc Hk1 Hk2 b export_start mb c w
                eq_refl) as Hwin.
  destruct (sync_leads_window s b export_start mb c w) as [[o w1] t1].
  destruct Hwin as [k [(Hw1 & Hs1 & Hno)|(x & Hok & Hge & Hw1 & Hs1)]];
    cbn [fst snd] in *.
  - destruct o as [x|e|]; [now destruct (Hno x) | |]; cbn [snd];
      rewrite Hw1, <- (app_nil_r (replicate k _));
      now apply ascending_constant.
  - subst o. destruct x as [[export_end mark'] c']. cbn [fst snd] in *.
    specialize (IH export_end mark' c' w1 mark').
    destruct (sync_leads_loop fuel s b job_started export_end mark' c' w1)
      as [[o2 w2] t2]. cbn [snd] in *.
    rewrite written_concat, Hw1, <- app_assoc.
    apply ascending_constant; [exact Hat |].
    cbn [app ascending]. exists mark'. split; [right; split; [reflexivity | lia] |].
    split; [lia |]. apply IH; [| lia | lia].
    rewrite Hs1. right. split; [reflexivity | lia].
Qed.

End LeadsAscendingRun.

(** ** Leads: the marks of a run *)

Section LeadsMarks.
Context `{RT : Runtime} `{EV : Env}.

Lemma leads_marks_length (b : datetime)
    (served : list (datetime * list (pydict * datetime))) :
  ∀ mark, length (leads_marks b mark served) = length served.
Proof.
  induction served as [|[e recs] rest IH]; intros mark; [reflexivity |].
  cbn [leads_marks length]. now rewrite IH.
Qed.

Lemma leads_marks_lookup (b : datetime)
    (served : list (datetime * list (pydict * datetime))) :
  ∀ mark i e recs,
    served !! i = Some (e, recs) →
    leads_marks b mark served !! i
    = Some (leads_mark b e
              match i with
              | O => mark
              | S j => default mark (leads_marks b mark served !! j)
              end recs).
Proof.
  induction served as [|[e0 recs0] rest IH]; intros mark i e recs Hi;
    [discriminate |].
  destruct i as [|i]; cbn [leads_marks] in *.
  - now injection Hi as -> ->.
  - change (rest !! i = Some (e, recs)) in Hi.
    set (mark' := leads_mark b e0 mark recs0).
    change ((mark' :: leads_marks b mark' rest) !! S i)
      with (leads_marks b mark' rest !! i).
    rewrite (IH mark' i e recs Hi). do 2 f_equal.
    destruct i as [|j]; [reflexivity |].
    change ((mark' :: leads_marks b mark' rest) !! S j)
      with (leads_marks b mark' rest !! j).
    assert (Hj : is_Some (leads_marks b mark' rest !! j)).
    { apply lookup_lt_is_Some. rewrite leads_marks_length.
      apply lookup_lt_Some in Hi. lia. }
    destruct Hj as [m ->]. reflexivity.
Qed.

Lemma leads_emitted_filter (b : datetime) (recs : list (pydict * datetime)) :
  use_corona = false →
  leads_emitted b recs = filter (λ r, instant b ≤ instant r.2) recs.
Proof.
  intros Hc. unfold leads_emitted. rewrite Hc.
  apply list_filter_iff. intros r. unfold dt_ge.
  rewrite Is_true_true. apply Z.leb_le.
Qed.

Lemma leads_mark_instant (b e mark : datetime)
    (recs : list (pydict * datetime)) :
  use_corona = false →
  instant (leads_mark b e mark recs)
  = foldl Z.max (instant mark)
      (instant <$> (filter (λ r, instant b ≤ instant r.2) recs).*2).
Proof.
  intros Hc. unfold leads_mark. rewrite Hc, (leads_emitted_filter _ _ Hc).
  apply foldl_dt_max_instant.
Qed.

Lemma foldl_max_ge (l : list Z) : ∀ a, a ≤ foldl Z.max a l.
Proof.
  induction l as [|z l IH]; intros a; cbn [foldl]; [lia |].
  specialize (IH (Z.max a z)). lia.
Qed.

Lemma leads_mark_grows (b e mark : datetime) (recs : list (pydict * datetime)) :
  use_corona = false →
  instant mark ≤ instant (leads_mark b e mark recs).
Proof. intros Hc. rewrite (leads_mark_instant _ _ _ _ Hc). apply foldl_max_ge. Qed.

Lemma leads_marks_instant (b : datetime)
    (served : list (datetime * list (pydict * datetime))) :
  use_corona = false →
  ∀ mark i m,
    leads_marks b mark served !! i = Some m →
    instant m
    = foldl Z.max (instant mark)
        (instant <$> (filter (λ r, instant b ≤ instant r.2)
                        (flat_map snd (take (S i) served))).*2).
Proof.
  intros Hc. induction served as [|[e recs] rest IH]; intros mark i m Hm;
    [discriminate |].
  cbn [leads_marks] in Hm. cbn [take flat_map snd].
  rewrite filter_app, !fmap_app, foldl_app,
    <- (leads_mark_instant b e mark recs Hc).
  destruct i as [|i].
  - injection Hm as <-. now rewrite take_0.
  - apply (IH _ i m Hm).
Qed.

Lemma served_records_all (b : datetime)
    (served : list (datetime * list (pydict * datetime))) :
  use_corona = true →
  served_records b served
  = flat_map (λ d, map (λ r : pydict * datetime, ("leads", VDict r.1)) d.2)
             served.
Proof.
  intros Hc. unfold served_records, leads_emitted. now rewrite Hc.
Qed.

Lemma served_records_filter (b : datetime)
    (served : list (datetime * list (pydict * datetime))) :
  use_corona = false →
  served_records b served
  = flat_map (λ d, map (λ r : pydict * datetime, ("leads", VDict r.1))
                     (filter (λ r, instant b ≤ instant r.2) d.2))
             served.
Proof.
  intros Hc. unfold served_records.
  induction served as [|d rest IH]; [reflexivity |].
  cbn [flat_map]. now rewrite IH, (leads_emitted_filter _ _ Hc).
Qed.

Lemma sync_leads_served (s : stream) (fuel : nat) (w : World) (b : datetime)
    (served : list (datetime * list (pydict * datetime))) :
  tap_stream_id s = "leads" →
  replication_key s ≠ "export_id" →
  replication_key s ≠ "export_end" →
  pendulum_parse (get_bookmark (state w) "leads" (replication_key s)) = inr b →
  exports_served s (mk_datetime (clock (ticks w)) 0)
    (get_bookmark (state w) "leads" "export_id") (remote_state w)
    (S (ticks w))
    (if use_corona then dt_subtract_days b ATTRIBUTION_WINDOW_DAYS else b)
    served →
  (length served ≤ fuel)%nat →
  let r := sync_leads fuel s w in
  let cursor := get_bookmark (state w) "leads" (replication_key s) in
  r.1.1 = Ok (Z.of_nat (length (served_records b served)))
  ∧ windows r.2
    = served_windows
        (if use_corona then dt_subtract_days b ATTRIBUTION_WINDOW_DAYS else b)
        served
  ∧ records r.2 = served_records b served
  ∧ written "leads" (replication_key s) r.2
    = cursors_written cursor (leads_marks b b served)
  ∧ get_bookmark (state r.1.2) "leads" (replication_key s)
    = default cursor (last (cursors_written cursor (leads_marks b b served))).
Proof.
  intros Htap Hk1 Hk2 Hb Hserved Hfuel. cbv zeta.
  rewrite (sync_leads_run fuel s w b Hb). cbv zeta. cbn [fst snd].
  exact (sync_leads_loop_served s b _ Htap Hk1 Hk2 served _ _ _ _ Hserved
           fuel (state w) b 0 Hfuel eq_refl).
Qed.

End LeadsMarks.

Section LeadsRunClaims.
Context `{RT : Runtime} `{EV : Env}.

(** C1, amended.  In the leads sync the first window starts one day before
    the bookmark read at run start with Corona and at that bookmark
    without, and each later window starts where the one before it ended.
    In a run whose windows are all served (each export created, awaited
    and downloaded, each row with a readable [updatedAt]) the records
    written and the bookmark written after each window are these.  With
    Corona every row of every window is written, and the bookmark written
    after a window is the window end when the window had at least one row
    and otherwise the mark as it was, which is the bookmark read at run
    start before the first window.  Without Corona a row, of whichever
    window, is written exactly when its [updatedAt] is at or after the
    bookmark read at run start, and the bookmark written after a window is
    the greatest of that bookmark and the timestamps of the rows written
    in the run so far. *)
Theorem sync_leads_bookmark_rule (s : stream) (fuel : nat) (w : World)
    (b : datetime) :
  pendulum_parse (get_bookmark (state w) "leads" (replication_key s)) = inr b →
  let first_start :=
    if use_corona then dt_subtract_days b ATTRIBUTION_WINDOW_DAYS else b in
  let r := sync_leads fuel s w in
  let cursor := get_bookmark (state w) "leads" (replication_key s) in
  instant first_start
  = (if use_corona then instant b - 1 * MICROS_PER_DAY else instant b)
  ∧ contiguous_from first_start (windows r.2)
  ∧ (tap_stream_id s = "leads" →
     replication_key s ≠ "export_id" →
     replication_key s ≠ "export_end" →
     ∀ served,
       exports_served s (mk_datetime (clock (ticks w)) 0)
         (get_bookmark (state w) "leads" "export_id") (remote_state w)
         (S (ticks w)) first_start served →
       (length served ≤ fuel)%nat →
       let marks := leads_marks b b served in
       let before := λ i, match i with
                          | O => b
                          | S j => default b (marks !! j)
                          end in
       r.1.1 = Ok (Z.of_nat (length (records r.2)))
       ∧ windows r.2 = served_windows first_start served
       ∧ written "leads" (replication_key s) r.2 = cursors_written cursor marks
       ∧ get_bookmark (state r.1.2) "leads" (replication_key s)
         = default cursor (last (cursors_written cursor marks))
       ∧ length marks = length served
       ∧ (use_corona = true →
          records r.2
          = flat_map (λ d, map (λ r : pydict * datetime,
                                  ("leads", VDict r.1)) d.2) served
          ∧ ∀ i export_end recs,
              served !! i = Some (export_end, recs) →
              marks !! i = Some match recs with
                                | [] => before i
                                | _ => export_end
                                end)
       ∧ (use_corona = false →
          records r.2
          = flat_map (λ d, map (λ r : pydict * datetime,
                                  ("leads", VDict r.1))
                             (filter (λ r, instant b ≤ instant r.2) d.2))
                     served
          ∧ ∀ i export_end recs,
              served !! i = Some (export_end, recs) →
              ∃ mark,
                marks !! i = Some mark
                ∧ mark = foldl dt_max (before i)
                           (filter (λ r, instant b ≤ instant r.2) recs).*2
                ∧ instant mark
                  = foldl Z.max (instant b)
                      (instant <$>
                         (filter (λ r, instant b ≤ instant r.2)
                            (flat_map snd (take (S i) served))).*2))).
Proof.
  intros Hb. cbv zeta. split; [| split].
  - unfold ATTRIBUTION_WINDOW_DAYS. now destruct use_corona.
  - apply (sync_leads_chain fuel s w b Hb).
  - intros Htap Hk1 Hk2 served Hserved Hfuel.
    destruct (sync_leads_served s fuel w b served Htap Hk1 Hk2 Hb Hserved
                Hfuel) as (Hok & Hwin & Hrec & Hwr & Hlast).
    rewrite Hrec. repeat split; try assumption.
    + apply leads_marks_length.
    + now apply served_records_all.
    + intros i e recs Hi. rewrite (leads_marks_lookup b served b i e recs Hi).
      unfold leads_mark. rewrite H. reflexivity.
    + now apply served_records_filter.
    + intros i e recs Hi. eexists. split; [| split].
      * apply (leads_marks_lookup b served b i e recs Hi).
      * unfold leads_mark. rewrite H, (leads_emitted_filter _ _ H).
        reflexivity.
      * apply (leads_marks_instant b served H b i).
        apply (leads_marks_lookup b served b i e recs Hi).
Qed.

(** C10, amended.  In the leads sync without Corona the cursor never moves
    back, however the run ends: the bookmark in each state the run writes
    is the value found at run start or the rendering of a timestamp at or
    after the bookmark read at run start, and these timestamps never
    decrease from one written state to the next.  In a run whose windows
    are all served the bookmark written after a window is at or after the
    one written after the window before it, and a window none of whose
    rows has a timestamp at or after the bookmark read at run start leaves
    the cursor at the mark of the window before it, which is the bookmark
    read at run start only for the first window of the run; it does not
    advance to the window end. *)
Theorem sync_leads_cursor_never_moves_back (s : stream) (fuel : nat)
    (w : World) (b : datetime) :
  use_corona = false →
  replication_key s ≠ "export_id" →
  replication_key s ≠ "export_end" →
  pendulum_parse (get_bookmark (state w) "leads" (replication_key s)) = inr b →
  let r := sync_leads fuel s w in
  let original := get_bookmark (state w) (tap_stream_id s) (replication_key s) in
  Forall (cursor_not_before original b)
         (written (tap_stream_id s) (replication_key s) r.2)
  ∧ ascending original b b (written (tap_stream_id s) (replication_key s) r.2)
  ∧ (tap_stream_id s = "leads" →
     ∀ served,
       exports_served s (mk_datetime (clock (ticks w)) 0)
         (get_bookmark (state w) "leads" "export_id") (remote_state w)
         (S (ticks w)) b served →
       (length served ≤ fuel)%nat →
       let marks := leads_marks b b served in
       let before := λ i, match i with
                          | O => b
                          | S j => default b (marks !! j)
                          end in
       written "leads" (replication_key s) r.2 = cursors_written original marks
       ∧ get_bookmark (state r.1.2) "leads" (replication_key s)
         = default original (last (cursors_written original marks))
       ∧ ∀ i export_end recs,
           served !! i = Some (export_end, recs) →
           ∃ mark,
             marks !! i = Some mark
             ∧ instant (before i) ≤ instant mark
             ∧ (Forall (λ r, instant r.2 < instant b) recs →
                mark = before i)).
Proof.
  intros Hc Hk1 Hk2 Hb. cbv zeta. split; [| split].
  - apply written_Forall.
    set (orig := get_bookmark (state w) (tap_stream_id s) (replication_key s)).
    set (ok := λ st, cursor_not_before orig b
                       (get_bookmark st (tap_stream_id s) (replication_key s))).
    apply (sync_leads_invariant s ok
             (λ ev, match ev with WriteState st => ok st | _ => True end)
             b (λ m, instant b ≤ instant m)).
    + intros []; simpl; auto. intros [].
    + intros st i e Hst. cbv zeta. unfold ok.
      rewrite get_bookmark_export_info_frame by assumption. auto.
    + intros st Hst. cbv zeta. unfold ok.
      rewrite get_bookmark_export_info_frame by assumption. auto.
    + intros st m Hst Hgood. cbv zeta. unfold ok.
      rewrite get_bookmark_with_export_info by apply isoformat_nonempty.
      split; right; eauto.
    + intros e rows mb c. now apply sync_leads_rows_mark_ge.
    + left. reflexivity.
    + exact Hb.
    + lia.
  - rewrite (sync_leads_run fuel s w b Hb), Hc. cbv zeta. cbn [snd].
    change (written ?n ?k (WriteSchema ?x ?y ?z :: ?t)) with (written n k t).
    apply (sync_leads_loop_ascending s _ b _ Hc Hk1 Hk2 fuel b b 0 _ b);
      [left; split; reflexivity | lia | lia].
  - intros Htap served Hserved Hfuel.
    assert (Hserved' :
      exports_served s (mk_datetime (clock (ticks w)) 0)
        (get_bookmark (state w) "leads" "export_id") (remote_state w)
        (S (ticks w))
        (if use_corona then dt_subtract_days b ATTRIBUTION_WINDOW_DAYS else b)
        served) by (now rewrite Hc).
    destruct (sync_leads_served s fuel w b served Htap Hk1 Hk2 Hb Hserved'
                Hfuel) as (_ & _ & _ & Hwr & Hlast).
    rewrite Htap. split; [exact Hwr |]. split; [exact Hlast |].
    intros i e recs Hi. eexists. split; [| split].
    + apply (leads_marks_lookup b served b i e recs Hi).
    + now apply leads_mark_grows.
    + intros Hnone. now apply leads_nothing_emitted.
Qed.

End LeadsRunClaims.

(** The account of [Scenario.two_windows] serves a run that starts at the
    bookmark of 1 January: a first export up to 31 January with two leads,
    a second, empty, up to the start of the run. *)
Lemma two_windows_are_served :
  exports_served (RT := Reference.runtime)
    (EV := Scenario.env Scenario.two_windows) Scenario.leads
    (mk_datetime (Scenario.day 45) 0) VNone ["e1"; "e2"] 1
    (Scenario.midnight 0) Scenario.two_windows_served.
Proof.
  unfold Scenario.two_windows_served.
  refine (served_window (RT := Reference.runtime)
            (EV := Scenario.env Scenario.two_windows) Scenario.leads
            (mk_datetime (Scenario.day 45) 0) VNone ["e1"; "e2"] 1%nat
            (Scenario.midnight 0) false (["e1"; "e2"] : list string) "e1"
            (["e2"] : list string) (["e2"] : list string)
            (["e2"] : list string) ["id"; "updatedAt"]
            [["7"; "2020-01-05T12:00:00Z"]; ["8"; "2019-12-25T12:00:00Z"]]
            _ _ _ _ _ _ _ _ _ _).
  - reflexivity.
  - reflexivity.
  - now left.
  - reflexivity.
  - reflexivity.
  - reflexivity.
  - run_eq.
  - refine (served_window (RT := Reference.runtime)
              (EV := Scenario.env Scenario.two_windows) Scenario.leads
              (mk_datetime (Scenario.day 45) 0) VNone ["e2"] 2%nat
              (Scenario.midnight 30) false (["e2"] : list string) "e2"
              ([] : list string) ([] : list string) ([] : list string)
              ["id"; "updatedAt"] [] _ _ _ _ _ _ _ _ _ _).
    + reflexivity.
    + reflexivity.
    + now left.
    + reflexivity.
    + reflexivity.
    + reflexivity.
    + reflexivity.
    + apply served_none. vm_compute. discriminate.
Qed.

(** The account of [Scenario.late_row] serves such a run as well; its
    second export holds one lead. *)
Lemma late_row_is_served :
  exports_served (RT := Reference.runtime)
    (EV := Scenario.env Scenario.late_row) Scenario.leads
    (mk_datetime (Scenario.day 45) 0) VNone ["e1"; "e2"] 1
    (Scenario.midnight 0) Scenario.late_row_served.
Proof.
  unfold Scenario.late_row_served.
  refine (served_window (RT := Reference.runtime)
            (EV := Scenario.env Scenario.late_row) Scenario.leads
            (mk_datetime (Scenario.day 45) 0) VNone ["e1"; "e2"] 1%nat
            (Scenario.midnight 0) false (["e1"; "e2"] : list string) "e1"
            (["e2"] : list string) (["e2"] : list string)
            (["e2"] : list string) ["id"; "updatedAt"]
            [["7"; "2020-01-05T12:00:00Z"]; ["8"; "2019-12-25T12:00:00Z"]]
            _ _ _ _ _ _ _ _ _ _).
  - reflexivity.
  - reflexivity.
  - now left.
  - reflexivity.
  - reflexivity.
  - reflexivity.
  - run_eq.
  - refine (served_window (RT := Reference.runtime)
              (EV := Scenario.env Scenario.late_row) Scenario.leads
              (mk_datetime (Scenario.day 45) 0) VNone ["e2"] 2%nat
              (Scenario.midnight 30) false (["e2"] : list string) "e2"
              ([] : list string) ([] : list string) ([] : list string)
              ["id"; "updatedAt"] [["9"; "2020-01-03T00:00:00Z"]]
              _ _ _ _ _ _ _ _ _ _).
    + reflexivity.
    + reflexivity.
    + now left.
    + reflexivity.
    + reflexivity.
    + reflexivity.
    + run_eq.
    + apply served_none. vm_compute. discriminate.
Qed.

(** C1, amended, at a run over two windows of an account without Corona,
    from a bookmark of 1 January.  Of the two leads of the first export the
    one updated on 5 January is written and the one updated on 25 December
    is not.  The lead of the second export, updated on 3 January, is
    written although its window starts on 31 January: it is compared with
    the bookmark of 1 January.  The bookmark written after either window is
    5 January at noon, the greatest timestamp written so far. *)
Lemma sync_leads_bookmark_rule_witness :
  let r := sync_leads (RT := Reference.runtime)
             (EV := Scenario.env Scenario.late_row) 5 Scenario.leads
             (Scenario.start Scenario.late_row
                (Scenario.leads_state "2020-01-01T00:00:00+00:00" None)) in
  r.1.1 = Ok 2
  ∧ windows r.2 = [(Scenario.midnight 0, Scenario.midnight 30);
                   (Scenario.midnight 30, Scenario.midnight 45)]
  ∧ records r.2
    = [("leads", VDict {[ "id" := VInt 7;
                          "updatedAt" := VStr "2020-01-05T12:00:00+00:00" ]});
       ("leads", VDict {[ "id" := VInt 9;
                          "updatedAt" := VStr "2020-01-03T00:00:00+00:00" ]})]
  ∧ written "leads" "updatedAt" r.2
    = [VStr "2020-01-01T00:00:00+00:00"; VStr "2020-01-05T12:00:00+00:00";
       VStr "2020-01-05T12:00:00+00:00"; VStr "2020-01-05T12:00:00+00:00"]
  ∧ get_bookmark (state r.1.2) "leads" "updatedAt"
    = VStr "2020-01-05T12:00:00+00:00".
Proof.
  assert (Hkey1 : replication_key Scenario.leads ≠ "export_id") by discriminate.
  assert (Hkey2 : replication_key Scenario.leads ≠ "export_end") by discriminate.
  pose proof (sync_leads_bookmark_rule (RT := Reference.runtime)
                (EV := Scenario.env Scenario.late_row) Scenario.leads 5
                (Scenario.start Scenario.late_row
                   (Scenario.leads_state "2020-01-01T00:00:00+00:00" None))
                (Scenario.midnight 0) eq_refl) as Hrule.
  cbv zeta in Hrule. destruct Hrule as (_ & _ & Hrun).
  destruct (Hrun eq_refl Hkey1 Hkey2 Scenario.late_row_served
              late_row_is_served ltac:(cbn; lia))
    as (Hok & Hwin & Hwr & Hlast & _ & _ & Hrecs).
  destruct (Hrecs eq_refl) as [Hrec _].
  intros r. subst r. rewrite Hrec in Hok.
  split; [etransitivity; [exact Hok | run_eq] |].
  split; [etransitivity; [exact Hwin | run_eq] |].
  split; [etransitivity; [exact Hrec | run_eq] |].
  split; [etransitivity; [exact Hwr | run_eq] |].
  etransitivity; [exact Hlast | run_eq].
Defined.

(** C1 as stated fails with Corona for a window that streams no row: the
    export of 1 to 11 January is empty, and the bookmark written after it is
    still 2 January, not the window end. *)
Lemma sync_leads_corona_empty_window :
  let r := sync_leads (RT := Reference.runtime)
             (EV := Scenario.env Scenario.quiet_corona) 5 Scenario.leads
             (Scenario.start Scenario.quiet_corona
                (Scenario.leads_state "2020-01-02T00:00:00+00:00" None)) in
  r.1.1 = Ok 0
  ∧ windows r.2 = [(Scenario.midnight 0, Scenario.midnight 10)]
  ∧ last (written "leads" "updatedAt" r.2)
    = Some (VStr "2020-01-02T00:00:00+00:00")
  ∧ VStr "2020-01-02T00:00:00+00:00"
    ≠ VStr (Reference.ref_isoformat (Scenario.midnight 10)).
Proof.
  vm_compute. repeat split; discriminate.
Qed.

(** C10, amended, at the same run: the bookmark in the four states written
    goes from 1 January to 5 January at noon and stays there, and the
    second window, which has no row, leaves the mark of the first. *)
Lemma sync_leads_cursor_never_moves_back_witness :
  let r := sync_leads (RT := Reference.runtime)
             (EV := Scenario.env Scenario.two_windows) 5 Scenario.leads
             (Scenario.start Scenario.two_windows
                (Scenario.leads_state "2020-01-01T00:00:00+00:00" None)) in
  let marks := leads_marks (EV := Scenario.env Scenario.two_windows)
                 (Scenario.midnight 0) (Scenario.midnight 0)
                 Scenario.two_windows_served in
  ascending (RT := Reference.runtime) (VStr "2020-01-01T00:00:00+00:00")
    (Scenario.midnight 0) (Scenario.midnight 0)
    (written "leads" "updatedAt" r.2)
  ∧ written "leads" "updatedAt" r.2
    = [VStr "2020-01-01T00:00:00+00:00"; VStr "2020-01-05T12:00:00+00:00";
       VStr "2020-01-05T12:00:00+00:00"; VStr "2020-01-05T12:00:00+00:00"]
  ∧ marks !! 1%nat = marks !! 0%nat
  ∧ marks !! 0%nat
    = Some (mk_datetime (Scenario.day 4 + 12 * 3600 * 1000000) 0).
Proof.
  assert (Hkey1 : replication_key Scenario.leads ≠ "export_id") by discriminate.
  assert (Hkey2 : replication_key Scenario.leads ≠ "export_end") by discriminate.
  pose proof (sync_leads_cursor_never_moves_back (RT := Reference.runtime)
                (EV := Scenario.env Scenario.two_windows) Scenario.leads 5
                (Scenario.start Scenario.two_windows
                   (Scenario.leads_state "2020-01-01T00:00:00+00:00" None))
                (Scenario.midnight 0) eq_refl Hkey1 Hkey2 eq_refl) as Hcursor.
  cbv zeta in Hcursor. destruct Hcursor as (_ & Hascending & Hrun).
  destruct (Hrun eq_refl Scenario.two_windows_served two_windows_are_served
              ltac:(cbn; lia)) as (Hwr & _ & Hmarks).
  destruct (Hmarks 1%nat (Scenario.midnight 45) [] eq_refl)
    as (mark & Hmark & _ & Hstall).
  intros r marks. subst r.
  split; [exact Hascending |].
  split; [etransitivity; [exact Hwr | run_eq] |].
  split; [| run_eq].
  subst marks. rewrite Hmark, (Hstall (List.Forall_nil _)). run_eq.
Defined.

(** C10 as stated fails at the second of two windows: the first window
    wrote the lead updated on 5 January, the second export is empty, and
    the bookmark written after it is 5 January at noon, not the initial
    bookmark of 1 January. *)
Lemma sync_leads_stalls_at_previous_mark :
  let r := sync_leads (RT := Reference.runtime)
             (EV := Scenario.env Scenario.two_windows) 5 Scenario.leads
             (Scenario.start Scenario.two_windows
                (Scenario.leads_state "2020-01-01T00:00:00+00:00" None)) in
  r.1.1 = Ok 1
  ∧ windows r.2 = [(Scenario.midnight 0, Scenario.midnight 30);
                   (Scenario.midnight 30, Scenario.midnight 45)]
  ∧ downloads r.2 = [VStr "e1"; VStr "e2"]
  ∧ Scenario.file_of "e2" (Scenario.files Scenario.two_windows)
    = inr (["id"; "updatedAt"], [])
  ∧ written "leads" "updatedAt" r.2
    = [VStr "2020-01-01T00:00:00+00:00"; VStr "2020-01-05T12:00:00+00:00";
       VStr "2020-01-05T12:00:00+00:00"; VStr "2020-01-05T12:00:00+00:00"]
  ∧ get_bookmark (state r.1.2) "leads" "updatedAt"
    ≠ VStr "2020-01-01T00:00:00+00:00".
Proof. vm_compute. repeat split; discriminate. Qed.

(** ** The export bookmarks *)

Section ListDrivers.
Context `{RT : Runtime} `{EV : Env}.
Variables (s : stream) (I : State → Prop) (E : event → Prop).

Hypothesis E_other : ∀ ev, not_state_write ev → E ev.
Hypothesis I_E : ∀ st, I st → E (WriteState st).
Hypothesis I_write : ∀ st name key v,
  key ≠ "export_id" → key ≠ "export_end" → I st → I (write_bookmark st name key v).

Ltac side :=
  first [ exact Logic.I | apply E_other; exact Logic.I | exact I_E
        | assumption | idtac ].

Lemma preserves_client_request endpoint endpoint_name params :
  preserves I E (client_request endpoint endpoint_name params) (λ _, True).
Proof. unfold client_request. preserves_auto; side. Qed.

Lemma preserves_emit_newer name key start_date rows :
  ∀ record_count,
    preserves I E (emit_newer s name key start_date rows record_count) (λ _, True).
Proof.
  induction rows as [|row rows' IH]; intros c; cbn [emit_newer].
  - preserves_auto; side.
  - preserves_auto; side; apply IH.
Qed.

Lemma preserves_write_all name rows :
  ∀ record_count, preserves I E (write_all s name rows record_count) (λ _, True).
Proof.
  induction rows as [|row rows' IH]; intros c; cbn [write_all].
  - preserves_auto; side.
  - preserves_auto; side; apply IH.
Qed.

Lemma preserves_sync_paginated_loop fuel start_date :
  ∀ params record_count,
    preserves I E (sync_paginated_loop fuel s start_date params record_count)
              (λ _, True).
Proof.
  induction fuel as [|fuel IH]; intros params c; cbn [sync_paginated_loop].
  - preserves_auto.
  - preserves_auto; side.
    + apply preserves_client_request.
    + apply preserves_emit_newer.
    + match goal with
      | |- preserves _ _ (match ?d !! "nextPageToken" with _ => _ end) _ =>
          destruct (d !! "nextPageToken") as [token|]
      end; preserves_auto; side.
      * intros st Hst. apply I_write; [discriminate .. | exact Hst].
      * apply IH.
Qed.


Lemma preserves_sync_programs_loop fuel start_date end_date :
  ∀ offset record_count,
    preserves I E
      (sync_programs_loop fuel s start_date end_date offset record_count)
      (λ _, True).
Proof.
  induction fuel as [|fuel IH]; intros offset c; cbn [sync_programs_loop].
  - preserves_auto.
  - preserves_auto; side.
    + apply preserves_client_request.
    + apply preserves_emit_newer.
    + apply IH.
Qed.

Lemma preserves_sync_programs fuel :
  preserves I E (sync_programs fuel s) (λ _, True).
Proof.
  unfold sync_programs. preserves_auto; side.
  - apply preserves_sync_programs_loop.
  - intros st Hst. apply I_write; [discriminate .. | exact Hst].
Qed.

Lemma preserves_sync_activity_types :
  preserves I E (sync_activity_types s) (λ _, True).
Proof.
  unfold sync_activity_types. preserves_auto; side.
  - apply preserves_client_request.
  - apply preserves_write_all.
Qed.

End ListDrivers.

Section ExportInfo.
Context `{RT : Runtime} `{EV : Env}.



Lemma returns_anything {A} (m : M A) : returns m (λ _, True).
Proof. intros w a _. exact I. Qed.




End ExportInfo.

(** ** Export windows *)

Section ExportWindows.
Context `{RT : Runtime} `{EV : Env}.

Lemma whole_seconds_le (z : Z) : whole_seconds z ≤ z.
Proof. unfold whole_seconds. pose proof (Z.mod_pos_bound z 1000000). lia. Qed.

Lemma export_end_at_instant (export_start : datetime) (now now' : Z) :
  instant (export_end_at export_start now now') =
    whole_seconds
      (if instant export_start + MAX_EXPORT_DAYS * MICROS_PER_DAY <? now
       then instant export_start + MAX_EXPORT_DAYS * MICROS_PER_DAY
       else now').
Proof. unfold export_end_at. now destruct (_ <? now). Qed.

Lemma export_end_at_min (export_start : datetime) (now : Z) :
  instant (export_end_at export_start now now) =
    whole_seconds
      (Z.min (instant export_start + MAX_EXPORT_DAYS * MICROS_PER_DAY) now).
Proof.
  rewrite export_end_at_instant.
  destruct (_ <? now) eqn:H; f_equal.
  - apply Z.ltb_lt in H. lia.
  - apply Z.ltb_ge in H. lia.
Qed.

Lemma export_end_at_le_now (export_start : datetime) (now now' : Z) :
  now ≤ now' → instant (export_end_at export_start now now') ≤ now'.
Proof.
  intros Hle. rewrite export_end_at_instant.
  destruct (_ <? now) eqn:H.
  - apply Z.ltb_lt in H.
    pose proof (whole_seconds_le
                  (instant export_start + MAX_EXPORT_DAYS * MICROS_PER_DAY)).
    lia.
  - apply whole_seconds_le.
Qed.

(** A new export: the persisted job is missing or no longer available. *)
Lemma get_or_create_leads_new (s : stream) (export_start : datetime) (w : World)
    (available : bool) (rs rs' : remote) (new_id : string) :
  let persisted := get_bookmark (state w) "leads" "export_id" in
  let export_end :=
    export_end_at export_start (clock (ticks w)) (clock (S (ticks w))) in
  let query : pydict :=
    {[ (if use_corona then "updatedAt" else "createdAt")
       := date_range export_start export_end ]} in
  export_available "leads" persisted (remote_state w) = (inr available, rs) →
  available = false ∨ persisted = VNone →
  create_export "leads" (wanted_fields s) query rs = (inr new_id, rs') →
  (get_or_create_export_for_leads s export_start w).1.1
    = Ok (VStr new_id, export_end).
Proof.
  intros persisted export_end query Havail Hnew Hcreate.
  unfold get_or_create_export_for_leads.
  rewrite run_bind. cbn [get_state]. rewrite run_bind.
  fold persisted. unfold client at 1. rewrite Havail. cbn [remote_state].
  assert (Hnone : is_none (if negb available then VNone else persisted) = true).
  { destruct Hnew as [-> | ->]; [reflexivity | now destruct available]. }
  rewrite Hnone. rewrite run_bind, get_export_end_run.
  cbn [state remote_state ticks]. fold export_end. rewrite run_bind. fold query.
  unfold client. cbn [state remote_state ticks]. rewrite Hcreate.
  rewrite run_bind, update_state_run. reflexivity.
Qed.

(** A resumed export: the persisted job is still available. *)
Lemma get_or_create_leads_resumed (s : stream) (export_start : datetime)
    (w : World) (rs : remote) (export_end : datetime) :
  let persisted := get_bookmark (state w) "leads" "export_id" in
  export_available "leads" persisted (remote_state w) = (inr true, rs) →
  persisted ≠ VNone →
  pendulum_parse (get_bookmark (state w) "leads" "export_end") = inr export_end →
  (get_or_create_export_for_leads s export_start w).1.1
    = Ok (persisted, export_end).
Proof.
  intros persisted Havail Hsome Hparse.
  unfold get_or_create_export_for_leads.
  rewrite run_bind. cbn [get_state]. rewrite run_bind.
  fold persisted. unfold client at 1. rewrite Havail. cbn [remote_state negb].
  assert (Hnone : is_none persisted = false) by now destruct persisted.
  rewrite Hnone. rewrite run_bind. cbn [get_state state].
  rewrite run_bind, Hparse. reflexivity.
Qed.

Lemma get_or_create_activities_new (s : stream) (export_start : datetime)
    (w : World) (available : bool) (rs rs' : remote) (new_id : string) :
  let persisted := get_bookmark (state w) (tap_stream_id s) "export_id" in
  let export_end :=
    export_end_at export_start (clock (ticks w)) (clock (S (ticks w))) in
  let query : pydict :=
    {[ "createdAt" := date_range export_start export_end;
       "activityTypeIds" := VList [activity_id s] ]} in
  export_available "activities" persisted (remote_state w) = (inr available, rs) →
  available = false ∨ persisted = VNone →
  create_export "activities" ACTIVITY_FIELDS query rs = (inr new_id, rs') →
  (get_or_create_export_for_activities s export_start w).1.1
    = Ok (VStr new_id, export_end).
Proof.
  intros persisted export_end query Havail Hnew Hcreate.
  unfold get_or_create_export_for_activities.
  rewrite run_bind. cbn [get_state]. rewrite run_bind.
  fold persisted. unfold client at 1. rewrite Havail. cbn [remote_state].
  assert (Hnone : is_none (if negb available then VNone else persisted) = true).
  { destruct Hnew as [-> | ->]; [reflexivity | now destruct available]. }
  rewrite Hnone. rewrite run_bind, get_export_end_run.
  cbn [state remote_state ticks]. fold export_end. rewrite run_bind. fold query.
  unfold client. cbn [state remote_state ticks]. rewrite Hcreate.
  rewrite run_bind, update_state_run. reflexivity.
Qed.

Lemma get_or_create_activities_resumed (s : stream) (export_start : datetime)
    (w : World) (rs : remote) (export_end : datetime) :
  let persisted := get_bookmark (state w) (tap_stream_id s) "export_id" in
  export_available "activities" persisted (remote_state w) = (inr true, rs) →
  persisted ≠ VNone →
  pendulum_parse (get_bookmark (state w) (tap_stream_id s) "export_end")
    = inr export_end →
  (get_or_create_export_for_activities s export_start w).1.1
    = Ok (persisted, export_end).
Proof.
  intros persisted Havail Hsome Hparse.
  unfold get_or_create_export_for_activities.
  rewrite run_bind. cbn [get_state]. rewrite run_bind.
  fold persisted. unfold client at 1. rewrite Havail. cbn [remote_state negb].
  assert (Hnone : is_none persisted = false) by now destruct persisted.
  rewrite Hnone. rewrite run_bind. cbn [get_state state].
  rewrite run_bind, Hparse. reflexivity.
Qed.

(** The window an iteration records is the one its export was had for. *)
Lemma window_of_export {A B} (export_start : datetime) (m : M (A * datetime))
    (rest : A → datetime → M B) (w : World) a export_end :
  emits not_window m →
  (∀ a e, emits not_window (rest a e)) →
  (m w).1.1 = Ok (a, export_end) →
  windows ((m ≫= λ '(a, e), emit (Window export_start e);; rest a e) w).2
    = [(export_start, export_end)].
Proof.
  intros Hm Hrest Hok. rewrite run_bind.
  pose proof (windows_none _ (Hm w)) as Hw1.
  destruct (m w) as [[[[a' e']|ex|] w1] t1]; cbn [fst snd] in *;
    try discriminate.
  injection Hok as -> ->.
  rewrite run_bind. cbn [emit].
  pose proof (windows_none _ (Hrest a export_end w1)) as Hw2.
  destruct (rest a export_end w1) as [[o w2] t2]; cbn [fst snd app] in *.
  now rewrite windows_app, Hw1, windows_cons, Hw2.
Qed.

Lemma sync_leads_window_windows (s : stream)
    (initial_bookmark export_start max_bookmark : datetime) (record_count : Z)
    (w : World) export_id export_end :
  (get_or_create_export_for_leads s export_start w).1.1
    = Ok (export_id, export_end) →
  windows (sync_leads_window s initial_bookmark export_start max_bookmark
                             record_count w).2
    = [(export_start, export_end)].
Proof.
  intros Hget. unfold sync_leads_window.
  apply (window_of_export export_start
           (get_or_create_export_for_leads s export_start)
           (λ export_id export_end,
              wait_for_export s export_id;;
              rows ← stream_rows "leads" export_id;
              '(max_bookmark, record_count) ←
                sync_leads_rows s initial_bookmark export_end rows
                                max_bookmark record_count;
              update_state_with_export_info s (VStr (isoformat max_bookmark))
                                            VNone VNone;;
              mret (export_end, max_bookmark, record_count))
           w export_id export_end).
  - apply no_window_get_or_create_leads.
  - intros a e. no_window.
  - exact Hget.
Qed.

Lemma sync_activities_window_windows (s : stream) (export_start : datetime)
    (record_count : Z) (w : World) export_id export_end :
  (get_or_create_export_for_activities s export_start w).1.1
    = Ok (export_id, export_end) →
  windows (sync_activities_window s export_start record_count w).2
    = [(export_start, export_end)].
Proof.
  intros Hget. unfold sync_activities_window.
  apply (window_of_export export_start
           (get_or_create_export_for_activities s export_start)
           (λ export_id export_end,
              wait_for_export s export_id;;
              rows ← stream_rows "activites" export_id;
              record_count ← sync_activities_rows s rows record_count;
              update_state_with_export_info s (VStr (isoformat export_start))
                                            VNone VNone;;
              mret (export_end, record_count))
           w export_id export_end).
  - apply no_window_get_or_create_activities.
  - intros a e. no_window.
  - exact Hget.
Qed.

End ExportWindows.


(** ** Export windows of a run *)

Section WindowsOfRuns.
Context `{RT : Runtime} `{EV : Env}.

Lemma sync_activities_run (fuel : nat) (s : stream) (w : World) (b : datetime) :
  pendulum_parse (get_bookmark (state w) (tap_stream_id s) (replication_key s))
    = inr b →
  sync_activities fuel s w =
    let r := sync_activities_loop fuel s (mk_datetime (clock (ticks w)) 0) b 0
               (mk_World (state w) (remote_state w) (S (ticks w))) in
    (r.1.1, r.1.2,
     WriteSchema (tap_stream_id s) (properties s) (key_properties s) :: r.2).
Proof.
  intros Hb. unfold sync_activities.
  rewrite run_bind. cbn [emit]. rewrite run_bind. cbn [get_state].
  rewrite run_bind, Hb. cbn [lift ret]. rewrite run_bind. cbn [utcnow].
  match goal with
  | |- context [sync_activities_loop fuel s ?j b 0 ?w'] =>
      destruct (sync_activities_loop fuel s j b 0 w') as [[o w2] t2]
  end.
  reflexivity.
Qed.

Lemma sync_activities_chain (fuel : nat) (s : stream) (w : World) (b : datetime) :
  pendulum_parse (get_bookmark (state w) (tap_stream_id s) (replication_key s))
    = inr b →
  window_chain (mk_datetime (clock (ticks w)) 0) b (sync_activities fuel s w).
Proof.
  intros Hb. rewrite (sync_activities_run fuel s w b Hb). cbv zeta.
  apply sync_activities_loop_chain.
Qed.

End WindowsOfRuns.

Section WindowsInOrder.
Context `{RT : Runtime} `{EV : Env}.

Lemma contiguous_from_lookup (ws : list (datetime * datetime)) :
  ∀ start, contiguous_from start ws →
    (∀ wd, ws !! 0%nat = Some wd → wd.1 = start)
    ∧ (∀ (i : nat) a b, ws !! i = Some a → ws !! S i = Some b → a.2 = b.1).
Proof.
  induction ws as [|[x y] ws IH]; intros start Hc.
  - split; intros; discriminate.
  - destruct Hc as [-> Hc]. destruct (IH y Hc) as [Hfirst Hnext]. split.
    + intros wd Hwd. now injection Hwd as <-.
    + intros [|i] a b Ha Hb; cbn in Ha, Hb.
      * injection Ha as <-. symmetry. now apply Hfirst.
      * now apply (Hnext i).
Qed.

Lemma window_chain_in_order {A} (job_started first_start : datetime)
    (r : outcome A * World * list event) :
  window_chain job_started first_start r →
  windows_in_order job_started first_start r.
Proof.
  intros (Hc & Hall & Hok). unfold windows_in_order. cbv zeta.
  destruct (contiguous_from_lookup _ _ Hc) as [Hfirst Hnext].
  split; [exact Hfirst |]. split; [exact Hnext |]. split; [| exact Hok].
  intros wd Hwd. rewrite Forall_forall in Hall. now apply Hall.
Qed.

(** C3, amended.  The end of a window whose export is newly created is the
    start plus 30 days when that is strictly before the current time, and
    otherwise the current time as read once more, in both cases with the
    sub-second part dropped: it is min(start + 30 days, now) when the two
    readings agree, and it is never after the later reading.  A window that
    reuses a persisted export that is still available ends at the persisted
    [export_end].  In every leads or activities run the windows are
    contiguous (each ends where the next starts), the first starts at the
    bookmark (one day earlier for leads with Corona), the loop goes on
    exactly while the window start is strictly before the run start time,
    so that every window starts before it and a run that returns has its
    last window end at or after it. *)
Theorem export_windows_in_order (s : stream) :
  (∀ export_start now now',
     instant (export_end_at export_start now now')
       = whole_seconds
           (if instant export_start + MAX_EXPORT_DAYS * MICROS_PER_DAY <? now
            then instant export_start + MAX_EXPORT_DAYS * MICROS_PER_DAY
            else now')
     ∧ (now = now' →
        instant (export_end_at export_start now now')
          = whole_seconds
              (Z.min (instant export_start + MAX_EXPORT_DAYS * MICROS_PER_DAY)
                     now))
     ∧ (now ≤ now' → instant (export_end_at export_start now now') ≤ now'))
  ∧ (∀ initial_bookmark export_start max_bookmark record_count (w : World)
       available rs rs' new_id,
     let persisted := get_bookmark (state w) "leads" "export_id" in
     let export_end :=
       export_end_at export_start (clock (ticks w)) (clock (S (ticks w))) in
     export_available "leads" persisted (remote_state w) = (inr available, rs) →
     available = false ∨ persisted = VNone →
     create_export "leads" (wanted_fields s)
       {[ (if use_corona then "updatedAt" else "createdAt")
          := date_range export_start export_end ]} rs = (inr new_id, rs') →
     windows (sync_leads_window s initial_bookmark export_start max_bookmark
                                record_count w).2
       = [(export_start, export_end)])
  ∧ (∀ initial_bookmark export_start max_bookmark record_count (w : World)
       rs export_end,
     let persisted := get_bookmark (state w) "leads" "export_id" in
     export_available "leads" persisted (remote_state w) = (inr true, rs) →
     persisted ≠ VNone →
     pendulum_parse (get_bookmark (state w) "leads" "export_end")
       = inr export_end →
     windows (sync_leads_window s initial_bookmark export_start max_bookmark
                                record_count w).2
       = [(export_start, export_end)])
  ∧ (∀ export_start record_count (w : World) available rs rs' new_id,
     let persisted := get_bookmark (state w) (tap_stream_id s) "export_id" in
     let export_end :=
       export_end_at export_start (clock (ticks w)) (clock (S (ticks w))) in
     export_available "activities" persisted (remote_state w)
       = (inr available, rs) →
     available = false ∨ persisted = VNone →
     create_export "activities" ACTIVITY_FIELDS
       {[ "createdAt" := date_range export_start export_end;
          "activityTypeIds" := VList [activity_id s] ]} rs = (inr new_id, rs') →
     windows (sync_activities_window s export_start record_count w).2
       = [(export_start, export_end)])
  ∧ (∀ export_start record_count (w : World) rs export_end,
     let persisted := get_bookmark (state w) (tap_stream_id s) "export_id" in
     export_available "activities" persisted (remote_state w) = (inr true, rs) →
     persisted ≠ VNone →
     pendulum_parse (get_bookmark (state w) (tap_stream_id s) "export_end")
       = inr export_end →
     windows (sync_activities_window s export_start record_count w).2
       = [(export_start, export_end)])
  ∧ (∀ fuel (w : World) b,
     pendulum_parse (get_bookmark (state w) "leads" (replication_key s))
       = inr b →
     windows_in_order (mk_datetime (clock (ticks w)) 0)
       (if use_corona then dt_subtract_days b ATTRIBUTION_WINDOW_DAYS else b)
       (sync_leads fuel s w))
  ∧ (∀ fuel (w : World) b,
     pendulum_parse
       (get_bookmark (state w) (tap_stream_id s) (replication_key s)) = inr b →
     windows_in_order (mk_datetime (clock (ticks w)) 0) b
       (sync_activities fuel s w)).
Proof.
  split; [| split; [| split; [| split; [| split; [| split]]]]].
  - intros export_start now now'.
    split; [apply export_end_at_instant |].
    split; [intros <-; apply export_end_at_min | apply export_end_at_le_now].
  - intros init start mb c w available rs rs' new_id persisted export_end
           Havail Hnew Hcreate.
    apply (sync_leads_window_windows s init start mb c w (VStr new_id)).
    now apply (get_or_create_leads_new s start w available rs rs').
  - intros init start mb c w rs export_end persisted Havail Hsome Hparse.
    apply (sync_leads_window_windows s init start mb c w persisted).
    now apply (get_or_create_leads_resumed s start w rs).
  - intros start c w available rs rs' new_id persisted export_end
           Havail Hnew Hcreate.
    apply (sync_activities_window_windows s start c w (VStr new_id)).
    now apply (get_or_create_activities_new s start w available rs rs').
  - intros start c w rs export_end persisted Havail Hsome Hparse.
    apply (sync_activities_window_windows s start c w persisted).
    now apply (get_or_create_activities_resumed s start w rs).
  - intros fuel w b Hb. apply window_chain_in_order.
    now apply sync_leads_chain.
  - intros fuel w b Hb. apply window_chain_in_order.
    now apply sync_activities_chain.
Qed.

End WindowsInOrder.

(** C3, amended, at a run that resumes export "e2": the window it works on
    first runs from the bookmark of 6 January to the persisted end of
    20 February. *)
Lemma export_windows_in_order_witness :
  windows
    (sync_leads_window (RT := Reference.runtime)
       (EV := Scenario.env Scenario.resumed) Scenario.leads
       (Scenario.midnight 5) (Scenario.midnight 5) (Scenario.midnight 5) 0
       (Scenario.start Scenario.resumed
          (Scenario.leads_state "2020-01-06T00:00:00+00:00"
             (Some ("e2", "2020-02-20T00:00:00+00:00"))))).2
  = [(Scenario.midnight 5, Scenario.midnight 50)].
Proof.
  destruct (export_windows_in_order (RT := Reference.runtime)
              (EV := Scenario.env Scenario.resumed) Scenario.leads)
    as (_ & _ & Hresumed & _).
  apply (Hresumed (Scenario.midnight 5) (Scenario.midnight 5)
           (Scenario.midnight 5) 0
           (Scenario.start Scenario.resumed
              (Scenario.leads_state "2020-01-06T00:00:00+00:00"
                 (Some ("e2", "2020-02-20T00:00:00+00:00"))))
           (["e3"] : list string) (Scenario.midnight 50)).
  - reflexivity.
  - discriminate.
  - reflexivity.
Defined.

(** C3 as stated fails for a resumed export.  A run of 20 February, from a
    bookmark of 1 January, writes a lead updated on 6 January, creates
    export "e2" for 31 January to 20 February and loses the connection; it
    leaves the bookmark at 6 January with "e2" and its end persisted.  The
    next run, a day later, finds "e2" available and works on the window from
    6 January to 20 February: 45 days, whose end is not
    min(start + 30 days, now) for any time now. *)
Lemma resumed_window_longer_than_thirty_days :
  let before := sync_leads (RT := Reference.runtime)
                  (EV := Scenario.env Scenario.interrupted) 5 Scenario.leads
                  (Scenario.start Scenario.interrupted
                     (Scenario.leads_state "2020-01-01T00:00:00+00:00" None)) in
  let r := sync_leads (RT := Reference.runtime)
             (EV := Scenario.env Scenario.resumed) 5 Scenario.leads
             (Scenario.start Scenario.resumed (state before.1.2)) in
  before.1.1 = Raise (ClientError "connection lost")
  ∧ state before.1.2
    = Scenario.leads_state "2020-01-06T00:00:00+00:00"
        (Some ("e2", "2020-02-20T00:00:00+00:00"))
  ∧ r.1.1 = Ok 0
  ∧ windows r.2 = [(Scenario.midnight 5, Scenario.midnight 50);
                   (Scenario.midnight 50, Scenario.midnight 51)]
  ∧ ∀ now, instant (Scenario.midnight 50)
           ≠ whole_seconds
               (Z.min (instant (Scenario.midnight 5)
                       + MAX_EXPORT_DAYS * MICROS_PER_DAY) now).
Proof.
  split; [vm_compute; reflexivity |].
  split; [vm_compute; reflexivity |].
  split; [vm_compute; reflexivity |].
  split; [vm_compute; reflexivity |].
  intros now Heq.
  pose proof (whole_seconds_le
                (Z.min (instant (Scenario.midnight 5)
                        + MAX_EXPORT_DAYS * MICROS_PER_DAY) now)) as Hle.
  rewrite <- Heq in Hle.
  unfold Scenario.midnight, Scenario.day, MAX_EXPORT_DAYS, MICROS_PER_DAY in Hle.
  cbn [instant] in Hle. lia.
Qed.

(** ** The orchestrator *)

Section Orchestrator.
Context `{RT : Runtime} `{EV : Env}.

Lemma bind_ext {A B} (m : M A) (f g : A → M B) (w : World) :
  (∀ a w', f a w' = g a w') → (m ≫= f) w = (m ≫= g) w.
Proof.
  intros H. rewrite !run_bind.
  destruct (m w) as [[[a|e|] w1] t1]; [| reflexivity ..]. now rewrite H.
Qed.

Lemma run_get_state_bind {B} (f : State → M B) (w : World) :
  (get_state ≫= f) w = f (state w) w.
Proof.
  rewrite run_bind. cbn [get_state].
  now destruct (f (state w) w) as [[o w2] t2].
Qed.

Lemma sync_streams_no_marker (driver : stream → M Z) (streams : list stream) :
  ∀ w, sync_streams driver VNone streams w = sync_in_order driver streams w.
Proof.
  induction streams as [|s rest IH]; intros w; [reflexivity |].
  cbn [sync_streams sync_in_order truthy andb].
  destruct (truthy (selected s)); cbn [negb]; [| apply IH].
  apply bind_ext. intros _ w'. apply IH.
Qed.

Lemma sync_streams_skips (driver : stream → M Z) (marker : string)
    (pre rest : list stream) :
  marker ≠ "" →
  (∀ s, s ∈ pre → truthy (selected s) = true → tap_stream_id s ≠ marker) →
  ∀ w, sync_streams driver (VStr marker) (pre ++ rest) w
       = sync_streams driver (VStr marker) rest w.
Proof.
  intros Hne Hpre w. induction pre as [|s pre IH]; [reflexivity |].
  cbn [app sync_streams].
  destruct (truthy (selected s)) eqn:Hsel; cbn [negb].
  - assert (Hdiff : truthy (VStr marker)
                    && differs_from (tap_stream_id s) (VStr marker) = true).
    { cbn [truthy]. apply String.eqb_neq in Hne. rewrite Hne. cbn [negb andb].
      unfold differs_from. cbn [py_eq_str].
      apply negb_true_iff, String.eqb_neq. intros Heq.
      apply (Hpre s); [left | exact Hsel | now symmetry]. }
    rewrite Hdiff. apply IH. intros s' Hs'. apply Hpre. now right.
  - apply IH. intros s' Hs'. apply Hpre. now right.
Qed.

Lemma sync_one_run (driver : stream → M Z) (s : stream) (w : World) :
  let st1 := set_currently_syncing (state w) (VStr (tap_stream_id s)) in
  let r := driver s (mk_World st1 (remote_state w) (ticks w)) in
  sync_one driver s w =
    match r.1.1 with
    | Ok record_count =>
        let st2 := set_currently_syncing (state r.1.2) VNone in
        (Ok (), mk_World st2 (remote_state r.1.2) (ticks r.1.2),
         WriteState st1 :: r.2
           ++ [RecordCount (tap_stream_id s) record_count; WriteState st2])
    | Raise e => (Raise e, r.1.2, WriteState st1 :: r.2)
    | Timeout => (Timeout, r.1.2, WriteState st1 :: r.2)
    end.
Proof.
  cbv zeta. unfold sync_one.
  rewrite run_bind. cbn [modify_state]. rewrite run_bind. cbn [write_state].
  cbn [state remote_state ticks]. rewrite run_bind.
  destruct (driver s _) as [[[n|e|] w2] t2]; cbn [fst snd app]; reflexivity.
Qed.

(** C6.  When the state's currently-syncing marker names a selected stream
    of the catalog, [sync] skips every stream before the first selected
    stream of that name and syncs that stream and the selected streams
    after it, in catalog order.  Syncing a stream writes a state whose
    marker is the stream before its driver runs and, when the driver
    returns, the record count and a state whose marker is [None]; when the
    driver raises, the marker stays. *)
Theorem sync_resumes_at_marker (fuel : nat) (pre post : list stream)
    (s : stream) (marker : string) (w : World) :
  get_currently_syncing (state w) = VStr marker →
  marker ≠ "" →
  tap_stream_id s = marker →
  truthy (selected s) = true →
  (∀ s', s' ∈ pre → truthy (selected s') = true → tap_stream_id s' ≠ marker) →
  sync fuel (pre ++ s :: post) w
    = (sync_in_order (sync_stream_by_type fuel) (s :: post);;
       if negb use_corona then emit (LogWarning NO_CORONA_WARNING) else mret ()) w
  ∧ ∀ driver s' (w0 : World),
      let st1 := set_currently_syncing (state w0) (VStr (tap_stream_id s')) in
      let r := driver s' (mk_World st1 (remote_state w0) (ticks w0)) in
      get_currently_syncing st1 = VStr (tap_stream_id s')
      ∧ (∀ record_count, r.1.1 = Ok record_count →
           let st2 := set_currently_syncing (state r.1.2) VNone in
           sync_one driver s' w0
             = (Ok (), mk_World st2 (remote_state r.1.2) (ticks r.1.2),
                WriteState st1 :: r.2
                  ++ [RecordCount (tap_stream_id s') record_count;
                      WriteState st2])
           ∧ get_currently_syncing st2 = VNone)
      ∧ (∀ e, r.1.1 = Raise e →
           sync_one driver s' w0 = (Raise e, r.1.2, WriteState st1 :: r.2)).
Proof.
  intros Hmarker Hne Hid Hsel Hpre. split.
  - unfold sync. rewrite run_get_state_bind, Hmarker. rewrite !run_bind.
    rewrite (sync_streams_skips _ marker pre (s :: post) Hne Hpre).
    assert (Hrun : ∀ w', sync_streams (sync_stream_by_type fuel) (VStr marker)
                           (s :: post) w'
                         = sync_in_order (sync_stream_by_type fuel) (s :: post) w').
    { intros w'. cbn [sync_streams sync_in_order]. rewrite Hsel. cbn [negb].
      unfold differs_from. cbn [py_eq_str]. rewrite Hid, String.eqb_refl.
      cbn [negb]. rewrite andb_false_r.
      apply bind_ext. intros _ w''. apply sync_streams_no_marker. }
    rewrite Hrun. reflexivity.
  - intros driver s' w0 st1 r. split; [reflexivity |].
    pose proof (sync_one_run driver s' w0) as Hone. cbv zeta in Hone.
    fold st1 in Hone. fold r in Hone. split.
    + intros n Hn st2. rewrite Hone, Hn. split; reflexivity.
    + intros e He. rewrite Hone, He. reflexivity.
Qed.

End Orchestrator.

(** C6 at a catalog of activity types, leads (twice, first unselected) and
    page visits, resumed at leads. *)
Lemma sync_resumes_at_marker_witness :
  let w := Scenario.start Scenario.two_windows
             (set_currently_syncing
                (Scenario.leads_state "2020-01-01T00:00:00+00:00" None)
                (VStr "leads")) in
  sync (RT := Reference.runtime) (EV := Scenario.env Scenario.two_windows) 5
       ([Scenario.activity_types; Scenario.unselected Scenario.leads]
          ++ Scenario.leads :: [Scenario.visits]) w
  = (sync_in_order (EV := Scenario.env Scenario.two_windows)
       (sync_stream_by_type (RT := Reference.runtime) 5)
       [Scenario.leads; Scenario.visits];;
     if negb (use_corona (Env := Scenario.env Scenario.two_windows))
     then emit (LogWarning NO_CORONA_WARNING) else mret ()) w.
Proof.
  intros w.
  refine (proj1 (sync_resumes_at_marker (RT := Reference.runtime)
                   (EV := Scenario.env Scenario.two_windows) 5
                   [Scenario.activity_types; Scenario.unselected Scenario.leads]
                   [Scenario.visits] Scenario.leads "leads" w
                   eq_refl _ eq_refl eq_refl _)).
  - discriminate.
  - intros s' Hs' Hsel.
    apply list_elem_of_In in Hs'. destruct Hs' as [<-|[<-|[]]]; discriminate.
Defined.

(** ** Token-paginated lists *)

Section Paginated.
Context `{RT : Runtime} `{EV : Env}.

Lemma emit_newer_run (s : stream) (name key : string) (start_date : pyval)
    (rows : list pyval) (recs : list pydict) :
  newer_records s key start_date rows = inr recs →
  ∀ (record_count : Z) (w : World),
    emit_newer s name key start_date rows record_count w =
      (Ok (record_count + Z.of_nat (length recs)), w,
       map (λ r, WriteRecord name (VDict r)) recs).
Proof.
  revert recs. induction rows as [|row rows IH]; intros recs Hrecs c w.
  - injection Hrecs as <-. cbn. now rewrite Z.add_0_r.
  - cbn [newer_records] in Hrecs. cbn [emit_newer].
    destruct (format_values s row) as [e|record] eqn:Hf; [discriminate |].
    cbn [rbind] in Hrecs.
    destruct (py_item record key) as [e|v] eqn:Hv; [discriminate |].
    cbn [rbind] in Hrecs.
    destruct (py_ge v start_date) as [e|newer] eqn:Hge; [discriminate |].
    cbn [rbind] in Hrecs.
    destruct (newer_records s key start_date rows) as [e|recs'];
      [discriminate |].
    cbn [rbind] in Hrecs. injection Hrecs as <-.
    specialize (IH recs' eq_refl).
    rewrite run_bind. cbn [lift ret]. rewrite run_bind, Hv. cbn [lift ret].
    rewrite run_bind, Hge. cbn [lift ret].
    destruct newer.
    + rewrite run_bind. cbn [emit]. rewrite IH. cbn [app length map].
      rewrite Nat2Z.inj_succ.
      replace (c + 1 + Z.of_nat (length recs'))
        with (c + Z.succ (Z.of_nat (length recs'))) by lia.
      reflexivity.
    + rewrite IH. reflexivity.
Qed.

Lemma beside_pages_emit_newer s name key start_date rows :
  ∀ record_count,
    emits beside_pages (emit_newer s name key start_date rows record_count).
Proof.
  induction rows as [|row rows IH]; intros c; cbn [emit_newer].
  - emits_auto.
  - emits_auto; first [exact Logic.I | apply IH].
Qed.

Lemma token_persisted_beside (name : string) (t1 t2 : list event) :
  Forall beside_pages t1 →
  ∀ pending,
    token_persisted name pending (t1 ++ t2) ↔ token_persisted name pending t2.
Proof.
  induction 1 as [|ev t1 Hev _ IH]; intros pending; [reflexivity |].
  destruct ev as [| | | | |c| | |]; try destruct c; cbn in Hev |- *;
    try contradiction; apply IH.
Qed.

Lemma token_persisted_beside_only (name : string) (t : list event) pending :
  Forall beside_pages t → token_persisted name pending t.
Proof.
  intros H. rewrite <- (app_nil_r t).
  now apply token_persisted_beside.
Qed.

(** One pass of the page loop. *)
Lemma sync_paginated_loop_step (fuel : nat) (s : stream) (start_date : pyval)
    (params : pydict) (record_count : Z) (w : World) :
  sync_paginated_loop (S fuel) s start_date params record_count w =
    let call := Called (CallRequest (paginated_endpoint s) (tap_stream_id s)
                                    (Some params)) in
    match request (paginated_endpoint s) (tap_stream_id s) (Some params)
                  (remote_state w) with
    | (inl e, rs) => (Raise e, mk_World (state w) rs (ticks w), [call])
    | (inr data, rs) =>
        let w1 := mk_World (state w) rs (ticks w) in
        match rbind (py_item data "result") py_iter with
        | inl e => (Raise e, w1, [call; Received data])
        | inr rows =>
            let r := emit_newer s (tap_stream_id s) (replication_key s)
                                start_date rows record_count w1 in
            match r.1.1 with
            | Ok count =>
                match data !! "nextPageToken" with
                | None => (Ok count, r.1.2, call :: Received data :: r.2)
                | Some token =>
                    let st := write_bookmark (state r.1.2) (tap_stream_id s)
                                             "next_page_token" token in
                    let next :=
                      sync_paginated_loop fuel s start_date
                        (<["nextPageToken" := token]> params) count
                        (mk_World st (remote_state r.1.2) (ticks r.1.2)) in
                    (next.1.1, next.1.2,
                     call :: Received data :: r.2 ++ WriteState st :: next.2)
                end
            | Raise e => (Raise e, r.1.2, call :: Received data :: r.2)
            | Timeout => (Timeout, r.1.2, call :: Received data :: r.2)
            end
        end
    end.
Proof.
  cbn [sync_paginated_loop]. cbv zeta.
  rewrite run_bind. unfold client_request. rewrite run_bind. unfold client.
  destruct (request _ _ _ (remote_state w)) as [[e|data] rs]; [reflexivity |].
  rewrite run_bind. cbn [emit]. cbn [ret mret M_ret].
  unfold py_item at 2.
  rewrite run_bind. unfold py_item at 1.
  destruct (data !! "result") as [result|]; cbn [lift rbind raise ret];
    [| reflexivity].
  rewrite run_bind.
  destruct (py_iter result) as [e|rows]; cbn [lift rbind raise ret];
    [reflexivity |].
  rewrite run_bind.
  destruct (emit_newer s (tap_stream_id s) (replication_key s) start_date rows
              record_count (mk_World (state w) rs (ticks w)))
    as [[[count|e|] w2] t2]; cbn [fst snd app]; try reflexivity.
  destruct (data !! "nextPageToken") as [token|];
    [| cbn [mret M_ret ret]; now rewrite app_nil_r].
  rewrite run_bind. cbn [modify_state]. rewrite run_bind. cbn [write_state].
  cbn [state remote_state ticks].
  destruct (sync_paginated_loop fuel s start_date _ count _) as [[o w3] t3].
  cbn [fst snd app]. reflexivity.
Qed.

Lemma sync_paginated_loop_tokens (s : stream) (start_date : pyval) (fuel : nat) :
  ∀ params record_count w,
    let r := sync_paginated_loop fuel s start_date params record_count w in
    token_persisted (tap_stream_id s) None r.2
    ∧ ∀ n, r.1.1 = Ok n →
        ∀ rest, token_persisted (tap_stream_id s) None rest →
                token_persisted (tap_stream_id s) None (r.2 ++ rest).
Proof.
  induction fuel as [|fuel IH]; intros params c w.
  - cbn. split; [exact Logic.I | discriminate].
  - cbv zeta. rewrite sync_paginated_loop_step. cbv zeta.
    destruct (request _ _ _ (remote_state w)) as [[e|data] rs].
    { cbn. split; [auto | discriminate]. }
    destruct (rbind (py_item data "result") py_iter) as [e|rows].
    { cbn. split; [auto | discriminate]. }
    pose proof (beside_pages_emit_newer s (tap_stream_id s) (replication_key s)
                  start_date rows c (mk_World (state w) rs (ticks w))) as Hrec.
    destruct (emit_newer s (tap_stream_id s) (replication_key s) start_date
                rows c (mk_World (state w) rs (ticks w)))
      as [[[count|e|] w2] t2]; cbn [fst snd] in *.
    + destruct (data !! "nextPageToken") as [token|] eqn:Htoken.
      * specialize (IH (<["nextPageToken" := token]> params) count
                      (mk_World (write_bookmark (state w2) (tap_stream_id s)
                                   "next_page_token" token)
                                (remote_state w2) (ticks w2))).
        cbv zeta in IH. destruct IH as [IH1 IH2].
        destruct (sync_paginated_loop fuel s start_date _ count _)
          as [[o w3] t3]; cbn [fst snd] in *.
        split.
        -- cbn. split; [reflexivity |]. rewrite Htoken.
           apply token_persisted_beside; [exact Hrec |]. cbn.
           split; [apply get_write_bookmark_eq | exact IH1].
        -- intros n Hn rest Hrest. cbn. split; [reflexivity |]. rewrite Htoken.
           rewrite <- app_assoc. apply token_persisted_beside; [exact Hrec |].
           cbn. split; [apply get_write_bookmark_eq | now apply (IH2 n)].
      * split.
        -- cbn. split; [reflexivity |]. rewrite Htoken.
           now apply token_persisted_beside_only.
        -- intros n Hn rest Hrest. cbn. split; [reflexivity |]. rewrite Htoken.
           now apply token_persisted_beside.
    + split; [| discriminate]. cbn. split; [reflexivity |].
      now apply token_persisted_beside_only.
    + split; [| discriminate]. cbn. split; [reflexivity |].
      now apply token_persisted_beside_only.
Qed.

(** A run of [sync_paginated], from its loop. *)
Lemma sync_paginated_run (fuel : nat) (s : stream) (w : World) :
  let start_date := get_bookmark (state w) (tap_stream_id s) (replication_key s) in
  let params :=
    first_page_params (get_bookmark (state w) (tap_stream_id s) "next_page_token") in
  let now := mk_datetime (clock (ticks w)) 0 in
  let job_started := isoformat now in
  let r := sync_paginated_loop fuel s start_date params 0
             (mk_World (state w) (remote_state w) (S (ticks w))) in
  let schema := WriteSchema (tap_stream_id s) (properties s) (key_properties s) in
  sync_paginated fuel s w =
    match r.1.1 with
    | Ok record_count =>
        let st :=
          write_bookmark
            (write_bookmark (state r.1.2) (tap_stream_id s) "next_page_token" VNone)
            (tap_stream_id s) (replication_key s) (VStr job_started) in
        (Ok record_count, mk_World st (remote_state r.1.2) (ticks r.1.2),
         schema :: JobStarted now :: r.2 ++ [WriteState st])
    | Raise e => (Raise e, r.1.2, schema :: JobStarted now :: r.2)
    | Timeout => (Timeout, r.1.2, schema :: JobStarted now :: r.2)
    end.
Proof.
  cbv zeta. unfold sync_paginated.
  rewrite run_bind. cbn [emit]. rewrite run_get_state_bind. cbv zeta.
  rewrite run_bind. cbn [utcnow]. rewrite run_bind. cbn [emit].
  rewrite run_bind.
  destruct (sync_paginated_loop fuel s _ _ 0 _) as [[[n|e|] w2] t2];
    cbn [fst snd app]; reflexivity.
Qed.

Lemma not_job_started_loop (s : stream) (start_date : pyval) (fuel : nat) :
  ∀ params record_count,
    emits not_job_started
      (sync_paginated_loop fuel s start_date params record_count).
Proof.
  assert (Hrows : ∀ name key rows c,
            emits not_job_started (emit_newer s name key start_date rows c)).
  { intros name key rows. induction rows as [|row rows IH]; intros c;
      cbn [emit_newer]; emits_auto; try exact Logic.I; apply IH. }
  induction fuel as [|fuel IH]; intros params c; cbn [sync_paginated_loop];
    emits_auto; try exact Logic.I; try (intros; exact Logic.I).
  - apply Hrows.
  - apply IH.
Qed.

Lemma requested_app (t1 t2 : list event) :
  requested (t1 ++ t2) = requested t1 ++ requested t2.
Proof. apply omap_app. Qed.

Lemma requested_records (name : string) (recs : list pydict) :
  requested (map (λ r, WriteRecord name (VDict r)) recs) = [].
Proof. induction recs as [|r recs IH]; [reflexivity | exact IH]. Qed.

Lemma sync_paginated_loop_serves (s : stream) (start_date : pyval)
    (rs : remote) (params : pydict) (pages : list pydict) :
  serves s rs params pages →
  Forall (page_readable s start_date) pages →
  ∀ fuel record_count st n,
    (length pages ≤ fuel)%nat →
    let r := sync_paginated_loop fuel s start_date params record_count
               (mk_World st rs n) in
    (∃ count, r.1.1 = Ok count) ∧ requested r.2 = page_params params pages.
Proof.
  induction 1 as [rs params data rs' Hreq Htoken
                 |rs params data rs' token pages Hreq Htoken Hserves IH];
    intros Hpages fuel c st n Hfuel.
  - destruct fuel as [|fuel]; [cbn in Hfuel; lia |].
    cbv zeta. rewrite sync_paginated_loop_step. cbv zeta.
    cbn [remote_state]. rewrite Hreq.
    apply Forall_cons in Hpages as [(result & rows & recs & Hres & Hit & Hrecs) _].
    unfold py_item. rewrite Hres. cbn [rbind]. rewrite Hit.
    rewrite (emit_newer_run s _ _ _ rows recs Hrecs). cbn [fst snd].
    rewrite Htoken. cbn [fst snd]. split; [eauto |].
    cbn [page_params]. rewrite Htoken.
    change (requested (?a :: Received data :: ?t)) with (Some params :: requested t).
    now rewrite requested_records.
  - destruct fuel as [|fuel]; [cbn in Hfuel; lia |].
    cbv zeta. rewrite sync_paginated_loop_step. cbv zeta.
    cbn [remote_state]. rewrite Hreq.
    apply Forall_cons in Hpages as [(result & rows & recs & Hres & Hit & Hrecs) Hrest].
    unfold py_item. rewrite Hres. cbn [rbind]. rewrite Hit.
    rewrite (emit_newer_run s _ _ _ rows recs Hrecs). cbn [fst snd].
    rewrite Htoken. cbn [state remote_state ticks].
    cbn [length] in Hfuel.
    specialize (IH Hrest fuel (c + Z.of_nat (length recs))
                  (write_bookmark st (tap_stream_id s) "next_page_token" token)
                  n ltac:(lia)).
    cbv zeta in IH. destruct IH as [Hok Hreqs].
    destruct (sync_paginated_loop fuel s start_date _ _ _) as [[o w3] t3];
      cbn [fst snd] in *.
    split; [exact Hok |].
    cbn [page_params]. rewrite Htoken.
    change (requested (?a :: Received data :: ?t)) with (Some params :: requested t).
    rewrite requested_app, requested_records. cbn [app].
    change (requested (WriteState ?x :: ?t)) with (requested t).
    now rewrite Hreqs.
Qed.

Lemma last_snoc_state {A} (l : list A) (x : A) : last (l ++ [x]) = Some x.
Proof. apply last_snoc. Qed.

Lemma same_clock_bind {A B} (m : M A) (f : A → M B) :
  (∀ w, ticks (m w).1.2 = ticks w) →
  (∀ a w, ticks (f a w).1.2 = ticks w) →
  ∀ w, ticks ((m ≫= f) w).1.2 = ticks w.
Proof.
  intros Hm Hf w. rewrite run_bind. specialize (Hm w).
  destruct (m w) as [[[a|e|] w1] t1]; cbn [fst snd] in *; try exact Hm.
  specialize (Hf a w1). destruct (f a w1) as [[o w2] t2].
  cbn [fst snd] in *. congruence.
Qed.

Lemma same_clock_lift {A} (r : result A) (w : World) :
  ticks (lift r w).1.2 = ticks w.
Proof. now destruct r. Qed.

Lemma same_clock_client_request endpoint endpoint_name params (w : World) :
  ticks (client_request endpoint endpoint_name params w).1.2 = ticks w.
Proof.
  revert w. unfold client_request. apply same_clock_bind.
  - intros w. unfold client.
    now destruct (request endpoint endpoint_name params (remote_state w))
      as [[e|data] rs].
  - intros data. apply same_clock_bind; reflexivity.
Qed.

Lemma same_clock_emit_newer (s : stream) (name key : string)
    (start_date : pyval) (rows : list pyval) :
  ∀ record_count w,
    ticks (emit_newer s name key start_date rows record_count w).1.2 = ticks w.
Proof.
  induction rows as [|row rows IH]; intros c; cbn [emit_newer];
    [reflexivity |].
  apply same_clock_bind; [apply same_clock_lift | intros record].
  apply same_clock_bind; [apply same_clock_lift | intros v].
  apply same_clock_bind; [apply same_clock_lift | intros [|]].
  - apply same_clock_bind; [reflexivity | intros _; apply IH].
  - apply IH.
Qed.

(** The page loop never reads the clock. *)
Lemma sync_paginated_loop_same_clock (s : stream) (start_date : pyval)
    (fuel : nat) :
  ∀ params record_count w,
    ticks (sync_paginated_loop fuel s start_date params record_count w).1.2
    = ticks w.
Proof.
  induction fuel as [|fuel IH]; intros params c; cbn [sync_paginated_loop];
    [reflexivity |].
  apply same_clock_bind; [apply same_clock_client_request | intros data].
  apply same_clock_bind; [apply same_clock_lift | intros result].
  apply same_clock_bind; [apply same_clock_lift | intros rows].
  apply same_clock_bind; [apply same_clock_emit_newer | intros c'].
  destruct (data !! "nextPageToken") as [token|]; [| reflexivity].
  apply same_clock_bind; [reflexivity | intros _].
  apply same_clock_bind; [reflexivity | intros _]. apply IH.
Qed.

(** C5.  In the token-paginated sync the first request carries the
    persisted [next_page_token] when there is one.  In every run the clock
    is read once, right after the schema is written and before any
    request; and every token a response carries is written to the
    [next_page_token] bookmark, and that state is written out, before the
    next page is requested.  When the pages the client serves end with a
    response without a token (and their rows can be read), the run requests
    exactly those pages, returns, and leaves the token [None] and the
    replication cursor at the time read before the first request. *)
Theorem sync_paginated_tokens (s : stream) :
  (∀ token,
     (truthy token = true →
      first_page_params token
        = <["nextPageToken" := token]> {[ "batchSize" := VInt 300 ]})
     ∧ (truthy token = false →
        first_page_params token = {[ "batchSize" := VInt 300 ]}))
  ∧ (∀ fuel w,
       token_persisted (tap_stream_id s) None (sync_paginated fuel s w).2
       ∧ ∃ rest,
           (sync_paginated fuel s w).2
           = WriteSchema (tap_stream_id s) (properties s) (key_properties s)
             :: JobStarted (mk_datetime (clock (ticks w)) 0) :: rest
           ∧ Forall not_job_started rest
           ∧ requested (sync_paginated fuel s w).2 = requested rest
           ∧ ticks (sync_paginated fuel s w).1.2 = S (ticks w))
  ∧ (∀ (fuel : nat) (w : World) pages,
       replication_key s ≠ "next_page_token" →
       let start_date :=
         get_bookmark (state w) (tap_stream_id s) (replication_key s) in
       let params :=
         first_page_params
           (get_bookmark (state w) (tap_stream_id s) "next_page_token") in
       serves s (remote_state w) params pages →
       Forall (page_readable s start_date) pages →
       (length pages ≤ fuel)%nat →
       let r := sync_paginated fuel s w in
       (∃ record_count, r.1.1 = Ok record_count)
       ∧ requested r.2 = page_params params pages
       ∧ get_bookmark (state r.1.2) (tap_stream_id s) "next_page_token" = VNone
       ∧ (∃ now rest,
            r.2 = WriteSchema (tap_stream_id s) (properties s) (key_properties s)
                  :: JobStarted now :: rest
            ∧ requested rest = page_params params pages
            ∧ get_bookmark (state r.1.2) (tap_stream_id s) (replication_key s)
              = VStr (isoformat now))
       ∧ get_bookmark (state r.1.2) (tap_stream_id s) (replication_key s)
         = VStr (isoformat (mk_datetime (clock (ticks w)) 0))
       ∧ last r.2 = Some (WriteState (state r.1.2))).
Proof.
  split; [| split].
  - intros token. unfold first_page_params.
    split; intros ->; reflexivity.
  - intros fuel w.
    pose proof (sync_paginated_run fuel s w) as Hrun. cbv zeta in Hrun.
    rewrite Hrun. clear Hrun.
    match goal with
    | |- context [sync_paginated_loop fuel s ?d ?p 0 ?w'] =>
        pose proof (sync_paginated_loop_tokens s d fuel p 0 w') as Hloop;
        pose proof (not_job_started_loop s d fuel p 0 w') as Hquiet;
        pose proof (sync_paginated_loop_same_clock s d fuel p 0 w') as Hclock;
        cbv zeta in Hloop;
        destruct (sync_paginated_loop fuel s d p 0 w') as [[[n|e|] w2] t2]
    end; cbn [fst snd ticks] in *; destruct Hloop as [H1 H2].
    + split; [cbn; apply (H2 n eq_refl); cbn; auto |].
      eexists. split; [reflexivity |]. split; [| now split].
      apply Forall_app. split; [exact Hquiet | repeat constructor].
    + split; [exact H1 |]. eexists. split; [reflexivity |]. now repeat split.
    + split; [exact H1 |]. eexists. split; [reflexivity |]. now repeat split.
  - intros fuel w pages Hkey start_date params Hserves Hread Hfuel r.
    subst r. pose proof (sync_paginated_run fuel s w) as Hrun.
    cbv zeta in Hrun. rewrite Hrun. clear Hrun.
    fold start_date. fold params.
    pose proof (sync_paginated_loop_serves s start_date (remote_state w) params
                  pages Hserves Hread fuel 0 (state w) (S (ticks w)) Hfuel)
      as Hloop.
    cbv zeta in Hloop. destruct Hloop as [[n Hok] Hreq].
    destruct (sync_paginated_loop fuel s start_date params 0 _)
      as [[o w2] t2]; cbn [fst snd] in *. subst o. cbn [fst snd state].
    assert (Hrest : requested (t2 ++ [WriteState
                      (write_bookmark
                         (write_bookmark (state w2) (tap_stream_id s)
                            "next_page_token" VNone)
                         (tap_stream_id s) (replication_key s)
                         (VStr (isoformat (mk_datetime (clock (ticks w)) 0))))])
                    = page_params params pages).
    { rewrite requested_app, Hreq. cbn. apply app_nil_r. }
    split; [eauto |]. split; [exact Hrest |].
    split.
    { rewrite get_write_bookmark_ne by (right; congruence).
      apply get_write_bookmark_eq. }
    split.
    { eexists _, _. split; [reflexivity |]. split; [exact Hrest |].
      apply get_write_bookmark_eq. }
    split; [apply get_write_bookmark_eq |].
    rewrite !app_comm_cons. apply last_snoc.
Qed.

End Paginated.

(** C5 at a run that resumes with the persisted token "t1": it reads the
    clock, requests the last page with that token, and ends with the token
    cleared and the cursor at the time read, 11 January. *)
Lemma sync_paginated_tokens_witness :
  let r := sync_paginated (RT := Reference.runtime)
             (EV := Scenario.env Scenario.two_pages) 3 Scenario.campaigns
             (Scenario.start Scenario.two_pages
                (Scenario.campaigns_state "2020-01-01T00:00:00+00:00"
                   (Some "t1"))) in
  (∃ record_count, r.1.1 = Ok record_count)
  ∧ requested r.2
    = [Some (<["nextPageToken" := VStr "t1"]> {[ "batchSize" := VInt 300 ]})]
  ∧ get_bookmark (state r.1.2) "campaigns" "next_page_token" = VNone
  ∧ (∃ now rest,
       r.2 = WriteSchema "campaigns" (properties Scenario.campaigns) ["id"]
             :: JobStarted now :: rest
       ∧ requested rest
         = [Some (<["nextPageToken" := VStr "t1"]>
                    {[ "batchSize" := VInt 300 ]})]
       ∧ get_bookmark (state r.1.2) "campaigns" "updatedAt"
         = VStr (isoformat (Runtime := Reference.runtime) now))
  ∧ get_bookmark (state r.1.2) "campaigns" "updatedAt"
    = VStr "2020-01-11T00:00:00+00:00".
Proof.
  intros r.
  destruct (sync_paginated_tokens (RT := Reference.runtime)
              (EV := Scenario.env Scenario.two_pages) Scenario.campaigns)
    as (_ & _ & Htotal).
  assert (Hkey : replication_key Scenario.campaigns ≠ "next_page_token")
    by discriminate.
  destruct (Htotal 3%nat
              (Scenario.start Scenario.two_pages
                 (Scenario.campaigns_state "2020-01-01T00:00:00+00:00"
                    (Some "t1")))
              [Scenario.last_page] Hkey)
    as (Hok & Hreq & Htoken & (now & rest & Htrace & Hrest & Hnow) & Hcursor & _).
  - apply (serves_last (EV := Scenario.env Scenario.two_pages)
             Scenario.campaigns _ _ Scenario.last_page ([] : list string));
      run_eq.
  - constructor; [| constructor].
    exists (VList [Scenario.campaign 3 "2020-01-03T00:00:00Z"]),
           [Scenario.campaign 3 "2020-01-03T00:00:00Z"],
           [{[ "id" := VInt 3;
               "updatedAt" := VStr "2020-01-03T00:00:00+00:00" ]}].
    split; [run_eq |]. split; [reflexivity | run_eq].
  - cbn. lia.
  - split; [exact Hok |]. split; [etransitivity; [exact Hreq | run_eq] |].
    split; [exact Htoken |].
    split; [| etransitivity; [exact Hcursor | run_eq]].
    exists now, rest. split; [exact Htrace |].
    split; [etransitivity; [exact Hrest | run_eq] | exact Hnow].
Defined.

(** * Further properties of the engine *)

(** ** Records made of rows *)

Section RecordFields.
Context `{RT : Runtime}.

Lemma elem_of_wanted (properties : list (string * pydict)) (field : string) :
  field ∈ map fst (filter (λ p, Is_true (field_wanted p.2)) properties)
  ↔ ∃ schema, (field, schema) ∈ properties ∧ field_wanted schema = true.
Proof.
  induction properties as [|[f sch] rest IH].
  - split; [intros H; inversion H | intros (? & H & _); inversion H].
  - rewrite filter_cons. cbn [snd].
    destruct (decide (Is_true (field_wanted sch))) as [Hw|Hw].
    + cbn [map fst]. rewrite elem_of_cons, IH. split.
      * intros [->|(schema & Hin & Hs)].
        -- exists sch. split; [left | now apply Is_true_true].
        -- exists schema. split; [now right | exact Hs].
      * intros (schema & Hin & Hs). apply elem_of_cons in Hin as [Heq|Hin].
        -- injection Heq as -> ->. now left.
        -- right. now exists schema.
    + rewrite IH. split.
      * intros (schema & Hin & Hs). exists schema. split; [now right | exact Hs].
      * intros (schema & Hin & Hs). apply elem_of_cons in Hin as [Heq|Hin].
        -- injection Heq as -> ->. destruct Hw. now apply Is_true_true.
        -- now exists schema.
Qed.

Lemma format_fields_keys (properties : list (string * pydict)) (row : pydict) :
  ∀ acc rtn, format_fields properties row acc = inr rtn →
    ∀ field, is_Some (rtn !! field)
             ↔ is_Some (acc !! field)
               ∨ field ∈ map fst (filter (λ p, Is_true (field_wanted p.2)) properties).
Proof.
  induction properties as [|[f sch] rest IH]; intros acc rtn H field;
    cbn [format_fields] in H.
  - injection H as <-. split; [now left | intros [H|H]; [exact H | inversion H]].
  - rewrite filter_cons. cbn [snd].
    destruct (field_wanted sch) eqn:Hw; cbn [negb] in H.
    + destruct (format_value (py_get row f) sch) as [e|v]; [discriminate |].
      cbn [rbind] in H. rewrite (IH _ _ H field).
      rewrite decide_True by exact Logic.I. cbn [map fst].
      rewrite lookup_insert_is_Some', elem_of_cons.
      split; [intros [[->|?]|?] | intros [?|[->|?]]]; auto.
    + rewrite decide_False by (intros []). now apply IH.
Qed.

Lemma format_fields_frame (properties : list (string * pydict)) (row : pydict) :
  ∀ acc rtn, format_fields properties row acc = inr rtn →
    ∀ field, field ∉ properties.*1 → rtn !! field = acc !! field.
Proof.
  induction properties as [|[f sch] rest IH]; intros acc rtn H field Hnot;
    cbn [format_fields] in H.
  - now injection H as <-.
  - cbn in Hnot. apply not_elem_of_cons in Hnot as [Hne Hnot].
    destruct (field_wanted sch); cbn [negb] in H.
    + destruct (format_value (py_get row f) sch) as [e|v]; [discriminate |].
      cbn [rbind] in H. rewrite (IH _ _ H field Hnot).
      now apply lookup_insert_ne.
    + now apply IH.
Qed.

Lemma format_fields_values (properties : list (string * pydict)) (row : pydict) :
  NoDup properties.*1 →
  ∀ acc rtn, format_fields properties row acc = inr rtn →
    ∀ field schema, (field, schema) ∈ properties → field_wanted schema = true →
      ∃ v, rtn !! field = Some v
           ∧ format_value (py_get row field) schema = inr v.
Proof.
  induction properties as [|[f sch] rest IH]; intros Hnd acc rtn H field schema
    Hin Hw; [inversion Hin |].
  cbn in Hnd. apply NoDup_cons in Hnd as [Hf Hnd]. cbn [format_fields] in H.
  apply elem_of_cons in Hin as [Heq|Hin].
  - injection Heq as -> ->. rewrite Hw in H. cbn [negb] in H.
    destruct (format_value (py_get row f) sch) as [e|v]; [discriminate |].
    cbn [rbind] in H. exists v. split; [| reflexivity].
    rewrite (format_fields_frame _ _ _ _ H f Hf). apply lookup_insert_eq.
  - destruct (field_wanted sch); cbn [negb] in H.
    + destruct (format_value (py_get row f) sch) as [e|v]; [discriminate |].
      cbn [rbind] in H. exact (IH Hnd _ _ H field schema Hin Hw).
    + exact (IH Hnd _ _ H field schema Hin Hw).
Qed.

Lemma format_fields_returns (properties : list (string * pydict)) (row : pydict) :
  ∀ acc,
    (∃ rtn, format_fields properties row acc = inr rtn)
    ↔ ∀ field schema, (field, schema) ∈ properties → field_wanted schema = true →
        ∃ v, format_value (py_get row field) schema = inr v.
Proof.
  induction properties as [|[f sch] rest IH]; intros acc; cbn [format_fields].
  - split; [intros _ ? ? H; inversion H | intros _; now exists acc].
  - destruct (field_wanted sch) eqn:Hw; cbn [negb].
    + destruct (format_value (py_get row f) sch) as [e|v] eqn:Hv; cbn [rbind].
      * split; [intros [? ?]; discriminate |].
        intros H. destruct (H f sch) as [v Hv']; [left | exact Hw | congruence].
      * rewrite IH. split.
        -- intros H field schema Hin Hs. apply elem_of_cons in Hin as [Heq|Hin].
           ++ injection Heq as -> ->. now exists v.
           ++ now apply H.
        -- intros H field schema Hin Hs. apply H; [now right | exact Hs].
    + rewrite IH. split.
      * intros H field schema Hin Hs. apply elem_of_cons in Hin as [Heq|Hin].
        -- injection Heq as -> ->. congruence.
        -- now apply H.
      * intros H field schema Hin Hs. apply H; [now right | exact Hs].
Qed.

Lemma format_fields_raises (properties : list (string * pydict)) (row : pydict) :
  ∀ acc e, format_fields properties row acc = inl e →
    ∃ field schema, (field, schema) ∈ properties ∧ field_wanted schema = true
                    ∧ format_value (py_get row field) schema = inl e.
Proof.
  induction properties as [|[f sch] rest IH]; intros acc e H;
    cbn [format_fields] in H; [discriminate |].
  destruct (field_wanted sch) eqn:Hw; cbn [negb] in H.
  - destruct (format_value (py_get row f) sch) as [e'|v] eqn:Hv; cbn [rbind] in H.
    + injection H as <-. exists f, sch. split; [left | now split].
    + destruct (IH _ _ H) as (field & schema & Hin & Hs & He).
      exists field, schema. split; [now right | now split].
  - destruct (IH _ _ H) as (field & schema & Hin & Hs & He).
    exists field, schema. split; [now right | now split].
Qed.

(** X1.  The record [format_values] makes of a row has exactly the fields
    that are selected or included automatically, which are the fields an
    export of leads is created with: a field of the row that is not wanted
    is dropped, and a wanted field the row lacks is there all the same. *)
Theorem format_values_fields (s : stream) (row rtn : pydict) :
  format_values s (VDict row) = inr rtn →
  ∀ field, is_Some (rtn !! field) ↔ field ∈ wanted_fields s.
Proof.
  intros H field. unfold format_values in H. unfold wanted_fields.
  rewrite (format_fields_keys _ _ _ _ H field), lookup_empty.
  split; [intros [[? ?]|?]; [discriminate | assumption] | now right].
Qed.

(** X2.  Every field of the record is the formatted value of the row's
    cell of that name, under the field's own schema; the cell of a field the
    row lacks reads as [None], and its value in the record is [None]. *)
Theorem format_values_value (s : stream) (row rtn : pydict)
    (field : string) (schema : pydict) :
  NoDup (properties s).*1 →
  format_values s (VDict row) = inr rtn →
  (field, schema) ∈ properties s →
  field_wanted schema = true →
  ∃ v, rtn !! field = Some v
       ∧ format_value (py_get row field) schema = inr v
       ∧ (row !! field = None → v = VNone).
Proof.
  intros Hnd H Hin Hw. unfold format_values in H.
  destruct (format_fields_values _ _ Hnd _ _ H field schema Hin Hw)
    as (v & Hv & Hf).
  exists v. split; [exact Hv |]. split; [exact Hf |].
  intros Hnone. unfold py_get in Hf. rewrite Hnone in Hf. cbn [default] in Hf.
  unfold format_value in Hf.
  destruct (py_item schema "type") as [e|ty]; [discriminate |].
  cbn in Hf. congruence.
Qed.

(** X3.  [format_values] returns a record exactly when every wanted field
    of the row can be formatted: a bad cell under a field that is not wanted
    does no harm.  When it raises, the exception is that of a wanted field. *)
Theorem format_values_returns (s : stream) (row : pydict) :
  ((∃ rtn, format_values s (VDict row) = inr rtn)
   ↔ ∀ field schema, (field, schema) ∈ properties s →
       field_wanted schema = true →
       ∃ v, format_value (py_get row field) schema = inr v)
  ∧ ∀ e, format_values s (VDict row) = inl e →
      ∃ field schema, (field, schema) ∈ properties s
                      ∧ field_wanted schema = true
                      ∧ format_value (py_get row field) schema = inl e.
Proof.
  split; [apply format_fields_returns | apply format_fields_raises].
Qed.

End RecordFields.

(** X1 at a lead with an e-mail address and no [updatedAt]: the address is
    not wanted and is dropped. *)
Lemma format_values_fields_witness :
  is_Some (({[ "id" := VInt 7; "updatedAt" := VNone ]} : pydict) !! "email")
  ↔ "email" ∈ wanted_fields Scenario.leads.
Proof.
  apply (format_values_fields (RT := Reference.runtime) Scenario.leads
           {[ "id" := VStr "7"; "email" := VStr "a@b.c" ]}
           {[ "id" := VInt 7; "updatedAt" := VNone ]}).
  run_eq.
Defined.

(** X2 at the same lead: [updatedAt], which the row lacks, is [None]. *)
Lemma format_values_value_witness :
  ∃ v, ({[ "id" := VInt 7; "updatedAt" := VNone ]} : pydict) !! "updatedAt"
       = Some v
       ∧ format_value (RT := Reference.runtime)
           (py_get {[ "id" := VStr "7"; "email" := VStr "a@b.c" ]} "updatedAt")
           {[ "type" := VList [VStr "null"; VStr "string"];
              "format" := VStr "date-time";
              "inclusion" := VStr "automatic" ]}
         = inr v
       ∧ ((({[ "id" := VStr "7"; "email" := VStr "a@b.c" ]} : pydict)
             !! "updatedAt" = None) → v = VNone).
Proof.
  apply (format_values_value (RT := Reference.runtime) Scenario.leads
           {[ "id" := VStr "7"; "email" := VStr "a@b.c" ]}
           {[ "id" := VInt 7; "updatedAt" := VNone ]}).
  - apply (bool_decide_unpack _). vm_compute. exact Logic.I.
  - run_eq.
  - apply list_elem_of_In. right. left. reflexivity.
  - vm_compute. reflexivity.
Defined.


(** ** Dictionaries built by successive assignment *)

Section Assignments.
Context {A : Type} (key : A → string) (val : A → pyval).

Lemma foldl_assign_keys (l : list A) :
  ∀ (acc : pydict) h,
    is_Some (foldl (λ d a, <[key a := val a]> d) acc l !! h)
    ↔ is_Some (acc !! h) ∨ h ∈ key <$> l.
Proof.
  induction l as [|a l IH]; intros acc h; cbn [foldl].
  - split; [now left | intros [H|H]; [exact H | inversion H]].
  - rewrite IH, lookup_insert_is_Some'. cbn. rewrite elem_of_cons.
    split; [intros [[->|?]|?] | intros [?|[->|?]]]; auto.
Qed.

Lemma foldl_assign_frame (l : list A) :
  ∀ (acc : pydict) h,
    (∀ a, a ∈ l → key a ≠ h) →
    foldl (λ d a, <[key a := val a]> d) acc l !! h = acc !! h.
Proof.
  induction l as [|a l IH]; intros acc h Hl; cbn [foldl]; [reflexivity |].
  rewrite IH by (intros b Hb; apply Hl; now right).
  apply lookup_insert_ne, Hl. now left.
Qed.

Lemma foldl_assign_last (l : list A) (acc : pydict) (i : nat) (a : A) :
  l !! i = Some a →
  (∀ j b, (i < j)%nat → l !! j = Some b → key b ≠ key a) →
  foldl (λ d a, <[key a := val a]> d) acc l !! key a = Some (val a).
Proof.
  intros Hi Hlast.
  rewrite <- (take_drop_middle _ _ _ Hi), foldl_app. cbn [foldl].
  rewrite foldl_assign_frame; [apply lookup_insert_eq |].
  intros b Hb. apply list_elem_of_lookup in Hb as [k Hk].
  rewrite lookup_drop in Hk. apply (Hlast (S i + k)%nat); [lia | exact Hk].
Qed.

End Assignments.

(** ** Rows of an export file *)

Section Rows.

Lemma fst_zip_take (headers line : list string) :
  (zip headers line).*1 = take (length line) headers.
Proof.
  revert line. induction headers as [|h headers IH]; intros [|c line];
    cbn; try reflexivity.
  now rewrite <- IH.
Qed.

(** X4.  In the row [stream_rows] makes of a line, the value under a
    header is the cell at the position of that header; when the header is
    repeated, it is the cell at its last position within the line.  With
    headers that are all different every cell is found under its header. *)
Theorem dict_of_zip_cell (headers line : list string) (i : nat) (h c : string) :
  headers !! i = Some h →
  line !! i = Some c →
  (∀ j, (i < j)%nat → (j < length line)%nat → headers !! j ≠ Some h) →
  dict_of_zip headers line !! h = Some (VStr c).
Proof.
  intros Hh Hc Hlast.
  assert (Hi : zip headers line !! i = Some (h, c)).
  { apply lookup_zip_with_Some. now exists h, c. }
  apply (foldl_assign_last fst (λ kv, VStr kv.2) _ ∅ i (h, c) Hi).
  intros j [h' c'] Hj Hk Heq. cbn [fst] in Heq. subst h'.
  apply lookup_zip_with_Some in Hk as (h'' & c'' & Heq & Hh' & Hc').
  injection Heq as <- <-.
  apply (Hlast j Hj); [| exact Hh']. now apply lookup_lt_Some in Hc'.
Qed.

(** X5.  The keys of a row are the headers that have a cell: a line
    shorter than the header line leaves the trailing columns out of the row
    (they read as [None] downstream), and the cells of a longer line beyond
    the last header are dropped. *)
Theorem dict_of_zip_keys (headers line : list string) (h : string) :
  is_Some (dict_of_zip headers line !! h) ↔ h ∈ take (length line) headers.
Proof.
  pose proof (foldl_assign_keys fst (λ kv : string * string, VStr kv.2)
                (zip headers line) ∅ h) as H.
  rewrite fst_zip_take, lookup_empty in H. unfold dict_of_zip. rewrite H.
  split; [intros [[? ?]|?]; [discriminate | assumption] | now right].
Qed.

End Rows.

(** X4 at a file whose header line repeats [id]: the row reads the last
    cell. *)
Lemma dict_of_zip_cell_witness :
  dict_of_zip ["id"; "updatedAt"; "id"] ["7"; "2020-01-05T12:00:00Z"; "8"] !! "id"
  = Some (VStr "8").
Proof.
  apply (dict_of_zip_cell ["id"; "updatedAt"; "id"]
           ["7"; "2020-01-05T12:00:00Z"; "8"] 2 "id" "8");
    [reflexivity | reflexivity |].
  intros j Hj Hlen. cbn [length] in Hlen. lia.
Defined.

(** ** Flattened activities *)

Section Flatten.
Context `{RT : Runtime}.

Lemma copy_fields_missing (fields : list string) (row : pydict) :
  ∀ acc field, field ∈ fields → row !! field = None →
    ∃ f, copy_fields fields row acc = inl (KeyError f)
         ∧ f ∈ fields ∧ row !! f = None.
Proof.
  induction fields as [|f rest IH]; intros acc field Hin Hnone;
    [inversion Hin |].
  cbn [copy_fields]. unfold py_item at 1.
  destruct (row !! f) as [v|] eqn:Hf.
  - cbn [rbind]. apply elem_of_cons in Hin as [->|Hin]; [congruence |].
    destruct (IH (<[f := v]> acc) field Hin Hnone) as (f' & H1 & H2 & H3).
    exists f'. split; [exact H1 |]. split; [now right | exact H3].
  - exists f. split; [reflexivity |]. split; [now left | exact Hf].
Qed.

Lemma copy_fields_lookup (fields : list string) (row : pydict) :
  ∀ acc rtn, copy_fields fields row acc = inr rtn →
    ∀ k, rtn !! k = if decide (k ∈ fields) then row !! k else acc !! k.
Proof.
  induction fields as [|f rest IH]; intros acc rtn H k; cbn [copy_fields] in H.
  - injection H as <-. rewrite decide_False; [reflexivity | apply not_elem_of_nil].
  - unfold py_item in H. destruct (row !! f) as [v|] eqn:Hf; [| discriminate].
    cbn [rbind] in H. rewrite (IH _ _ H k).
    destruct (decide (k ∈ rest)) as [Hr|Hr].
    + rewrite decide_True by now right. reflexivity.
    + destruct (decide (k = f)) as [->|Hne].
      * rewrite decide_True by now left. now rewrite lookup_insert_eq.
      * rewrite decide_False by (intros [?|?]%elem_of_cons; contradiction).
        now apply lookup_insert_ne.
Qed.

(** What [flatten_activity] computes, step by step. *)
Lemma flatten_activity_inv (row : pydict) (s : stream) (rtn : pydict) :
  flatten_activity row s = inr rtn →
  ∃ base fixed attrs,
    copy_fields BASE_ACTIVITY_FIELDS row ∅ = inr base
    ∧ (if truthy (primary_attribute_name s)
       then ∃ v vid,
              row !! "primaryAttributeValue" = Some v
              ∧ row !! "primaryAttributeValueId" = Some vid
              ∧ fixed = <["primary_attribute_value_id" := vid]>
                          (<["primary_attribute_value" := v]>
                             (<["primary_attribute_name"
                                := primary_attribute_name s]> base))
       else fixed = base)
    ∧ attributes_of row = inr attrs
    ∧ rtn = foldl (λ r kv, <[attribute_key kv.1 := kv.2]> r) fixed attrs.
Proof.
  unfold flatten_activity, attributes_of. intros H.
  destruct (copy_fields BASE_ACTIVITY_FIELDS row ∅) as [e|base]; [discriminate |].
  cbn [rbind] in H. exists base.
  destruct (truthy (primary_attribute_name s)).
  - unfold py_item in H.
    destruct (row !! "primaryAttributeValue") as [v|]; [| discriminate].
    cbn [rbind] in H.
    destruct (row !! "primaryAttributeValueId") as [vid|]; [| discriminate].
    cbn [rbind] in H.
    destruct (row !! "attributes") as [a|].
    + destruct (json_loads a) as [e|attrs]; [discriminate |].
      cbn [rbind] in H. injection H as <-.
      eexists _, attrs. split; [reflexivity |].
      split; [exists v, vid; auto |]. split; reflexivity.
    + injection H as <-. eexists _, []. split; [reflexivity |].
      split; [exists v, vid; auto |]. split; reflexivity.
  - cbn [rbind] in H. destruct (row !! "attributes") as [a|].
    + destruct (json_loads a) as [e|attrs]; [discriminate |].
      cbn [rbind] in H. injection H as <-.
      exists base, attrs. repeat split; reflexivity.
    + injection H as <-. exists base, []. repeat split; reflexivity.
Qed.

(** X6.  [flatten_activity] needs the four base fields in the row: when
    one is missing it raises [KeyError] for a base field the row lacks.  It
    needs the two primary attribute cells only when the stream's metadata
    names a primary attribute. *)
Theorem flatten_activity_key_errors (row : pydict) (s : stream) :
  (∀ field, field ∈ BASE_ACTIVITY_FIELDS → row !! field = None →
     ∃ f, flatten_activity row s = inl (KeyError f)
          ∧ f ∈ BASE_ACTIVITY_FIELDS ∧ row !! f = None)
  ∧ (∀ base, copy_fields BASE_ACTIVITY_FIELDS row ∅ = inr base →
       truthy (primary_attribute_name s) = true →
       row !! "primaryAttributeValue" = None →
       flatten_activity row s = inl (KeyError "primaryAttributeValue"))
  ∧ (∀ base, copy_fields BASE_ACTIVITY_FIELDS row ∅ = inr base →
       truthy (primary_attribute_name s) = false →
       row !! "attributes" = None →
       flatten_activity row s = inr base).
Proof.
  split; [| split].
  - intros field Hin Hnone.
    destruct (copy_fields_missing _ row ∅ field Hin Hnone) as (f & H1 & H2 & H3).
    exists f. unfold flatten_activity. rewrite H1. now split.
  - intros base Hbase Hpan Hnone. unfold flatten_activity.
    rewrite Hbase, Hpan. cbn [rbind]. unfold py_item at 1. now rewrite Hnone.
  - intros base Hbase Hpan Hnone. unfold flatten_activity.
    rewrite Hbase, Hpan. cbn [rbind]. now rewrite Hnone.
Qed.

(** X7.  The keys of a flattened activity are the four base fields, the
    three primary attribute keys when the stream names a primary attribute,
    and the keys of the attributes.  Under a key that no attribute is filed
    under, a base field holds the row's cell and the primary attribute keys
    hold the name from the metadata and the row's two cells. *)
Theorem flatten_activity_fields (row : pydict) (s : stream) (rtn : pydict)
    (attrs : list (string * pyval)) :
  flatten_activity row s = inr rtn →
  attributes_of row = inr attrs →
  (∀ k, is_Some (rtn !! k)
        ↔ k ∈ BASE_ACTIVITY_FIELDS
          ∨ (truthy (primary_attribute_name s) = true
             ∧ k ∈ PRIMARY_ATTRIBUTE_KEYS)
          ∨ k ∈ attribute_key <$> attrs.*1)
  ∧ (∀ k, k ∉ attribute_key <$> attrs.*1 →
       (k ∈ BASE_ACTIVITY_FIELDS → rtn !! k = row !! k)
       ∧ (truthy (primary_attribute_name s) = true →
          (k = "primary_attribute_name" →
           rtn !! k = Some (primary_attribute_name s))
          ∧ (k = "primary_attribute_value" →
             rtn !! k = row !! "primaryAttributeValue")
          ∧ (k = "primary_attribute_value_id" →
             rtn !! k = row !! "primaryAttributeValueId"))).
Proof.
  intros H Hattrs.
  destruct (flatten_activity_inv _ _ _ H)
    as (base & fixed & attrs' & Hbase & Hfixed & Hattrs' & ->).
  rewrite Hattrs in Hattrs'. injection Hattrs' as <-.
  pose proof (copy_fields_lookup _ _ _ _ Hbase) as Hb.
  assert (Hkeys : ∀ k, is_Some (base !! k) ↔ k ∈ BASE_ACTIVITY_FIELDS).
  { intros k. rewrite Hb.
    destruct (decide (k ∈ BASE_ACTIVITY_FIELDS)) as [Hin|Hin].
    - split; [auto | intros _].
      destruct (row !! k) as [v|] eqn:Hk; [eauto |].
      destruct (copy_fields_missing _ row ∅ k Hin Hk) as (f & Hf & _).
      congruence.
    - rewrite lookup_empty. split; [intros [? ?]; discriminate | contradiction]. }
  assert (Hmap : attribute_key <$> attrs.*1
                 = (λ kv : string * pyval, attribute_key kv.1) <$> attrs).
  { now rewrite <- list_fmap_compose. }
  split.
  - intros k.
    rewrite (foldl_assign_keys (λ kv : string * pyval, attribute_key kv.1) snd).
    rewrite Hmap.
    destruct (truthy (primary_attribute_name s)).
    + destruct Hfixed as (v & vid & _ & _ & ->).
      rewrite !lookup_insert_is_Some', Hkeys. unfold PRIMARY_ATTRIBUTE_KEYS.
      rewrite !elem_of_cons, elem_of_nil. intuition.
    + subst fixed. rewrite Hkeys. intuition. discriminate.
  - intros k Hk. rewrite Hmap in Hk.
    rewrite (foldl_assign_frame (λ kv : string * pyval, attribute_key kv.1) snd);
      [| intros a Ha Heq; apply Hk; rewrite <- Heq;
         now apply (list_elem_of_fmap_2
                      (λ kv : string * pyval, attribute_key kv.1))].
    split.
    + intros Hin.
      assert (Hbk : base !! k = row !! k).
      { rewrite Hb. now rewrite decide_True. }
      destruct (truthy (primary_attribute_name s)).
      * destruct Hfixed as (v & vid & _ & _ & ->).
        unfold BASE_ACTIVITY_FIELDS in Hin.
        rewrite !elem_of_cons, elem_of_nil in Hin.
        rewrite !lookup_insert_ne; [exact Hbk | ..];
          intros <-; intuition discriminate.
      * now subst fixed.
    + intros Hpan. rewrite Hpan in Hfixed.
      destruct Hfixed as (v & vid & Hv & Hvid & ->).
      split; [| split]; intros ->.
      * rewrite !lookup_insert_ne by discriminate. apply lookup_insert_eq.
      * rewrite lookup_insert_ne by discriminate. rewrite lookup_insert_eq.
        now rewrite Hv.
      * rewrite lookup_insert_eq. now rewrite Hvid.
Qed.

(** X8.  An attribute is filed under its name in lower case with every
    space replaced by an underscore, and the last attribute filed under a
    key is the one the record holds: attributes are assigned after the base
    fields and the primary attribute, so an attribute filed under one of
    their keys replaces what was there. *)
Theorem flatten_activity_attributes (row : pydict) (s : stream) (rtn : pydict)
    (attrs : list (string * pyval)) (i : nat) (key : string) (value : pyval) :
  flatten_activity row s = inr rtn →
  attributes_of row = inr attrs →
  attrs !! i = Some (key, value) →
  (∀ j kv, (i < j)%nat → attrs !! j = Some kv →
     attribute_key kv.1 ≠ attribute_key key) →
  rtn !! attribute_key key = Some value.
Proof.
  intros H Hattrs Hi Hlast.
  destruct (flatten_activity_inv _ _ _ H)
    as (base & fixed & attrs' & _ & _ & Hattrs' & ->).
  rewrite Hattrs in Hattrs'. injection Hattrs' as <-.
  exact (foldl_assign_last (λ kv : string * pyval, attribute_key kv.1) snd
           attrs fixed i (key, value) Hi Hlast).
Qed.

Lemma replace_spaces_chars (s : string) :
  String.length (replace_spaces s) = String.length s
  ∧ ∀ n, String.get n (replace_spaces s) ≠ Some " "%char.
Proof.
  induction s as [|c s [IHl IHc]]; cbn [replace_spaces String.length].
  - split; [reflexivity | intros n; destruct n; discriminate].
  - split; [now rewrite IHl |]. intros [|n]; cbn [String.get]; [| apply IHc].
    destruct (Ascii.eqb c " ") eqn:Hc; [discriminate |].
    apply Ascii.eqb_neq in Hc. congruence.
Qed.

(** X9.  The key an attribute is filed under has no space in it, and is
    as long as the attribute's name in lower case. *)
Theorem attribute_key_no_space (key : string) :
  String.length (attribute_key key) = String.length (str_lower key)
  ∧ ∀ n, String.get n (attribute_key key) ≠ Some " "%char.
Proof. apply replace_spaces_chars. Qed.

End Flatten.

(** X6 at a page visit whose row has no [leadId]. *)
Lemma flatten_activity_key_errors_witness :
  ∃ f, flatten_activity (RT := Reference.runtime)
         {[ "marketoGUID" := VStr "1"; "activityDate" := VStr "2020-01-03";
            "activityTypeId" := VStr "1" ]} Scenario.visits
       = inl (KeyError f)
       ∧ f ∈ BASE_ACTIVITY_FIELDS
       ∧ ({[ "marketoGUID" := VStr "1"; "activityDate" := VStr "2020-01-03";
             "activityTypeId" := VStr "1" ]} : pydict) !! f = None.
Proof.
  apply (proj1 (flatten_activity_key_errors (RT := Reference.runtime)
                  {[ "marketoGUID" := VStr "1";
                     "activityDate" := VStr "2020-01-03";
                     "activityTypeId" := VStr "1" ]} Scenario.visits)
           "leadId").
  - apply list_elem_of_In. right. left. reflexivity.
  - vm_compute. reflexivity.
Defined.

(** X7 at the page visit of 3 January, which has no attribute: the lead
    is the row's. *)
Lemma flatten_activity_fields_witness :
  let row : pydict := dict_of_zip Scenario.activity_header
                        ["1"; "42"; "2020-01-03T00:00:00Z"; "1"; "9"; "home"; "{}"] in
  let rtn : pydict :=
    {[ "marketoGUID" := VStr "1"; "leadId" := VStr "42";
       "activityDate" := VStr "2020-01-03T00:00:00Z";
       "activityTypeId" := VStr "1";
       "primary_attribute_name" := VStr "Webpage ID";
       "primary_attribute_value" := VStr "home";
       "primary_attribute_value_id" := VStr "9" ]} in
  rtn !! "leadId" = row !! "leadId".
Proof.
  intros row rtn.
  refine (proj1 (proj2 (flatten_activity_fields (RT := Reference.runtime)
                          row Scenario.visits rtn [] _ _) "leadId" _) _).
  - run_eq.
  - run_eq.
  - apply not_elem_of_nil.
  - apply list_elem_of_In. right. left. reflexivity.
Defined.

(** X8 at a page visit with two attributes whose names differ in case
    only: both are filed under [client_ip], and the record holds the
    second. *)
Lemma flatten_activity_attributes_witness :
  let row : pydict :=
    dict_of_zip Scenario.activity_header
      ["1"; "42"; "2020-01-03T00:00:00Z"; "1"; "9"; "home";
       FlatJson.two_members "Client IP" "10.0.0.1" "client ip" "10.0.0.2"] in
  let rtn : pydict :=
    {[ "marketoGUID" := VStr "1"; "leadId" := VStr "42";
       "activityDate" := VStr "2020-01-03T00:00:00Z";
       "activityTypeId" := VStr "1";
       "primary_attribute_name" := VStr "Webpage ID";
       "primary_attribute_value" := VStr "home";
       "primary_attribute_value_id" := VStr "9";
       "client_ip" := VStr "10.0.0.2" ]} in
  rtn !! attribute_key (RT := FlatJson.runtime) "client ip"
  = Some (VStr "10.0.0.2").
Proof.
  intros row rtn.
  refine (flatten_activity_attributes (RT := FlatJson.runtime)
            row Scenario.visits rtn
            [("Client IP", VStr "10.0.0.1"); ("client ip", VStr "10.0.0.2")]
            1 "client ip" (VStr "10.0.0.2") _ _ eq_refl _).
  - run_eq.
  - run_eq.
  - intros j kv Hj Hkv. apply lookup_lt_Some in Hkv. cbn [length] in Hkv. lia.
Defined.

(** ** Export jobs *)

Section ExportJobs.
Context `{RT : Runtime} `{EV : Env}.

(** X10.  Unless the client reports that the job failed, [wait_for_export]
    writes no state and leaves the state as it is: it returns when the client
    does, and any other exception of the client passes through with the
    export bookmarks still in place. *)
Theorem wait_for_export_unless_failed (s : stream) (export_id : pyval)
    (w : World) (r : result ()) (rs : remote) :
  client_wait_for_export (export_stream_type s) export_id (remote_state w)
    = (r, rs) →
  r ≠ inl ExportFailed →
  wait_for_export s export_id w =
    (match r with inl e => Raise e | inr _ => Ok () end,
     mk_World (state w) rs (ticks w),
     [Called (CallWaitForExport (export_stream_type s) export_id)]).
Proof.
  intros H Hr. unfold wait_for_export, on_export_failed, client. rewrite H.
  destruct r as [e|[]]; [| reflexivity].
  destruct e; try reflexivity. contradiction.
Qed.

(** X11.  When the state holds no export job for leads, or the server no
    longer has it, [get_or_create_export_for_leads] creates one for the
    wanted fields and the window from [export_start], querying [updatedAt]
    with Corona and [createdAt] without, and writes a state with the job's id
    and end before it returns; the replication bookmark is not touched. *)
Theorem get_or_create_export_for_leads_creates (s : stream)
    (export_start : datetime) (w : World) (available : bool) (rs rs' : remote)
    (new_id : string) :
  let persisted := get_bookmark (state w) "leads" "export_id" in
  let export_end :=
    export_end_at export_start (clock (ticks w)) (clock (S (ticks w))) in
  let query : pydict :=
    {[ (if use_corona then "updatedAt" else "createdAt")
       := date_range export_start export_end ]} in
  let st' := with_export_info s VNone (VStr new_id)
               (VStr (isoformat export_end)) (state w) in
  export_available "leads" persisted (remote_state w) = (inr available, rs) →
  available = false ∨ persisted = VNone →
  create_export "leads" (wanted_fields s) query rs = (inr new_id, rs') →
  get_or_create_export_for_leads s export_start w =
    (Ok (VStr new_id, export_end),
     mk_World st' rs'
       (if instant export_start + MAX_EXPORT_DAYS * MICROS_PER_DAY
           <? clock (ticks w)
        then S (ticks w) else S (S (ticks w))),
     [Called (CallExportAvailable "leads" persisted);
      Called (CallCreateExport "leads" (wanted_fields s) query);
      WriteState st'])
  ∧ get_bookmark st' (tap_stream_id s) "export_id" = VStr new_id
  ∧ get_bookmark st' (tap_stream_id s) "export_end"
    = VStr (isoformat export_end)
  ∧ ∀ name key,
      name ≠ tap_stream_id s ∨ (key ≠ "export_id" ∧ key ≠ "export_end") →
      get_bookmark st' name key = get_bookmark (state w) name key.
Proof.
  intros persisted export_end query st' Havail Hnew Hcreate. split; [| split; [| split]].
  - unfold get_or_create_export_for_leads.
    rewrite run_bind. cbn [get_state]. rewrite run_bind.
    fold persisted. unfold client at 1. rewrite Havail. cbn [remote_state].
    assert (Hnone : is_none (if negb available then VNone else persisted) = true).
    { destruct Hnew as [-> | ->]; [reflexivity | now destruct available]. }
    rewrite Hnone. rewrite run_bind, get_export_end_run.
    cbn [state remote_state ticks]. fold export_end. rewrite run_bind. fold query.
    unfold client. cbn [state remote_state ticks]. rewrite Hcreate.
    rewrite run_bind, update_state_run. reflexivity.
  - subst st'. unfold with_export_info. cbn [truthy].
    rewrite get_write_bookmark_ne by (right; discriminate).
    apply get_write_bookmark_eq.
  - subst st'. unfold with_export_info. cbn [truthy].
    apply get_write_bookmark_eq.
  - intros name key H. subst st'. unfold with_export_info. cbn [truthy].
    rewrite !get_write_bookmark_ne; [reflexivity | |];
      destruct H as [H|[H1 H2]]; auto.
Qed.

(** X12.  The same for a stream of activities: the job is created for
    the fixed activity fields, the window on [createdAt] and the stream's
    activity type, and its id and end are written before the function
    returns. *)
Theorem get_or_create_export_for_activities_creates (s : stream)
    (export_start : datetime) (w : World) (available : bool) (rs rs' : remote)
    (new_id : string) :
  let persisted := get_bookmark (state w) (tap_stream_id s) "export_id" in
  let export_end :=
    export_end_at export_start (clock (ticks w)) (clock (S (ticks w))) in
  let query : pydict :=
    {[ "createdAt" := date_range export_start export_end;
       "activityTypeIds" := VList [activity_id s] ]} in
  let st' := with_export_info s VNone (VStr new_id)
               (VStr (isoformat export_end)) (state w) in
  export_available "activities" persisted (remote_state w) = (inr available, rs) →
  available = false ∨ persisted = VNone →
  create_export "activities" ACTIVITY_FIELDS query rs = (inr new_id, rs') →
  get_or_create_export_for_activities s export_start w =
    (Ok (VStr new_id, export_end),
     mk_World st' rs'
       (if instant export_start + MAX_EXPORT_DAYS * MICROS_PER_DAY
           <? clock (ticks w)
        then S (ticks w) else S (S (ticks w))),
     [Called (CallExportAvailable "activities" persisted);
      Called (CallCreateExport "activities" ACTIVITY_FIELDS query);
      WriteState st'])
  ∧ get_bookmark st' (tap_stream_id s) "export_id" = VStr new_id
  ∧ get_bookmark st' (tap_stream_id s) "export_end"
    = VStr (isoformat export_end).
Proof.
  intros persisted export_end query st' Havail Hnew Hcreate. split; [| split].
  - unfold get_or_create_export_for_activities.
    rewrite run_bind. cbn [get_state]. rewrite run_bind.
    fold persisted. unfold client at 1. rewrite Havail. cbn [remote_state].
    assert (Hnone : is_none (if negb available then VNone else persisted) = true).
    { destruct Hnew as [-> | ->]; [reflexivity | now destruct available]. }
    rewrite Hnone. rewrite run_bind, get_export_end_run.
    cbn [state remote_state ticks]. fold export_end. rewrite run_bind. fold query.
    unfold client. cbn [state remote_state ticks]. rewrite Hcreate.
    rewrite run_bind, update_state_run. reflexivity.
  - subst st'. unfold with_export_info. cbn [truthy].
    rewrite get_write_bookmark_ne by (right; discriminate).
    apply get_write_bookmark_eq.
  - subst st'. unfold with_export_info. cbn [truthy].
    apply get_write_bookmark_eq.
Qed.

(** X13.  When the state holds an export job the server still has, no
    job is created, the clock is not read and no state is written: the
    function returns the persisted id with the persisted end, or raises what
    reading that end raises. *)
Theorem get_or_create_export_resumes (s : stream) (export_start : datetime)
    (w : World) (rs : remote) :
  (let persisted := get_bookmark (state w) "leads" "export_id" in
   export_available "leads" persisted (remote_state w) = (inr true, rs) →
   persisted ≠ VNone →
   get_or_create_export_for_leads s export_start w =
     (match pendulum_parse (get_bookmark (state w) "leads" "export_end") with
      | inr export_end => Ok (persisted, export_end)
      | inl e => Raise e
      end,
      mk_World (state w) rs (ticks w),
      [Called (CallExportAvailable "leads" persisted)]))
  ∧ (let persisted := get_bookmark (state w) (tap_stream_id s) "export_id" in
     export_available "activities" persisted (remote_state w) = (inr true, rs) →
     persisted ≠ VNone →
     get_or_create_export_for_activities s export_start w =
       (match pendulum_parse
                (get_bookmark (state w) (tap_stream_id s) "export_end") with
        | inr export_end => Ok (persisted, export_end)
        | inl e => Raise e
        end,
        mk_World (state w) rs (ticks w),
        [Called (CallExportAvailable "activities" persisted)])).
Proof.
  split; intros persisted Havail Hsome.
  - unfold get_or_create_export_for_leads.
    rewrite run_bind. cbn [get_state]. rewrite run_bind.
    fold persisted. unfold client at 1. rewrite Havail. cbn [remote_state negb].
    assert (Hnone : is_none persisted = false) by now destruct persisted.
    rewrite Hnone. rewrite run_bind. cbn [get_state state]. rewrite run_bind.
    destruct (pendulum_parse _) as [e|export_end]; reflexivity.
  - unfold get_or_create_export_for_activities.
    rewrite run_bind. cbn [get_state]. rewrite run_bind.
    fold persisted. unfold client at 1. rewrite Havail. cbn [remote_state negb].
    assert (Hnone : is_none persisted = false) by now destruct persisted.
    rewrite Hnone. rewrite run_bind. cbn [get_state state]. rewrite run_bind.
    destruct (pendulum_parse _) as [e|export_end]; reflexivity.
Qed.

End ExportJobs.

(** X10 at an export the connection is lost on while waiting: the state,
    with the job in it, is as before. *)
Lemma wait_for_export_unless_failed_witness :
  let w := Scenario.start Scenario.interrupted
             (Scenario.leads_state "2020-01-31T00:00:00+00:00"
                (Some ("e2", "2020-02-20T00:00:00+00:00"))) in
  wait_for_export Scenario.leads (VStr "e2") w =
    (Raise (ClientError "connection lost"),
     Scenario.world Scenario.interrupted (state w) ["e1"; "e2"] 0,
     [Called (CallWaitForExport "leads" (VStr "e2"))]).
Proof.
  intros w.
  refine (wait_for_export_unless_failed
            (EV := Scenario.env Scenario.interrupted)
            Scenario.leads (VStr "e2") w (inl (ClientError "connection lost"))
            (["e1"; "e2"] : list string) eq_refl _).
  discriminate.
Defined.

(** X11 at the first window of an account 45 days behind. *)
Lemma get_or_create_export_for_leads_creates_witness :
  let r := get_or_create_export_for_leads (RT := Reference.runtime)
             (EV := Scenario.env Scenario.two_windows) Scenario.leads
             (Scenario.midnight 0)
             (Scenario.start Scenario.two_windows
                (Scenario.leads_state "2020-01-01T00:00:00+00:00" None)) in
  r.1.1 = Ok (VStr "e1", Scenario.midnight 30)
  ∧ get_bookmark (state r.1.2) "leads" "export_id" = VStr "e1"
  ∧ get_bookmark (state r.1.2) "leads" "export_end"
    = VStr "2020-01-31T00:00:00+00:00"
  ∧ get_bookmark (state r.1.2) "leads" "updatedAt"
    = VStr "2020-01-01T00:00:00+00:00".
Proof.
  pose (w := Scenario.start Scenario.two_windows
               (Scenario.leads_state "2020-01-01T00:00:00+00:00" None)).
  edestruct (get_or_create_export_for_leads_creates (RT := Reference.runtime)
               (EV := Scenario.env Scenario.two_windows) Scenario.leads
               (Scenario.midnight 0) w false
               (["e1"; "e2"] : list string) (["e2"] : list string) "e1")
    as (Hrun & Hid & Hend & Hframe).
  - run_eq.
  - now left.
  - run_eq.
  - intros r. subst r. fold w. rewrite Hrun. cbn [fst snd state].
    split; [run_eq |]. split; [exact Hid |].
    split; [etransitivity; [exact Hend | run_eq] |].
    etransitivity; [apply Hframe; right; split; discriminate | run_eq].
Defined.

(** X12 at the first window of page visits, 45 days behind. *)
Lemma get_or_create_export_for_activities_creates_witness :
  let r := get_or_create_export_for_activities (RT := Reference.runtime)
             (EV := Scenario.env Scenario.quiet_activities) Scenario.visits
             (Scenario.midnight 0)
             (Scenario.start Scenario.quiet_activities
                (Scenario.visits_state "2020-01-01T00:00:00+00:00")) in
  r.1.1 = Ok (VStr "e1", Scenario.midnight 30)
  ∧ get_bookmark (state r.1.2) "activities_visit_webpage" "export_id"
    = VStr "e1"
  ∧ get_bookmark (state r.1.2) "activities_visit_webpage" "export_end"
    = VStr "2020-01-31T00:00:00+00:00".
Proof.
  pose (w := Scenario.start Scenario.quiet_activities
               (Scenario.visits_state "2020-01-01T00:00:00+00:00")).
  edestruct (get_or_create_export_for_activities_creates
               (RT := Reference.runtime)
               (EV := Scenario.env Scenario.quiet_activities) Scenario.visits
               (Scenario.midnight 0) w false
               (["e1"; "e2"] : list string) (["e2"] : list string) "e1")
    as (Hrun & Hid & Hend).
  - run_eq.
  - now left.
  - run_eq.
  - intros r. subst r. fold w. rewrite Hrun. cbn [fst snd state].
    split; [run_eq |]. split; [exact Hid |].
    etransitivity; [exact Hend | run_eq].
Defined.

(** X13 at a run that finds the export of an interrupted run. *)
Lemma get_or_create_export_resumes_witness :
  let w := Scenario.start Scenario.resumed
             (Scenario.leads_state "2020-01-01T00:00:00+00:00"
                (Some ("e2", "2020-02-20T00:00:00+00:00"))) in
  get_or_create_export_for_leads (RT := Reference.runtime)
    (EV := Scenario.env Scenario.resumed) Scenario.leads (Scenario.midnight 0) w
  = (Ok (VStr "e2", Scenario.midnight 50), w,
     [Called (CallExportAvailable "leads" (VStr "e2"))]).
Proof.
  intros w.
  etransitivity;
    [ refine (proj1 (get_or_create_export_resumes (RT := Reference.runtime)
                       (EV := Scenario.env Scenario.resumed) Scenario.leads
                       (Scenario.midnight 0) w (["e3"] : list string)) _ _)
    | ].
  - run_eq.
  - discriminate.
  - run_eq.
Defined.

(** ** Runs with nothing to fetch *)

Section EdgeRuns.
Context `{RT : Runtime} `{EV : Env}.

(** X14.  A windowed run whose first window would not start before the
    run start time asks the server for nothing and writes no state: it
    writes the schema, reads the clock once and returns a count of 0.  For
    leads with Corona the first window starts a day before the bookmark. *)
Theorem sync_nothing_to_fetch (fuel : nat) (s : stream) (w : World)
    (b : datetime) :
  (pendulum_parse (get_bookmark (state w) "leads" (replication_key s)) = inr b →
   clock (ticks w)
     ≤ instant (if use_corona then dt_subtract_days b ATTRIBUTION_WINDOW_DAYS
                else b) →
   sync_leads fuel s w =
     (Ok 0, mk_World (state w) (remote_state w) (S (ticks w)),
      [WriteSchema "leads" (properties s) (key_properties s)]))
  ∧ (pendulum_parse
       (get_bookmark (state w) (tap_stream_id s) (replication_key s)) = inr b →
     clock (ticks w) ≤ instant b →
     sync_activities fuel s w =
       (Ok 0, mk_World (state w) (remote_state w) (S (ticks w)),
        [WriteSchema (tap_stream_id s) (properties s) (key_properties s)])).
Proof.
  split; intros Hb Hnow.
  - rewrite (sync_leads_run fuel s w b Hb). cbv zeta.
    assert (Hlt : dt_lt (if use_corona
                         then dt_subtract_days b ATTRIBUTION_WINDOW_DAYS else b)
                        (mk_datetime (clock (ticks w)) 0) = false).
    { unfold dt_lt. cbn [instant]. apply Z.ltb_ge. exact Hnow. }
    destruct fuel; cbn [sync_leads_loop]; rewrite Hlt; reflexivity.
  - rewrite (sync_activities_run fuel s w b Hb). cbv zeta.
    assert (Hlt : dt_lt b (mk_datetime (clock (ticks w)) 0) = false).
    { unfold dt_lt. cbn [instant]. apply Z.ltb_ge. exact Hnow. }
    destruct fuel; cbn [sync_activities_loop]; rewrite Hlt; reflexivity.
Qed.

(** X15.  A windowed run whose replication bookmark [pendulum.parse]
    cannot read raises what [pendulum.parse] raises, after the schema and
    before any call of the client, any reading of the clock and any state. *)
Theorem sync_unreadable_bookmark (fuel : nat) (s : stream) (w : World) (e : exn) :
  (pendulum_parse (get_bookmark (state w) "leads" (replication_key s)) = inl e →
   sync_leads fuel s w =
     (Raise e, w, [WriteSchema "leads" (properties s) (key_properties s)]))
  ∧ (pendulum_parse
       (get_bookmark (state w) (tap_stream_id s) (replication_key s)) = inl e →
     sync_activities fuel s w =
       (Raise e, w,
        [WriteSchema (tap_stream_id s) (properties s) (key_properties s)])).
Proof.
  split; intros Hb.
  - unfold sync_leads. rewrite run_bind. cbn [emit]. rewrite run_bind.
    cbn [get_state]. rewrite run_bind, Hb. reflexivity.
  - unfold sync_activities. rewrite run_bind. cbn [emit]. rewrite run_bind.
    cbn [get_state]. rewrite run_bind, Hb. reflexivity.
Qed.

Lemma whole_seconds_mono (a b : Z) : a ≤ b → whole_seconds a ≤ whole_seconds b.
Proof.
  intros H. unfold whole_seconds.
  rewrite !Zmod_eq_full by discriminate.
  pose proof (Z.div_le_mono a b 1000000 eq_refl H). lia.
Qed.

Lemma whole_seconds_aligned (a : Z) : a mod 1000000 = 0 → whole_seconds a = a.
Proof. intros H. unfold whole_seconds. lia. Qed.

(** X16.  The end [get_export_end] gives is a whole second.  When the
    window starts on a whole second and the clock, which does not run
    backwards, has passed the start, the end is not before the start; it is
    the start plus 30 days when the clock has passed that too. *)
Theorem get_export_end_not_before_start (export_start : datetime) (w : World) :
  let export_end :=
    export_end_at export_start (clock (ticks w)) (clock (S (ticks w))) in
  (get_export_end export_start w).1.1 = Ok export_end
  ∧ instant export_end mod 1000000 = 0
  ∧ (instant export_start mod 1000000 = 0 →
     instant export_start ≤ clock (ticks w) →
     clock (ticks w) ≤ clock (S (ticks w)) →
     instant export_start ≤ instant export_end
     ∧ (instant export_start + MAX_EXPORT_DAYS * MICROS_PER_DAY < clock (ticks w) →
        instant export_end
        = instant export_start + MAX_EXPORT_DAYS * MICROS_PER_DAY)).
Proof.
  intros export_end. split; [now rewrite get_export_end_run |].
  subst export_end. rewrite export_end_at_instant. split.
  - unfold whole_seconds. rewrite Zminus_mod, Z.mod_mod by discriminate.
    rewrite Z.sub_diag. reflexivity.
  - intros Hal Hpast Hclock.
    assert (Hday : (MAX_EXPORT_DAYS * MICROS_PER_DAY) mod 1000000 = 0)
      by reflexivity.
    assert (Hend : whole_seconds
                     (instant export_start + MAX_EXPORT_DAYS * MICROS_PER_DAY)
                   = instant export_start + MAX_EXPORT_DAYS * MICROS_PER_DAY).
    { apply whole_seconds_aligned.
      rewrite Z.add_mod, Hal, Hday by discriminate. reflexivity. }
    destruct (_ <? clock (ticks w)) eqn:Hlt.
    + rewrite Hend. split; [| reflexivity].
      unfold MAX_EXPORT_DAYS, MICROS_PER_DAY. lia.
    + split; [| intros H; apply Z.ltb_ge in Hlt; lia].
      rewrite <- (whole_seconds_aligned _ Hal).
      apply whole_seconds_mono. lia.
Qed.

End EdgeRuns.

(** X14 at an account whose bookmark is the run start time. *)
Lemma sync_nothing_to_fetch_witness :
  let w := Scenario.start Scenario.two_windows
             (Scenario.leads_state "2020-02-15T00:00:00+00:00" None) in
  sync_leads (RT := Reference.runtime) (EV := Scenario.env Scenario.two_windows)
    5 Scenario.leads w =
    (Ok 0, Scenario.world Scenario.two_windows (state w) ["e1"; "e2"] 1,
     [WriteSchema "leads" (properties Scenario.leads) ["id"]]).
Proof.
  intros w.
  refine (proj1 (sync_nothing_to_fetch (RT := Reference.runtime)
                   (EV := Scenario.env Scenario.two_windows)
                   5 Scenario.leads w (Scenario.midnight 45)) _ _).
  - run_eq.
  - vm_compute. discriminate.
Defined.

(** X15 at a state whose bookmark is not a timestamp. *)
Lemma sync_unreadable_bookmark_witness :
  let w := Scenario.start Scenario.two_windows
             (Scenario.leads_state "yesterday" None) in
  sync_leads (RT := Reference.runtime) (EV := Scenario.env Scenario.two_windows)
    5 Scenario.leads w =
    (Raise ValueError, w,
     [WriteSchema "leads" (properties Scenario.leads) ["id"]]).
Proof.
  intros w.
  refine (proj1 (sync_unreadable_bookmark (RT := Reference.runtime)
                   (EV := Scenario.env Scenario.two_windows)
                   5 Scenario.leads w ValueError) _).
  run_eq.
Defined.

(** X16 at a window from 1 January read on 15 February: it ends on
    31 January. *)
Lemma get_export_end_not_before_start_witness :
  let w := Scenario.start Scenario.two_windows
             (Scenario.leads_state "2020-01-01T00:00:00+00:00" None) in
  let export_end :=
    export_end_at (Scenario.midnight 0)
      (clock (Env := Scenario.env Scenario.two_windows) 0)
      (clock (Env := Scenario.env Scenario.two_windows) 1) in
  instant (Scenario.midnight 0) ≤ instant export_end
  ∧ instant export_end = Scenario.day 30.
Proof.
  intros w export_end.
  destruct (proj2 (proj2 (get_export_end_not_before_start
                            (EV := Scenario.env Scenario.two_windows)
                            (Scenario.midnight 0) w)))
    as [Hle Heq].
  - reflexivity.
  - vm_compute. discriminate.
  - vm_compute. discriminate.
  - split; [exact Hle |]. etransitivity; [apply Heq | reflexivity].
    vm_compute. reflexivity.
Defined.

(** ** Leads without Corona: what is written *)

Section LeadsRecords.
Context `{RT : Runtime} `{EV : Env}.

Lemma leads_record_inv (s : stream) (row record : pydict) (ts : datetime) :
  leads_record s row = inr (record, ts) →
  ∃ v, record !! "updatedAt" = Some v ∧ pendulum_parse v = inr ts.
Proof.
  unfold leads_record. intros H.
  destruct (format_values s (VDict row)) as [e|rec]; [discriminate |].
  cbn [rbind] in H. unfold py_item in H.
  destruct (rec !! "updatedAt") as [v|] eqn:Hv; [| discriminate].
  cbn [rbind] in H.
  destruct (pendulum_parse v) as [e|ts'] eqn:Hts; [discriminate |].
  cbn [rbind] in H. injection H as <- <-. now exists v.
Qed.

Lemma lead_not_older_rows (s : stream) (b export_end : datetime)
    (rows : list pydict) :
  use_corona = false →
  ∀ max_bookmark record_count,
    emits (lead_not_older b)
      (sync_leads_rows s b export_end rows max_bookmark record_count).
Proof.
  intros Hc. induction rows as [|row rows IH]; intros mb c w;
    cbn [sync_leads_rows]; [constructor |].
  rewrite run_bind.
  destruct (leads_record s row) as [e|[record ts]] eqn:Hrow;
    cbn [lift raise ret]; [constructor |].
  rewrite Hc. destruct (dt_ge ts b) eqn:Hge.
  - rewrite run_bind. cbn [emit]. specialize (IH (dt_max mb ts) (c + 1) w).
    destruct (sync_leads_rows _ _ _ _ _ _ w) as [[o w2] t2].
    cbn [fst snd app] in *. constructor; [| exact IH].
    cbn. split; [reflexivity |].
    destruct (leads_record_inv _ _ _ _ Hrow) as (v & Hv & Hts).
    exists record, v, ts. repeat split; try assumption.
    unfold dt_ge in Hge. now apply Z.leb_le in Hge.
  - specialize (IH mb c w).
    destruct (sync_leads_rows _ _ _ _ _ _ w) as [[o w2] t2].
    exact IH.
Qed.

Lemma lead_not_older_window (s : stream) (b : datetime) :
  use_corona = false →
  ∀ export_start max_bookmark record_count,
    emits (lead_not_older b)
      (sync_leads_window s b export_start max_bookmark record_count).
Proof.
  intros Hc export_start mb c.
  unfold sync_leads_window, get_or_create_export_for_leads, wait_for_export,
    stream_rows, update_state_with_export_info, get_export_end.
  emits_auto; try exact Logic.I; try (intros; exact Logic.I).
  now apply lead_not_older_rows.
Qed.

Lemma lead_not_older_loop (s : stream) (b job_started : datetime) (fuel : nat) :
  use_corona = false →
  ∀ export_start max_bookmark record_count,
    emits (lead_not_older b)
      (sync_leads_loop fuel s b job_started export_start max_bookmark
                       record_count).
Proof.
  intros Hc. induction fuel as [|fuel IH]; intros export_start mb c;
    cbn [sync_leads_loop]; emits_auto.
  - now apply lead_not_older_window.
  - apply IH.
Qed.

(** X17.  Without Corona, every record a run of [sync_leads] writes is a
    record of leads whose [updatedAt] is at or after the bookmark the run
    started from: the rows of the full export that are older are not
    written, whatever the outcome of the run. *)
Theorem sync_leads_writes_no_older_record (fuel : nat) (s : stream) (w : World)
    (b : datetime) :
  use_corona = false →
  pendulum_parse (get_bookmark (state w) "leads" (replication_key s)) = inr b →
  Forall (lead_not_older b) (sync_leads fuel s w).2.
Proof.
  intros Hc Hb. rewrite (sync_leads_run fuel s w b Hb). cbv zeta. cbn [snd].
  constructor; [exact Logic.I |]. now apply lead_not_older_loop.
Qed.

End LeadsRecords.

(** X17 at the account 45 days behind: of the two leads of the first
    export only the one updated on 5 January is written. *)
Lemma sync_leads_writes_no_older_record_witness :
  let r := sync_leads (RT := Reference.runtime)
             (EV := Scenario.env Scenario.two_windows) 5 Scenario.leads
             (Scenario.start Scenario.two_windows
                (Scenario.leads_state "2020-01-01T00:00:00+00:00" None)) in
  Forall (lead_not_older (RT := Reference.runtime) (Scenario.midnight 0)) r.2
  ∧ records r.2
    = [("leads", VDict {[ "id" := VInt 7;
                          "updatedAt" := VStr "2020-01-05T12:00:00+00:00" ]})].
Proof.
  intros r. split; [| run_eq].
  refine (sync_leads_writes_no_older_record (RT := Reference.runtime)
            (EV := Scenario.env Scenario.two_windows) 5 Scenario.leads _
            (Scenario.midnight 0) eq_refl _).
  run_eq.
Defined.

(** ** The record count *)

Section Counts.
Context `{RT : Runtime} `{EV : Env}.

Lemma records_app (t1 t2 : list event) :
  records (t1 ++ t2) = records t1 ++ records t2.
Proof. apply omap_app. Qed.

Lemma records_none (t : list event) : Forall not_record t → records t = [].
Proof.
  induction 1 as [|ev t Hev _ IH]; [reflexivity |].
  destruct ev; cbn in *; try exact IH. destruct Hev.
Qed.

Lemma counts_quiet_bind {A B} (count : B → Z) (c : Z) (m : M A) (f : A → M B) :
  emits not_record m → (∀ a, counts count c (f a)) → counts count c (m ≫= f).
Proof.
  intros Hm Hf w b. rewrite run_bind. specialize (Hm w).
  destruct (m w) as [[[a|e|] w1] t1]; cbn [fst snd] in *; try discriminate.
  specialize (Hf a w1 b). destruct (f a w1) as [[o w2] t2]; cbn [fst snd] in *.
  intros Ho. rewrite records_app, (records_none _ Hm). now apply Hf.
Qed.

Lemma counts_bind {A B} (count1 : A → Z) (count : B → Z) (c : Z)
    (m : M A) (f : A → M B) :
  counts count1 c m → (∀ a, counts count (count1 a) (f a)) →
  counts count c (m ≫= f).
Proof.
  intros Hm Hf w b. rewrite run_bind. specialize (Hm w).
  destruct (m w) as [[[a|e|] w1] t1]; cbn [fst snd] in *; try discriminate.
  specialize (Hm a eq_refl). specialize (Hf a w1 b).
  destruct (f a w1) as [[o w2] t2]; cbn [fst snd] in *.
  intros Ho. rewrite records_app, length_app, (Hf Ho), Hm. lia.
Qed.

Lemma counts_record {B} (count : B → Z) (c : Z) name record (m : M B) :
  counts count (c + 1) m → counts count c (emit (WriteRecord name record);; m).
Proof.
  intros Hm w b. rewrite run_bind. cbn [emit]. specialize (Hm w b).
  destruct (m w) as [[o w2] t2]; cbn [fst snd app] in *.
  intros Ho. rewrite (Hm Ho).
  change (records (WriteRecord name record :: t2))
    with ((name, record) :: records t2).
  cbn [length]. rewrite Nat2Z.inj_succ. lia.
Qed.

Lemma counts_ret {A} (count : A → Z) (c : Z) (a : A) :
  count a = c → counts count c (mret a).
Proof.
  intros H w b Hb. cbn in Hb. injection Hb as <-. cbn. lia.
Qed.

Lemma counts_raise {A} (count : A → Z) (c : Z) (e : exn) :
  counts count c (raise e).
Proof. intros w b Hb. discriminate. Qed.

Lemma counts_timeout {A} (count : A → Z) (c : Z) : counts count c timeout.
Proof. intros w b Hb. discriminate. Qed.

End Counts.

(** An engine function that writes no record. *)
Ltac quiet :=
  unfold get_or_create_export_for_leads, get_or_create_export_for_activities,
    wait_for_export, stream_rows, update_state_with_export_info,
    get_export_end, client_request;
  emits_auto; try exact Logic.I; try (intros; exact Logic.I).

Ltac counts_step :=
  lazymatch goal with
  | |- counts _ _ (emit (WriteRecord _ _) ≫= _) => apply counts_record
  | |- counts _ _ (_ ≫= _) =>
      apply counts_quiet_bind; [solve [quiet] | intros ?]
  | |- counts _ _ (mret _) => apply counts_ret; reflexivity
  | |- counts _ _ (raise _) => apply counts_raise
  | |- counts _ _ timeout => apply counts_timeout
  | |- counts _ _ (if _ then _ else _) =>
      match goal with |- counts _ _ (if ?b then _ else _) => destruct b end
  | |- counts _ _ (let '(_, _) := ?x in _) => destruct x
  | |- counts _ _ (match ?x with _ => _ end) => destruct x
  end.

Ltac counts_auto := repeat (cbv zeta; counts_step).

Section CountsOfDrivers.
Context `{RT : Runtime} `{EV : Env}.

Lemma counts_sync_leads_rows s initial_bookmark export_end rows :
  ∀ max_bookmark c,
    counts snd c (sync_leads_rows s initial_bookmark export_end rows max_bookmark c).
Proof.
  induction rows as [|row rows IH]; intros mb c; cbn [sync_leads_rows];
    counts_auto; apply IH.
Qed.

Lemma counts_sync_leads_window s initial_bookmark export_start max_bookmark c :
  counts snd c (sync_leads_window s initial_bookmark export_start max_bookmark c).
Proof.
  unfold sync_leads_window. counts_auto.
  eapply counts_bind; [apply counts_sync_leads_rows | intros [mb c']].
  counts_auto.
Qed.

Lemma counts_sync_leads_loop fuel s initial_bookmark job_started :
  ∀ export_start max_bookmark c,
    counts id c (sync_leads_loop fuel s initial_bookmark job_started
                   export_start max_bookmark c).
Proof.
  induction fuel as [|fuel IH]; intros export_start mb c;
    cbn [sync_leads_loop]; counts_auto.
  eapply counts_bind; [apply counts_sync_leads_window | intros [[e mb'] c']].
  apply IH.
Qed.

Lemma counts_sync_activities_rows s rows :
  ∀ c, counts id c (sync_activities_rows s rows c).
Proof.
  induction rows as [|row rows IH]; intros c; cbn [sync_activities_rows];
    counts_auto; apply IH.
Qed.

Lemma counts_sync_activities_window s export_start c :
  counts snd c (sync_activities_window s export_start c).
Proof.
  unfold sync_activities_window. counts_auto.
  eapply counts_bind; [apply counts_sync_activities_rows | intros c'].
  counts_auto.
Qed.

Lemma counts_sync_activities_loop fuel s job_started :
  ∀ export_start c,
    counts id c (sync_activities_loop fuel s job_started export_start c).
Proof.
  induction fuel as [|fuel IH]; intros export_start c;
    cbn [sync_activities_loop]; counts_auto.
  eapply counts_bind; [apply counts_sync_activities_window | intros [e c']].
  apply IH.
Qed.

Lemma counts_emit_newer s name key start_date rows :
  ∀ c, counts id c (emit_newer s name key start_date rows c).
Proof.
  induction rows as [|row rows IH]; intros c; cbn [emit_newer];
    counts_auto; apply IH.
Qed.

Lemma counts_write_all s name rows :
  ∀ c, counts id c (write_all s name rows c).
Proof.
  induction rows as [|row rows IH]; intros c; cbn [write_all];
    counts_auto; apply IH.
Qed.

Lemma counts_sync_programs_loop fuel s start_date end_date :
  ∀ offset c,
    counts id c (sync_programs_loop fuel s start_date end_date offset c).
Proof.
  induction fuel as [|fuel IH]; intros offset c; cbn [sync_programs_loop];
    counts_auto.
  eapply counts_bind; [apply counts_emit_newer | intros c'].
  apply IH.
Qed.

Lemma counts_sync_paginated_loop fuel s start_date :
  ∀ params c, counts id c (sync_paginated_loop fuel s start_date params c).
Proof.
  induction fuel as [|fuel IH]; intros params c; cbn [sync_paginated_loop];
    counts_auto.
  eapply counts_bind; [apply counts_emit_newer | intros c'].
  counts_auto. apply IH.
Qed.

Lemma counts_sync_stream_by_type fuel s :
  counts id 0 (sync_stream_by_type fuel s).
Proof.
  unfold sync_stream_by_type. cbv zeta.
  repeat match goal with
         | |- counts _ _ (if ?b then _ else _) => destruct b
         end.
  - unfold sync_activity_types. counts_auto. apply counts_write_all.
  - unfold sync_leads. counts_auto. apply counts_sync_leads_loop.
  - unfold sync_activities. counts_auto. apply counts_sync_activities_loop.
  - unfold sync_paginated. counts_auto.
    eapply counts_bind; [apply counts_sync_paginated_loop | intros c'].
    counts_auto.
  - unfold sync_programs. counts_auto.
    eapply counts_bind; [apply counts_sync_programs_loop | intros c'].
    counts_auto.
  - apply counts_raise.
Qed.

(** X18.  The count a driver returns is the number of records it wrote,
    and the count [sync] reports for a stream it has synced is that number:
    between the state that marks the stream as the one being synced and the
    state that clears the mark, the run holds the driver's events and then
    the count of the records among them. *)
Theorem record_count_is_records_written (fuel : nat) (s : stream) (w : World) :
  (∀ n, (sync_stream_by_type fuel s w).1.1 = Ok n →
     n = Z.of_nat (length (records (sync_stream_by_type fuel s w).2)))
  ∧ ((sync_one (sync_stream_by_type fuel) s w).1.1 = Ok () →
     ∃ st1 t st2,
       (sync_one (sync_stream_by_type fuel) s w).2
       = WriteState st1 :: t
           ++ [RecordCount (tap_stream_id s) (Z.of_nat (length (records t)));
               WriteState st2]).
Proof.
  split.
  - intros n Hn. exact (counts_sync_stream_by_type fuel s w n Hn).
  - rewrite sync_one_run. cbv zeta.
    pose proof (counts_sync_stream_by_type fuel s) as Hc.
    match goal with
    | |- context [sync_stream_by_type fuel s ?w'] =>
        specialize (Hc w'); destruct (sync_stream_by_type fuel s w')
          as [[[n|e|] w2] t2]
    end; cbn [fst snd]; try discriminate.
    intros _. specialize (Hc n eq_refl). cbn [fst snd id] in Hc.
    eexists _, t2, _. rewrite Hc. reflexivity.
Qed.

End CountsOfDrivers.

(** X18 at the account 45 days behind: one lead is written and the count
    is 1. *)
Lemma record_count_is_records_written_witness :
  let r := sync_stream_by_type (RT := Reference.runtime)
             (EV := Scenario.env Scenario.two_windows) 5 Scenario.leads
             (Scenario.start Scenario.two_windows
                (Scenario.leads_state "2020-01-01T00:00:00+00:00" None)) in
  1 = Z.of_nat (length (records r.2)).
Proof.
  intros r.
  refine (proj1 (record_count_is_records_written (RT := Reference.runtime)
                   (EV := Scenario.env Scenario.two_windows) 5 Scenario.leads _)
            1 _).
  run_eq.
Defined.

(** ** Programs *)

Section Programs.
Context `{RT : Runtime} `{EV : Env}.

Lemma sync_programs_loop_step (fuel : nat) (s : stream) (start_date : pyval)
    (end_date : string) (offset record_count : Z) (w : World) :
  sync_programs_loop (S fuel) s start_date end_date offset record_count w =
    let params := Some (programs_page start_date end_date offset) in
    let call := Called (CallRequest "rest/asset/v1/programs.json" "programs"
                                    params) in
    match request "rest/asset/v1/programs.json" "programs" params
                  (remote_state w) with
    | (inl e, rs) => (Raise e, mk_World (state w) rs (ticks w), [call])
    | (inr data, rs) =>
        let w1 := mk_World (state w) rs (ticks w) in
        match rbind (py_item data "warnings") no_asset_in with
        | inl e => (Raise e, w1, [call; Received data])
        | inr true => (Ok record_count, w1, [call; Received data])
        | inr false =>
            match rbind (py_item data "result") py_iter with
            | inl e => (Raise e, w1, [call; Received data])
            | inr rows =>
                let r := emit_newer s "programs" "updatedAt" start_date rows
                                    record_count w1 in
                match r.1.1 with
                | Ok count =>
                    let next :=
                      sync_programs_loop fuel s start_date end_date
                        (offset + 200) count r.1.2 in
                    (next.1.1, next.1.2,
                     call :: Received data :: r.2 ++ next.2)
                | Raise e => (Raise e, r.1.2, call :: Received data :: r.2)
                | Timeout => (Timeout, r.1.2, call :: Received data :: r.2)
                end
            end
        end
    end.
Proof.
  cbn [sync_programs_loop]. cbv zeta. fold (programs_page start_date end_date offset).
  rewrite run_bind. unfold client_request. rewrite run_bind. unfold client.
  destruct (request _ _ _ (remote_state w)) as [[e|data] rs]; [reflexivity |].
  rewrite run_bind. cbn [emit]. cbn [ret mret M_ret].
  rewrite run_bind. unfold py_item at 1 3.
  destruct (data !! "warnings") as [warnings|]; cbn [lift rbind raise ret];
    [| reflexivity].
  rewrite run_bind.
  destruct (no_asset_in warnings) as [e|[|]]; cbn [lift rbind raise ret];
    [reflexivity | reflexivity |].
  rewrite run_bind. unfold py_item.
  destruct (data !! "result") as [result|]; cbn [lift rbind raise ret];
    [| reflexivity].
  rewrite run_bind.
  destruct (py_iter result) as [e|rows]; cbn [lift rbind raise ret];
    [reflexivity |].
  rewrite run_bind.
  destruct (emit_newer s "programs" "updatedAt" start_date rows record_count
              (mk_World (state w) rs (ticks w)))
    as [[[count|e|] w2] t2]; cbn [fst snd app]; try reflexivity.
  destruct (sync_programs_loop fuel s start_date end_date _ count w2)
    as [[o w3] t3].
  reflexivity.
Qed.

Lemma calls_app (t1 t2 : list event) : calls (t1 ++ t2) = calls t1 ++ calls t2.
Proof. apply omap_app. Qed.

Lemma calls_none (t : list event) : Forall not_called t → calls t = [].
Proof.
  induction 1 as [|ev t Hev _ IH]; [reflexivity |].
  destruct ev; cbn in *; try exact IH. destruct Hev.
Qed.

Lemma not_called_emit_newer s name key start_date rows :
  ∀ record_count,
    emits not_called (emit_newer s name key start_date rows record_count).
Proof.
  induction rows as [|row rows IH]; intros c; cbn [emit_newer].
  - emits_auto.
  - emits_auto; try exact Logic.I; apply IH.
Qed.

Lemma sync_programs_loop_calls (s : stream) (start_date : pyval)
    (end_date : string) (fuel : nat) :
  ∀ offset record_count w,
    ∃ n, (n ≤ fuel)%nat
         ∧ calls (sync_programs_loop fuel s start_date end_date offset
                    record_count w).2
           = map (λ k, CallRequest "rest/asset/v1/programs.json" "programs"
                         (Some (programs_page start_date end_date
                                  (offset + 200 * Z.of_nat k))))
                 (seq 0 n).
Proof.
  induction fuel as [|fuel IH]; intros offset c w.
  - exists 0%nat. split; [lia | reflexivity].
  - rewrite sync_programs_loop_step. cbv zeta.
    assert (Hone : ∃ n, (n ≤ S fuel)%nat
                        ∧ [CallRequest "rest/asset/v1/programs.json" "programs"
                             (Some (programs_page start_date end_date offset))]
                          = map (λ k, CallRequest "rest/asset/v1/programs.json"
                                        "programs"
                                        (Some (programs_page start_date end_date
                                                 (offset + 200 * Z.of_nat k))))
                                (seq 0 n)).
    { exists 1%nat. split; [lia |]. cbn. now rewrite Z.add_0_r. }
    destruct (request _ _ _ (remote_state w)) as [[e|data] rs]; [exact Hone |].
    destruct (rbind (py_item data "warnings") no_asset_in) as [e|[|]];
      [exact Hone | exact Hone |].
    destruct (rbind (py_item data "result") py_iter) as [e|rows];
      [exact Hone |].
    pose proof (not_called_emit_newer s "programs" "updatedAt" start_date rows c
                  (mk_World (state w) rs (ticks w))) as Hq.
    destruct (emit_newer s "programs" "updatedAt" start_date rows c _)
      as [[[count|e|] w2] t2]; cbn [fst snd] in *.
    + destruct (IH (offset + 200) count w2) as (n & Hn & Hcalls).
      exists (S n). split; [lia |].
      change (calls (Called ?c :: Received ?d :: ?t))
        with (c :: calls t).
      rewrite calls_app, (calls_none _ Hq), Hcalls. cbn [app seq map].
      rewrite Z.add_0_r. f_equal.
      rewrite <- seq_shift, map_map. apply map_ext. intros k.
      do 3 f_equal. lia.
    + destruct Hone as (n & Hn & Heq). exists n. split; [exact Hn |].
      rewrite <- Heq.
      change (calls (Called ?c :: Received ?d :: ?t)) with (c :: calls t).
      now rewrite (calls_none _ Hq).
    + destruct Hone as (n & Hn & Heq). exists n. split; [exact Hn |].
      rewrite <- Heq.
      change (calls (Called ?c :: Received ?d :: ?t)) with (c :: calls t).
      now rewrite (calls_none _ Hq).
Qed.

Lemma sync_programs_run (fuel : nat) (s : stream) (w : World) :
  let start_date := get_bookmark (state w) "programs" "updatedAt" in
  let end_date := isoformat (mk_datetime (clock (ticks w)) 0) in
  let r := sync_programs_loop fuel s start_date end_date 0 0
             (mk_World (state w) (remote_state w) (S (ticks w))) in
  let schema := WriteSchema "programs" (properties s) (key_properties s) in
  sync_programs fuel s w =
    match r.1.1 with
    | Ok n =>
        let st := write_bookmark (state r.1.2) "programs" "updatedAt"
                                 (VStr end_date) in
        (Ok n, mk_World st (remote_state r.1.2) (ticks r.1.2),
         schema :: r.2 ++ [WriteState st])
    | Raise e => (Raise e, r.1.2, schema :: r.2)
    | Timeout => (Timeout, r.1.2, schema :: r.2)
    end.
Proof.
  cbv zeta. unfold sync_programs.
  rewrite run_bind. cbn [emit]. rewrite run_bind. cbn [get_state].
  rewrite run_bind. cbn [utcnow]. cbn [state remote_state ticks].
  rewrite run_bind.
  destruct (sync_programs_loop fuel s _ _ 0 0 _) as [[[n|e|] w2] t2];
    cbn [fst snd app]; reflexivity.
Qed.

Lemma calls_snoc_state (t : list event) (st : State) :
  calls (t ++ [WriteState st]) = calls t.
Proof. rewrite calls_app. cbn. apply app_nil_r. Qed.

(** X19.  The calls of a run of [sync_programs] are requests of the
    programs endpoint at the offsets 0, 200, 400, ..., each for at most 200
    programs updated between the bookmark the run started from and the time
    the run read before its first request. *)
Theorem sync_programs_requests (fuel : nat) (s : stream) (w : World) :
  let start_date := get_bookmark (state w) "programs" "updatedAt" in
  let end_date := isoformat (mk_datetime (clock (ticks w)) 0) in
  ∃ n, (n ≤ fuel)%nat
       ∧ calls (sync_programs fuel s w).2
         = map (λ k, CallRequest "rest/asset/v1/programs.json" "programs"
                       (Some (programs_page start_date end_date
                                (200 * Z.of_nat k))))
               (seq 0 n).
Proof.
  intros start_date end_date. rewrite sync_programs_run. cbv zeta.
  fold start_date end_date.
  destruct (sync_programs_loop_calls s start_date end_date fuel 0 0
              (mk_World (state w) (remote_state w) (S (ticks w))))
    as (n & Hn & Hcalls).
  exists n. split; [exact Hn |].
  destruct (sync_programs_loop fuel s start_date end_date 0 0 _)
    as [[[c|e|] w2] t2]; cbn [fst snd] in *;
    change (calls (WriteSchema ?a ?b ?c :: ?t)) with (calls t);
    rewrite ?calls_snoc_state; exact Hcalls.
Qed.

(** X20.  [sync_programs] moves the bookmark all at once or not at all.
    A run that returns has written one state, as its last event, in which
    the [updatedAt] bookmark of programs is the time the run read before its
    first request and nothing else has changed; a run that does not return
    has written no state and leaves the state as it found it. *)
Theorem sync_programs_bookmark (fuel : nat) (s : stream) (w : World) :
  let r := sync_programs fuel s w in
  let st := write_bookmark (state w) "programs" "updatedAt"
              (VStr (isoformat (mk_datetime (clock (ticks w)) 0))) in
  (∀ n, r.1.1 = Ok n →
     state r.1.2 = st
     ∧ ∃ t, r.2 = t ++ [WriteState st] ∧ Forall not_state_write t)
  ∧ ((∀ n, r.1.1 ≠ Ok n) →
     state r.1.2 = state w ∧ Forall not_state_write r.2).
Proof.
  cbv zeta. rewrite sync_programs_run. cbv zeta.
  destruct (preserves_sync_programs_loop s (λ st, st = state w) not_state_write
              (λ ev H, H) fuel
              (get_bookmark (state w) "programs" "updatedAt")
              (isoformat (mk_datetime (clock (ticks w)) 0)) 0 0
              (mk_World (state w) (remote_state w) (S (ticks w))) eq_refl)
    as (Ht & Hst & _).
  destruct (sync_programs_loop fuel s _ _ 0 0 _) as [[[c|e|] w2] t2];
    cbn [fst snd state] in *.
  - split; [| intros H; now destruct (H c)].
    intros n _. rewrite Hst. split; [reflexivity |].
    eexists (_ :: t2). split; [reflexivity |].
    constructor; [exact Logic.I | exact Ht].
  - split; [discriminate |]. intros _. split; [exact Hst |].
    constructor; [exact Logic.I | exact Ht].
  - split; [discriminate |]. intros _. split; [exact Hst |].
    constructor; [exact Logic.I | exact Ht].
Qed.

(** X21.  What the first response decides.  A response with no
    [warnings] field makes the run raise [KeyError], also when it has
    results.  A response whose warnings hold the no-assets message ends the
    run: no record is written, not even of results that response carries,
    and the bookmark moves to the time read before the request. *)
Theorem sync_programs_first_response (fuel : nat) (s : stream) (w : World)
    (data : pydict) (rs : remote) :
  let start_date := get_bookmark (state w) "programs" "updatedAt" in
  let end_date := isoformat (mk_datetime (clock (ticks w)) 0) in
  let params := Some (programs_page start_date end_date 0) in
  let schema := WriteSchema "programs" (properties s) (key_properties s) in
  let call := Called (CallRequest "rest/asset/v1/programs.json" "programs"
                                  params) in
  request "rest/asset/v1/programs.json" "programs" params (remote_state w)
    = (inr data, rs) →
  (data !! "warnings" = None →
   sync_programs (S fuel) s w =
     (Raise (KeyError "warnings"), mk_World (state w) rs (S (ticks w)),
      [schema; call; Received data]))
  ∧ (∀ warnings, data !! "warnings" = Some (VList warnings) →
       py_str_in NO_ASSET_MSG warnings = true →
       let st := write_bookmark (state w) "programs" "updatedAt"
                                (VStr end_date) in
       sync_programs (S fuel) s w =
         (Ok 0, mk_World st rs (S (ticks w)),
          [schema; call; Received data; WriteState st])).
Proof.
  intros start_date end_date params schema call Hreq.
  split.
  - intros Hnone. rewrite sync_programs_run. cbv zeta.
    rewrite sync_programs_loop_step. cbv zeta. cbn [remote_state].
    fold start_date end_date params. rewrite Hreq.
    unfold py_item. rewrite Hnone. reflexivity.
  - intros warnings Hw Hin st. rewrite sync_programs_run. cbv zeta.
    rewrite sync_programs_loop_step. cbv zeta. cbn [remote_state].
    fold start_date end_date params. rewrite Hreq.
    unfold py_item. rewrite Hw. cbn [rbind no_asset_in]. rewrite Hin.
    reflexivity.
Qed.

End Programs.

(** X21 at an account with no program updated since 1 January: the run
    of 11 January writes no record and moves the bookmark to 11 January. *)
Lemma sync_programs_first_response_witness :
  let w := Scenario.start Assets.no_programs
             (Assets.programs_state "2020-01-01T00:00:00+00:00") in
  let st := write_bookmark (state w) "programs" "updatedAt"
              (VStr "2020-01-11T00:00:00+00:00") in
  sync_programs (RT := Reference.runtime) (EV := Scenario.env Assets.no_programs)
    3 Assets.programs w
  = (Ok 0, Scenario.world Assets.no_programs st [] 1,
     [WriteSchema "programs" (properties Assets.programs) ["id"];
      Called (CallRequest "rest/asset/v1/programs.json" "programs"
                (Some (programs_page (VStr "2020-01-01T00:00:00+00:00")
                         "2020-01-11T00:00:00+00:00" 0)));
      Received Assets.no_more_programs;
      WriteState st]).
Proof.
  intros w st.
  etransitivity;
    [ refine (proj2 (sync_programs_first_response (RT := Reference.runtime)
                       (EV := Scenario.env Assets.no_programs)
                       2 Assets.programs w Assets.no_more_programs
                       ([] : list string) _)
                [VStr NO_ASSET_MSG] _ _)
    | ].
  - run_eq.
  - reflexivity.
  - reflexivity.
  - run_eq.
Defined.

(** A run over one page of two programs, of which one is newer than the
    bookmark: two requests, at the offsets 0 and 200. *)
Lemma sync_programs_one_page :
  let r := sync_programs (RT := Reference.runtime)
             (EV := Scenario.env Assets.one_page) 5 Assets.programs
             (Scenario.start Assets.one_page
                (Assets.programs_state "2020-01-01T00:00:00+00:00")) in
  r.1.1 = Ok 1
  ∧ calls r.2
    = [CallRequest "rest/asset/v1/programs.json" "programs"
         (Some (programs_page (VStr "2020-01-01T00:00:00+00:00")
                  "2020-01-11T00:00:00+00:00" 0));
       CallRequest "rest/asset/v1/programs.json" "programs"
         (Some (programs_page (VStr "2020-01-01T00:00:00+00:00")
                  "2020-01-11T00:00:00+00:00" 200))]
  ∧ records r.2
    = [("programs", VDict {[ "id" := VInt 1;
                             "updatedAt" := VStr "2020-01-05T00:00:00+00:00" ]})]
  ∧ get_bookmark (state r.1.2) "programs" "updatedAt"
    = VStr "2020-01-11T00:00:00+00:00".
Proof.
  intros r. split; [run_eq |]. split; [run_eq |]. split; run_eq.
Qed.

(** ** Activity types *)

Section ActivityTypes.
Context `{RT : Runtime} `{EV : Env}.

Lemma write_all_run (s : stream) (name : string) (rows : list pyval)
    (recs : list pydict) :
  collect (format_values s) rows = inr recs →
  ∀ (record_count : Z) (w : World),
    write_all s name rows record_count w =
      (Ok (record_count + Z.of_nat (length recs)), w,
       map (λ r, WriteRecord name (VDict r)) recs).
Proof.
  revert recs. induction rows as [|row rows IH]; intros recs Hrecs c w.
  - injection Hrecs as <-. cbn. now rewrite Z.add_0_r.
  - cbn [collect] in Hrecs. cbn [write_all].
    destruct (format_values s row) as [e|record]; [discriminate |].
    cbn [rbind] in Hrecs.
    destruct (collect (format_values s) rows) as [e|recs']; [discriminate |].
    cbn [rbind] in Hrecs. injection Hrecs as <-.
    rewrite run_bind. cbn [lift ret]. rewrite run_bind. cbn [emit].
    rewrite (IH recs' eq_refl). cbn [app length map].
    rewrite Nat2Z.inj_succ. f_equal. f_equal. f_equal. lia.
Qed.

(** X22.  [sync_activity_types] makes one request, without parameters,
    and writes every row of the result, formatted, in the order of the
    response: no row is filtered by a bookmark, and the count is the number of
    rows. *)
Theorem sync_activity_types_writes_every_row (s : stream) (w : World)
    (data : pydict) (rs : remote) (result : pyval) (rows : list pyval)
    (recs : list pydict) :
  request "rest/v1/activities/types.json" "activity_types" None (remote_state w)
    = (inr data, rs) →
  data !! "result" = Some result →
  py_iter result = inr rows →
  collect (format_values s) rows = inr recs →
  sync_activity_types s w =
    (Ok (Z.of_nat (length recs)), mk_World (state w) rs (ticks w),
     WriteSchema "activity_types" (properties s) (key_properties s)
     :: Called (CallRequest "rest/v1/activities/types.json" "activity_types" None)
     :: Received data
     :: map (λ r, WriteRecord "activity_types" (VDict r)) recs).
Proof.
  intros Hreq Hres Hrows Hrecs. unfold sync_activity_types.
  rewrite run_bind. cbn [emit]. rewrite run_bind.
  unfold client_request. rewrite run_bind. unfold client. rewrite Hreq.
  rewrite run_bind. cbn [emit]. cbn [ret mret M_ret].
  rewrite run_bind. unfold py_item. rewrite Hres. cbn [lift ret].
  rewrite run_bind, Hrows. cbn [lift ret].
  rewrite (write_all_run s "activity_types" rows recs Hrecs). reflexivity.
Qed.

(** X23.  [sync_activity_types] keeps no bookmark: whatever its outcome
    it writes no state, leaves the state as it found it, and calls the client
    once, for the activity types endpoint. *)
Theorem sync_activity_types_keeps_no_bookmark (s : stream) (w : World) :
  let r := sync_activity_types s w in
  state r.1.2 = state w
  ∧ Forall not_state_write r.2
  ∧ calls r.2
    = [CallRequest "rest/v1/activities/types.json" "activity_types" None].
Proof.
  cbv zeta.
  destruct (preserves_sync_activity_types s (λ st, st = state w) not_state_write
              (λ ev H, H) w eq_refl) as (Ht & Hst & _).
  split; [exact Hst |]. split; [exact Ht |].
  unfold sync_activity_types.
  rewrite run_bind. cbn [emit]. rewrite run_bind.
  unfold client_request. rewrite run_bind. unfold client.
  destruct (request _ _ _ (remote_state w)) as [[e|data] rs]; [reflexivity |].
  rewrite run_bind. cbn [emit]. cbn [ret mret M_ret].
  rewrite run_bind. unfold py_item.
  destruct (data !! "result") as [result|]; cbn [lift raise ret];
    [| reflexivity].
  rewrite run_bind.
  destruct (py_iter result) as [e|rows]; cbn [lift raise ret]; [reflexivity |].
  assert (Hq : ∀ rows c w', calls (write_all s "activity_types" rows c w').2 = []).
  { clear. intros rows. induction rows as [|row rows IH]; intros c w';
      cbn [write_all]; [reflexivity |].
    rewrite run_bind.
    destruct (format_values s row) as [e|record]; cbn [lift raise ret];
      [reflexivity |].
    rewrite run_bind. cbn [emit]. specialize (IH (c + 1) w').
    destruct (write_all s "activity_types" rows (c + 1) w') as [[o w2] t2].
    exact IH. }
  specialize (Hq rows 0 (mk_World (state w) rs (ticks w))).
  destruct (write_all s "activity_types" rows 0 _) as [[o w2] t2].
  cbn [fst snd app] in *.
  change (calls (WriteSchema ?a ?b ?c :: Called ?d :: Received ?e :: ?t))
    with (d :: calls t).
  now rewrite Hq.
Qed.

(** X24.  A row of an export of activities that flattens to a record
    with no key [type] stops [sync_activities] with [KeyError]: the record is
    used as the schema of [format_value], which reads its [type] first.  No
    record is written for the row, nor for the rows after it. *)
Theorem sync_activities_rows_key_error (s : stream) (row : pydict)
    (rows : list pydict) (flat : pydict) (record_count : Z) (w : World) :
  flatten_activity row s = inr flat →
  flat !! "type" = None →
  sync_activities_rows s (row :: rows) record_count w
  = (Raise (KeyError "type"), w, []).
Proof.
  intros Hflat Hnone. cbn [sync_activities_rows].
  rewrite run_bind, Hflat. cbn [lift ret]. rewrite run_bind.
  unfold format_value, py_item. rewrite Hnone. reflexivity.
Qed.

End ActivityTypes.

(** X22 at an account with two activity types. *)
Lemma sync_activity_types_writes_every_row_witness :
  let w := Scenario.start Assets.two_types (mk_State ∅ VNone) in
  let r := sync_activity_types (RT := Reference.runtime)
             (EV := Scenario.env Assets.two_types) Scenario.activity_types w in
  r.1.1 = Ok 2
  ∧ records r.2
    = [("activity_types",
        VDict {[ "id" := VInt 1; "name" := VStr "Visit Webpage" ]});
       ("activity_types",
        VDict {[ "id" := VInt 2; "name" := VStr "Fill Out Form" ]})].
Proof.
  intros w r. subst r.
  rewrite (sync_activity_types_writes_every_row (RT := Reference.runtime)
             (EV := Scenario.env Assets.two_types) Scenario.activity_types w
             {[ "result" := VList [Assets.activity_type 1 "Visit Webpage";
                                   Assets.activity_type 2 "Fill Out Form"] ]}
             ([] : list string)
             (VList [Assets.activity_type 1 "Visit Webpage";
                     Assets.activity_type 2 "Fill Out Form"])
             [Assets.activity_type 1 "Visit Webpage";
              Assets.activity_type 2 "Fill Out Form"]
             [{[ "id" := VInt 1; "name" := VStr "Visit Webpage" ]};
              {[ "id" := VInt 2; "name" := VStr "Fill Out Form" ]}]
             eq_refl eq_refl eq_refl).
  - split; reflexivity.
  - run_eq.
Defined.

(** X24 at the page visit of 3 January. *)
Lemma sync_activities_rows_key_error_witness :
  let w := Scenario.start Scenario.busy_activities
             (Scenario.visits_state "2020-01-01T00:00:00+00:00") in
  sync_activities_rows (RT := Reference.runtime)
    (EV := Scenario.env Scenario.busy_activities) Scenario.visits
    [dict_of_zip Scenario.activity_header
       ["1"; "42"; "2020-01-03T00:00:00Z"; "1"; "9"; "home"; "{}"]] 0 w
  = (Raise (KeyError "type"), w, []).
Proof.
  intros w.
  refine (sync_activities_rows_key_error (RT := Reference.runtime)
            (EV := Scenario.env Scenario.busy_activities) Scenario.visits
            _ [] {[ "marketoGUID" := VStr "1"; "leadId" := VStr "42";
                    "activityDate" := VStr "2020-01-03T00:00:00Z";
                    "activityTypeId" := VStr "1";
                    "primary_attribute_name" := VStr "Webpage ID";
                    "primary_attribute_value" := VStr "home";
                    "primary_attribute_value_id" := VStr "9" ]} 0 w _ _).
  - run_eq.
  - reflexivity.
Defined.

(** ** The orchestrator: markers *)

Section Markers.
Context `{RT : Runtime} `{EV : Env}.

(** X25.  A selected stream whose name is none of those [sync] has a
    driver for stops the run with the not-implemented exception, after the
    state that names it as the stream being synced has been written: the
    marker stays on that stream. *)
Theorem sync_one_unknown_stream (fuel : nat) (s : stream) (w : World) :
  has_driver (tap_stream_id s) = false →
  let st1 := set_currently_syncing (state w) (VStr (tap_stream_id s)) in
  sync_one (sync_stream_by_type fuel) s w
  = (Raise (NotImplemented (tap_stream_id s)),
     mk_World st1 (remote_state w) (ticks w), [WriteState st1]).
Proof.
  intros Hno st1. unfold has_driver in Hno.
  repeat (apply orb_false_iff in Hno as [Hno ?]).
  rewrite sync_one_run. cbv zeta. unfold sync_stream_by_type. cbv zeta.
  repeat match goal with
         | H : _ = false |- _ => rewrite H; clear H
         end.
  reflexivity.
Qed.

Lemma sync_streams_falsy (driver : stream → M Z) (streams : list stream) :
  ∀ marker w,
    truthy marker = false →
    sync_streams driver marker streams w
    = sync_all driver (filter (λ s, Is_true (truthy (selected s))) streams) w.
Proof.
  induction streams as [|s rest IH]; intros marker w Hm; [reflexivity |].
  cbn [sync_streams]. rewrite filter_cons.
  destruct (truthy (selected s)) eqn:Hsel; cbn [negb].
  - rewrite decide_True by exact Logic.I. rewrite Hm. cbn [andb sync_all].
    apply bind_ext. intros _ w'. now apply IH.
  - rewrite decide_False by (intros []). now apply IH.
Qed.

(** X26.  When the state has no currently-syncing marker ([None], or any
    value that counts as false), [sync] syncs every selected stream of the
    catalog, in catalog order, and no other stream; after the last one it
    logs the warning about Corona when the account has none. *)
Theorem sync_without_marker (fuel : nat) (catalog : list stream) (w : World) :
  truthy (get_currently_syncing (state w)) = false →
  sync fuel catalog w
  = (sync_all (sync_stream_by_type fuel)
       (filter (λ s, Is_true (truthy (selected s))) catalog);;
     if negb use_corona then emit (LogWarning NO_CORONA_WARNING) else mret ()) w.
Proof.
  intros Hm. unfold sync. rewrite run_get_state_bind. rewrite !run_bind.
  now rewrite (sync_streams_falsy _ _ _ w Hm).
Qed.

Lemma sync_streams_all_skipped (driver : stream → M Z) (marker : pyval)
    (streams : list stream) (w : World) :
  truthy marker = true →
  (∀ s, s ∈ streams → truthy (selected s) = true →
     py_eq_str marker (tap_stream_id s) = false) →
  sync_streams driver marker streams w = (Ok (), w, []).
Proof.
  intros Hm. induction streams as [|s rest IH]; intros Hall; [reflexivity |].
  cbn [sync_streams].
  destruct (truthy (selected s)) eqn:Hsel; cbn [negb].
  - rewrite Hm. unfold differs_from.
    rewrite (Hall s) by (first [now left | exact Hsel]). cbn [negb andb].
    apply IH. intros s' Hs'. apply Hall. now right.
  - apply IH. intros s' Hs'. apply Hall. now right.
Qed.

(** X27.  When the marker names no selected stream of the catalog (the
    stream was deselected or removed, or the marker is not a string), [sync]
    skips every stream: it calls the client for nothing, writes no record and
    no state, so the marker stays, and returns. *)
Theorem sync_stale_marker (fuel : nat) (catalog : list stream) (w : World) :
  truthy (get_currently_syncing (state w)) = true →
  (∀ s, s ∈ catalog → truthy (selected s) = true →
     py_eq_str (get_currently_syncing (state w)) (tap_stream_id s) = false) →
  sync fuel catalog w
  = (Ok (), w,
     if use_corona then [] else [LogWarning NO_CORONA_WARNING]).
Proof.
  intros Hm Hall. unfold sync. rewrite run_get_state_bind. rewrite run_bind.
  rewrite (sync_streams_all_skipped _ _ _ w Hm Hall).
  destruct use_corona; reflexivity.
Qed.

Lemma marker_with_export_info (s : stream) bookmark export_id export_end st :
  currently_syncing (with_export_info s bookmark export_id export_end st)
  = currently_syncing st.
Proof. unfold with_export_info. now destruct (truthy bookmark). Qed.

Lemma state_writes_not_state_write (P : State → Prop) (ev : event) :
  not_state_write ev → state_writes P ev.
Proof. destruct ev; cbn; auto. intros []. Qed.

Lemma preserves_marker (fuel : nat) (s : stream) (v : pyval) :
  preserves (λ st, currently_syncing st = v)
    (state_writes (λ st, currently_syncing st = v))
    (sync_stream_by_type fuel s) (λ _, True).
Proof.
  set (I := λ st, currently_syncing st = v).
  assert (E_other : ∀ ev, not_state_write ev → state_writes I ev)
    by apply state_writes_not_state_write.
  assert (I_E : ∀ st, I st → state_writes I (WriteState st)) by auto.
  assert (I_write : ∀ st name key val, I st → I (write_bookmark st name key val))
    by auto.
  assert (H_info : ∀ bookmark export_id export_end st, I st →
            let st' := with_export_info s bookmark export_id export_end st in
            I st' ∧ state_writes I (WriteState st')).
  { intros b i e st Hst. cbv zeta. unfold I. cbn [state_writes].
    now rewrite marker_with_export_info. }
  unfold sync_stream_by_type. cbv zeta.
  repeat match goal with
         | |- preserves _ _ (if ?b then _ else _) _ => destruct b
         end.
  - apply preserves_sync_activity_types; assumption.
  - unfold sync_leads. preserves_auto; try exact Logic.I; auto.
    match goal with
    | |- preserves _ _ (sync_leads_loop _ _ ?ib _ _ _ _) _ =>
        apply (preserves_sync_leads_loop s I (state_writes I) ib (λ _, True))
    end;
      [ exact E_other
      | intros st ? ? Hst; now apply H_info
      | intros st Hst; now apply H_info
      | intros st b Hst _; now apply H_info
      | intros; apply returns_anything
      | exact Logic.I ].
  - apply (preserves_sync_activities s I (state_writes I) (λ _, True));
      [ exact E_other
      | intros st ? ? Hst; now apply H_info
      | intros st Hst; now apply H_info
      | intros st b Hst _; now apply H_info
      | intros; exact Logic.I ].
  - unfold sync_paginated. preserves_auto; try exact Logic.I; auto.
    apply preserves_sync_paginated_loop; auto.
  - apply preserves_sync_programs; auto.
  - apply preserves_raise.
Qed.

(** X28.  No driver touches the currently-syncing marker.  While a stream
    is being synced every state written names it as the current stream; when
    its driver does not return, the state the run ends in still does, so the
    next run resumes at that stream; when it returns, the marker is cleared. *)
Theorem sync_one_keeps_marker (fuel : nat) (s : stream) (w : World) :
  let r := sync_one (sync_stream_by_type fuel) s w in
  let marked := λ st, get_currently_syncing st = VStr (tap_stream_id s) in
  (r.1.1 = Ok () → get_currently_syncing (state r.1.2) = VNone)
  ∧ (r.1.1 ≠ Ok () → marked (state r.1.2) ∧ Forall (state_writes marked) r.2)
  ∧ ∃ t, Forall (state_writes marked) t
         ∧ (r.2 = t ∨ ∃ st, r.2 = t ++ [WriteState st]).
Proof.
  cbv zeta. rewrite sync_one_run. cbv zeta.
  set (st1 := set_currently_syncing (state w) (VStr (tap_stream_id s))).
  destruct (preserves_marker fuel s (VStr (tap_stream_id s))
              (mk_World st1 (remote_state w) (ticks w)) eq_refl)
    as (Ht & Hst & _).
  destruct (sync_stream_by_type fuel s _) as [[[n|e|] w2] t2];
    cbn [fst snd state] in *.
  - split; [reflexivity |]. split; [intros H; now destruct H |].
    exists (WriteState st1 :: t2 ++ [RecordCount (tap_stream_id s) n]).
    split.
    + constructor; [reflexivity |]. apply Forall_app. split; [exact Ht |].
      repeat constructor.
    + right. eexists. cbn [app]. rewrite <- app_assoc. reflexivity.
  - split; [discriminate |].
    assert (Hall : Forall (state_writes
                             (λ st, get_currently_syncing st
                                    = VStr (tap_stream_id s)))
                          (WriteState st1 :: t2))
      by (constructor; [reflexivity | exact Ht]).
    split; [intros _; split; [exact Hst | exact Hall] |].
    eexists. split; [exact Hall | now left].
  - split; [discriminate |].
    assert (Hall : Forall (state_writes
                             (λ st, get_currently_syncing st
                                    = VStr (tap_stream_id s)))
                          (WriteState st1 :: t2))
      by (constructor; [reflexivity | exact Ht]).
    split; [intros _; split; [exact Hst | exact Hall] |].
    eexists. split; [exact Hall | now left].
Qed.

End Markers.

(** X25 at a catalog entry for opportunities. *)
Lemma sync_one_unknown_stream_witness :
  let w := Scenario.start Assets.two_types (mk_State ∅ VNone) in
  let st1 := mk_State ∅ (VStr "opportunities") in
  sync_one (sync_stream_by_type (RT := Reference.runtime)
              (EV := Scenario.env Assets.two_types) 5)
    Assets.opportunities w
  = (Raise (NotImplemented "opportunities"),
     Scenario.world Assets.two_types st1 [] 0, [WriteState st1]).
Proof.
  intros w st1.
  exact (sync_one_unknown_stream (RT := Reference.runtime)
           (EV := Scenario.env Assets.two_types) 5 Assets.opportunities w
           eq_refl).
Defined.

(** X26 at a catalog of activity types, leads (not selected) and
    campaigns: activity types and campaigns are synced. *)
Lemma sync_without_marker_witness :
  let w := Scenario.start Assets.two_types (mk_State ∅ VNone) in
  sync (RT := Reference.runtime) (EV := Scenario.env Assets.two_types) 5
    [Scenario.activity_types; Scenario.unselected Scenario.leads;
     Scenario.campaigns] w
  = (sync_all (EV := Scenario.env Assets.two_types)
       (sync_stream_by_type (RT := Reference.runtime) 5)
       [Scenario.activity_types; Scenario.campaigns];;
     if negb (use_corona (Env := Scenario.env Assets.two_types))
     then emit (LogWarning NO_CORONA_WARNING) else mret ()) w.
Proof.
  intros w.
  exact (sync_without_marker (RT := Reference.runtime)
           (EV := Scenario.env Assets.two_types) 5
           [Scenario.activity_types; Scenario.unselected Scenario.leads;
            Scenario.campaigns] w eq_refl).
Defined.

(** X27 at a state left by a run interrupted in leads, with leads no
    longer selected: nothing is synced, activity types neither. *)
Lemma sync_stale_marker_witness :
  let w := Scenario.start Scenario.two_windows
             (set_currently_syncing
                (Scenario.leads_state "2020-01-01T00:00:00+00:00" None)
                (VStr "leads")) in
  sync (RT := Reference.runtime) (EV := Scenario.env Scenario.two_windows) 5
    [Scenario.activity_types; Scenario.unselected Scenario.leads] w
  = (Ok (), w, [LogWarning NO_CORONA_WARNING]).
Proof.
  intros w.
  refine (sync_stale_marker (RT := Reference.runtime)
            (EV := Scenario.env Scenario.two_windows) 5
            [Scenario.activity_types; Scenario.unselected Scenario.leads] w
            eq_refl _).
  intros s Hs Hsel.
  apply list_elem_of_In in Hs. destruct Hs as [<-|[<-|[]]];
    [reflexivity | discriminate].
Defined.

(** ** List categories: what is written, and what an interrupted run leaves *)

Section ListRecords.
Context `{RT : Runtime} `{EV : Env}.

Lemma record_not_older_emit_newer (s : stream) (name key : string)
    (start_date : pyval) (rows : list pyval) :
  ∀ record_count,
    emits (record_not_older name key start_date)
      (emit_newer s name key start_date rows record_count).
Proof.
  induction rows as [|row rows IH]; intros c w; cbn [emit_newer];
    [constructor |].
  rewrite run_bind.
  destruct (format_values s row) as [e|record]; cbn [lift raise ret];
    [constructor |].
  rewrite run_bind. unfold py_item.
  destruct (record !! key) as [v|] eqn:Hv; cbn [lift raise ret];
    [| constructor].
  rewrite run_bind.
  destruct (py_ge v start_date) as [e|[|]] eqn:Hge; cbn [lift raise ret];
    [constructor | |].
  - rewrite run_bind. cbn [emit]. specialize (IH (c + 1) w).
    destruct (emit_newer s name key start_date rows (c + 1) w) as [[o w2] t2].
    cbn [fst snd app] in *. constructor; [| exact IH].
    cbn. split; [reflexivity |]. now exists record, v.
  - specialize (IH c w).
    destruct (emit_newer s name key start_date rows c w) as [[o w2] t2].
    exact IH.
Qed.

Lemma record_not_older_paginated_loop (s : stream) (start_date : pyval)
    (fuel : nat) :
  ∀ params record_count,
    emits (record_not_older (tap_stream_id s) (replication_key s) start_date)
      (sync_paginated_loop fuel s start_date params record_count).
Proof.
  induction fuel as [|fuel IH]; intros params c; cbn [sync_paginated_loop];
    emits_auto; try exact Logic.I; try (intros; exact Logic.I).
  - apply record_not_older_emit_newer.
  - apply IH.
Qed.

Lemma record_not_older_programs_loop (s : stream) (start_date : pyval)
    (end_date : string) (fuel : nat) :
  ∀ offset record_count,
    emits (record_not_older "programs" "updatedAt" start_date)
      (sync_programs_loop fuel s start_date end_date offset record_count).
Proof.
  induction fuel as [|fuel IH]; intros offset c; cbn [sync_programs_loop];
    emits_auto; try exact Logic.I; try (intros; exact Logic.I).
  - apply record_not_older_emit_newer.
  - apply IH.
Qed.

(** X29.  Every record a run of [sync_paginated] or [sync_programs]
    writes is a record of the stream whose replication field compares [>=] to
    the bookmark the run started from: rows the server returns that are older
    are not written, whatever the outcome of the run. *)
Theorem list_sync_writes_no_older_record (fuel : nat) (s : stream) (w : World) :
  Forall (record_not_older (tap_stream_id s) (replication_key s)
            (get_bookmark (state w) (tap_stream_id s) (replication_key s)))
         (sync_paginated fuel s w).2
  ∧ Forall (record_not_older "programs" "updatedAt"
              (get_bookmark (state w) "programs" "updatedAt"))
           (sync_programs fuel s w).2.
Proof.
  split.
  - rewrite sync_paginated_run. cbv zeta.
    match goal with
    | |- context [sync_paginated_loop fuel s ?sd ?p 0 ?w'] =>
        pose proof (record_not_older_paginated_loop s sd fuel p 0 w') as Ht;
        destruct (sync_paginated_loop fuel s sd p 0 w') as [[[n|e|] w2] t2]
    end; cbn [fst snd] in *;
      do 2 (constructor; [exact Logic.I |]); try exact Ht.
    apply Forall_app. split; [exact Ht | repeat constructor].
  - rewrite sync_programs_run. cbv zeta.
    match goal with
    | |- context [sync_programs_loop fuel s ?sd ?ed 0 0 ?w'] =>
        pose proof (record_not_older_programs_loop s sd ed fuel 0 0 w') as Ht;
        destruct (sync_programs_loop fuel s sd ed 0 0 w') as [[[n|e|] w2] t2]
    end; cbn [fst snd] in *;
      (constructor; [exact Logic.I |]); try exact Ht.
    apply Forall_app. split; [exact Ht | repeat constructor].
Qed.

Lemma paginated_loop_frame (s : stream) (st0 : State) (start_date : pyval)
    (fuel : nat) :
  ∀ params record_count,
    preserves
      (λ st, ∀ name key, name ≠ tap_stream_id s ∨ key ≠ "next_page_token" →
               get_bookmark st name key = get_bookmark st0 name key)
      (λ _, True)
      (sync_paginated_loop fuel s start_date params record_count) (λ _, True).
Proof.
  induction fuel as [|fuel IH]; intros params c; cbn [sync_paginated_loop].
  - preserves_auto.
  - preserves_auto; try exact Logic.I.
    + apply preserves_client_request. auto.
    + apply preserves_emit_newer. auto.
    + match goal with
      | |- preserves _ _ (match ?d !! "nextPageToken" with _ => _ end) _ =>
          destruct (d !! "nextPageToken") as [token|]
      end; preserves_auto; try exact Logic.I; auto.
      intros st Hst name key Hne. rewrite get_write_bookmark_ne.
      * now apply Hst.
      * destruct Hne as [Hne|Hne]; [left | right]; congruence.
Qed.

(** X30.  A run of [sync_paginated] that does not return changes nothing
    in the state but the [next_page_token] bookmark of its stream: the
    replication bookmark is as the run found it, so the next run, which
    resumes at the persisted token, filters by the same bookmark. *)
Theorem sync_paginated_interrupted (fuel : nat) (s : stream) (w : World) :
  let r := sync_paginated fuel s w in
  (∀ n, r.1.1 ≠ Ok n) →
  (∀ name key, name ≠ tap_stream_id s ∨ key ≠ "next_page_token" →
     get_bookmark (state r.1.2) name key = get_bookmark (state w) name key)
  ∧ currently_syncing (state r.1.2) = currently_syncing (state w).
Proof.
  cbv zeta. rewrite sync_paginated_run. cbv zeta.
  match goal with
  | |- context [sync_paginated_loop fuel s ?sd ?p 0 ?w'] =>
      destruct (paginated_loop_frame s (state w) sd fuel p 0 w')
        as (_ & Hst & _); [intros; reflexivity |];
      destruct (preserves_sync_paginated_loop s
                  (λ st, currently_syncing st = currently_syncing (state w))
                  (λ _, True) (λ _ _, Logic.I) (λ _ _, Logic.I)
                  (λ st name key v _ _ H, H) fuel sd p 0 w' eq_refl)
        as (_ & Hm & _);
      destruct (sync_paginated_loop fuel s sd p 0 w') as [[[n|e|] w2] t2]
  end; cbn [fst snd state] in *; intros Hno.
  - now destruct (Hno n).
  - split; assumption.
  - split; assumption.
Qed.

End ListRecords.

(** X30 at a run that is cut off after the first page of campaigns: the
    token of that page is persisted, the bookmark is still 1 January. *)
Lemma sync_paginated_interrupted_witness :
  let r := sync_paginated (RT := Reference.runtime)
             (EV := Scenario.env Scenario.two_pages) 1 Scenario.campaigns
             (Scenario.start Scenario.two_pages
                (Scenario.campaigns_state "2020-01-01T00:00:00+00:00" None)) in
  get_bookmark (state r.1.2) "campaigns" "updatedAt"
  = VStr "2020-01-01T00:00:00+00:00"
  ∧ get_bookmark (state r.1.2) "campaigns" "next_page_token" = VStr "t1".
Proof.
  intros r. split; [| run_eq].
  etransitivity;
    [ refine (proj1 (sync_paginated_interrupted (RT := Reference.runtime)
                       (EV := Scenario.env Scenario.two_pages) 1
                       Scenario.campaigns _ _) "campaigns" "updatedAt" _)
    | reflexivity ].
  - intros n. vm_compute. discriminate.
  - right. discriminate.
Defined.
